(** * The fraud-alert recording pipeline: route handlers, database helpers,
      scoring fallback and demo generators, embedded from the JavaScript sources.

    Sources embedded here:
    - models/database.js   (schema and [dbHelpers])
    - routes/blockchain.js (POST /record, POST /batch-record,
                            GET /records/:transactionId)
    - routes/fraud.js      (POST /alert, POST /alerts/batch, POST /retrain)
    - routes/transactions.js (POST /, GET and PUT /:transactionId, POST /batch,
                            [runFraudDetection])
    - demo/demo_data.js, demo/seed_database.js (generators and seeding)

    Conventions.  A JavaScript object is a record whose optional fields are
    [option]s ([None] is [undefined]/[null], which node-sqlite3 binds as SQL
    NULL); a request body is an object whose fields have the types the routes
    expect, and an item of a batch array of objects is such an object or
    [null].  A string is held as its UTF-8 encoding.  JSON text is
    represented by the JSON value it serialises.  Numbers are exact
    rationals.  Code that awaits promises is written in a state and exception
    monad over the database; a rejected promise is a thrown error, and a
    handler that awaits a promise which never settles does not return.
    Database reads and writes fail only by constraint violation.
    [blockchain/cardano_integration.js], the Python scripts and SQLite's
    conversion of bound text are outside the sources and enter as
    parameters. *)

From Stdlib Require Import List String Ascii ZArith QArith Qround Bool Arith Lia Lqa.
From Stdlib Require Import DecimalString.
Import ListNotations.
Open Scope string_scope.

Set Implicit Arguments.

(* ------------------------------------------------------------------ *)
(** ** JavaScript values *)

#[local] Unset Elimination Schemes.
Inductive JSValue : Type :=
| JUndefined
| JNull
| JBool (b : bool)
| JNum (q : Q)
| JStr (s : string)
| JArr (items : list JSValue)
| JObj (fields : list (string * JSValue)).
#[local] Set Elimination Schemes.

(** ToBoolean. *)
Definition truthy (v : JSValue) : bool :=
  match v with
  | JUndefined | JNull => false
  | JBool b => b
  | JNum q => negb (Qeq_bool q 0)
  | JStr s => negb (s =? "")
  | JArr _ | JObj _ => true
  end.

(** [a || b]. *)
Definition js_or (a b : JSValue) : JSValue := if truthy a then a else b.

(** Truthiness of optional typed fields, as [!field] tests them. *)
Definition truthy_str (s : option string) : bool :=
  match s with Some x => negb (x =? "") | None => false end.

Definition truthy_num (q : option Q) : bool :=
  match q with Some x => negb (Qeq_bool x 0) | None => false end.

(** [a > b] on numbers. *)
Definition Qgtb (a b : Q) : bool := negb (Qle_bool a b).

(* ------------------------------------------------------------------ *)
(** ** Thrown errors and the state-and-exception monad *)

Inductive Result (A : Type) : Type :=
| Ok (a : A)
| Throw (message : string).
Arguments Ok {A} a.
Arguments Throw {A} message.

Definition M (S A : Type) : Type := S -> Result A * S.

Definition ret {S A} (a : A) : M S A := fun s => (Ok a, s).
Definition throw {S A} (msg : string) : M S A := fun s => (Throw msg, s).
Definition bind {S A B} (m : M S A) (k : A -> M S B) : M S B :=
  fun s => match m s with
           | (Ok a, s') => k a s'
           | (Throw e, s') => (Throw e, s')
           end.

Declare Scope js_scope.
Delimit Scope js_scope with js.
Notation "x <- m ;; k" := (bind m (fun x => k))
  (at level 61, m at next level, right associativity) : js_scope.
Notation "m ;;; k" := (bind m (fun _ => k))
  (at level 61, right associativity) : js_scope.

(** A body that awaits a promise which may never settle: [None] is a body
    that does not return, with the state it has reached. *)
Definition W (S A : Type) : Type := S -> option (Result A) * S.

(** A step that does return. *)
Definition immediate {S A} (m : M S A) : W S A :=
  fun s => let (r, s') := m s in (Some r, s').

Definition wbind {S A B} (m : W S A) (k : A -> W S B) : W S B :=
  fun s => match m s with
           | (Some (Ok a), s') => k a s'
           | (Some (Throw e), s') => (Some (Throw e), s')
           | (None, s') => (None, s')
           end.

Declare Scope wait_scope.
Delimit Scope wait_scope with wait.
Notation "x <- m ;; k" := (wbind m (fun x => k))
  (at level 61, m at next level, right associativity) : wait_scope.
Notation "m ;;; k" := (wbind m (fun _ => k))
  (at level 61, right associativity) : wait_scope.

(* ------------------------------------------------------------------ *)
(** ** models/database.js: schema *)

(** Row of [transactions], as a SELECT returns it.  The NOT NULL columns are
    not optional.  The columns [is_fraud] and [fraud_score] hold a number,
    NULL ([JNull]) or text.  In all three tables the columns that default to
    CURRENT_TIMESTAMP are left out: no modelled code reads them, and the only
    one written after the insert is [updated_at], by
    [updateTransactionFraud]. *)
Record TransactionRow : Type := {
  tx_id : nat;
  tx_transaction_id : string;
  tx_user_id : string;
  tx_amount : Q;
  tx_currency : option string;
  tx_merchant_name : option string;
  tx_merchant_category : option string;
  tx_transaction_type : string;
  tx_location_lat : option Q;
  tx_location_lng : option Q;
  tx_device_id : option string;
  tx_ip_address : option string;
  tx_is_fraud : JSValue;
  tx_fraud_score : JSValue;
  tx_fraud_reason : option string
}.

(** Row of [fraud_alerts]. *)
Record FraudAlertRow : Type := {
  fa_id : nat;
  fa_transaction_id : string;
  fa_alert_type : string;
  fa_severity : string;
  fa_confidence_score : Q;
  fa_ml_model_used : string;
  fa_features : option JSValue;
  fa_cardano_tx_hash : option string;
  fa_cardano_nft_id : option string;
  fa_status : string
}.

(** Row of [blockchain_records]:
    [transaction_id TEXT NOT NULL], [cardano_tx_hash TEXT UNIQUE NOT NULL],
    [block_height INTEGER], [confirmation_status TEXT DEFAULT 'pending'].
    The FOREIGN KEY clauses are not enforced: the module never turns
    [PRAGMA foreign_keys] on. *)
Record BlockchainRow : Type := {
  br_id : nat;
  br_transaction_id : string;
  br_cardano_tx_hash : string;
  br_nft_id : option string;
  br_metadata : option JSValue;
  br_block_height : option Z;
  br_confirmation_status : string
}.

Record Db : Type := {
  transactions : list TransactionRow;
  fraud_alerts : list FraudAlertRow;
  blockchain_records : list BlockchainRow
}.

Definition empty_db : Db :=
  {| transactions := []; fraud_alerts := []; blockchain_records := [] |}.

(** INTEGER PRIMARY KEY AUTOINCREMENT: one more than the largest id in use
    (rows are never deleted). *)
Definition next_id (ids : list nat) : nat := S (list_max ids).

(* ------------------------------------------------------------------ *)
(** ** models/database.js: [dbHelpers] *)

(** The objects handed to the helpers. *)
Record TransactionData : Type := {
  td_transaction_id : option string;
  td_user_id : option string;
  td_amount : option Q;
  td_currency : option string;
  td_merchant_name : option string;
  td_merchant_category : option string;
  td_transaction_type : option string;
  td_location_lat : option Q;
  td_location_lng : option Q;
  td_device_id : option string;
  td_ip_address : option string
}.

Record AlertData : Type := {
  ad_transaction_id : option string;
  ad_alert_type : option string;
  ad_severity : option string;
  ad_confidence_score : option Q;
  ad_ml_model_used : option string;
  ad_features : option JSValue;
  ad_cardano_tx_hash : option string;
  ad_cardano_nft_id : option string
}.

(** A blockchain record object, as the ledger integration or the demo
    generator builds it. *)
Record RecordData : Type := {
  rd_transaction_id : option string;
  rd_cardano_tx_hash : option string;
  rd_nft_id : option string;
  rd_metadata : option JSValue;
  rd_block_height : option Z;
  rd_confirmation_status : option string
}.

Definition not_null (table column : string) : string :=
  "SQLITE_CONSTRAINT: NOT NULL constraint failed: " ++ table ++ "." ++ column.

Definition unique_failed (table column : string) : string :=
  "SQLITE_CONSTRAINT: UNIQUE constraint failed: " ++ table ++ "." ++ column.

Definition existsb_eq (s : string) (l : list string) : bool :=
  existsb (String.eqb s) l.

(** [createTransaction]: the INSERT names eleven columns; the fraud columns
    take their defaults. *)
Definition createTransaction (d : TransactionData) : M Db (nat * string) :=
  fun db =>
    match td_transaction_id d, td_user_id d, td_amount d, td_transaction_type d with
    | None, _, _, _ => (Throw (not_null "transactions" "transaction_id"), db)
    | _, None, _, _ => (Throw (not_null "transactions" "user_id"), db)
    | _, _, None, _ => (Throw (not_null "transactions" "amount"), db)
    | _, _, _, None => (Throw (not_null "transactions" "transaction_type"), db)
    | Some tid, Some uid, Some amt, Some ty =>
        if existsb_eq tid (map tx_transaction_id (transactions db))
        then (Throw (unique_failed "transactions" "transaction_id"), db)
        else
          let id := next_id (map tx_id (transactions db)) in
          let row := {| tx_id := id;
                        tx_transaction_id := tid;
                        tx_user_id := uid;
                        tx_amount := amt;
                        tx_currency := td_currency d;
                        tx_merchant_name := td_merchant_name d;
                        tx_merchant_category := td_merchant_category d;
                        tx_transaction_type := ty;
                        tx_location_lat := td_location_lat d;
                        tx_location_lng := td_location_lng d;
                        tx_device_id := td_device_id d;
                        tx_ip_address := td_ip_address d;
                        tx_is_fraud := JNum 0;
                        tx_fraud_score := JNum 0;
                        tx_fraud_reason := None |} in
          (Ok (id, tid),
           {| transactions := transactions db ++ [row];
              fraud_alerts := fraud_alerts db;
              blockchain_records := blockchain_records db |})
    end.

(** [getTransaction]: [SELECT * FROM transactions WHERE transaction_id = ?];
    a NULL parameter matches no row. *)
Definition getTransaction (transactionId : option string)
  : M Db (option TransactionRow) :=
  fun db =>
    match transactionId with
    | None => (Ok None, db)
    | Some tid =>
        (Ok (find (fun r => tx_transaction_id r =? tid) (transactions db)), db)
    end.

Definition set_fraud (isFraud fraudScore : JSValue) (fraudReason : option string)
  (r : TransactionRow) : TransactionRow :=
  {| tx_id := tx_id r;
     tx_transaction_id := tx_transaction_id r;
     tx_user_id := tx_user_id r;
     tx_amount := tx_amount r;
     tx_currency := tx_currency r;
     tx_merchant_name := tx_merchant_name r;
     tx_merchant_category := tx_merchant_category r;
     tx_transaction_type := tx_transaction_type r;
     tx_location_lat := tx_location_lat r;
     tx_location_lng := tx_location_lng r;
     tx_device_id := tx_device_id r;
     tx_ip_address := tx_ip_address r;
     tx_is_fraud := isFraud;
     tx_fraud_score := fraudScore;
     tx_fraud_reason := fraudReason |}.

Section Binding.

(** What a column of numeric affinity ([is_fraud BOOLEAN], [fraud_score REAL])
    gives back after a string, an array or an object was bound to it: SQLite
    turns a text that is a well-formed number into that number and keeps any
    other text.  The conversion belongs to SQLite and node-sqlite3, outside
    the sources. *)
Variable column_text : JSValue -> JSValue.

(** What such a column gives back after [db.run] bound a JavaScript value to
    it: node-sqlite3 leaves [undefined] unbound, which is NULL, and binds a
    boolean as the integer 1 or 0. *)
Definition column_value (v : JSValue) : JSValue :=
  match v with
  | JUndefined | JNull => JNull
  | JBool b => JNum (if b then 1 else 0)
  | JNum q => JNum q
  | JStr _ | JArr _ | JObj _ => column_text v
  end.

(** [updateTransactionFraud]: resolves with the number of changed rows. *)
Definition updateTransactionFraud (transactionId : option string)
  (isFraud fraudScore : JSValue) (fraudReason : option string) : M Db nat :=
  fun db =>
    let hit r := match transactionId with
                 | Some tid => tx_transaction_id r =? tid
                 | None => false
                 end in
    (Ok (List.length (filter hit (transactions db))),
     {| transactions :=
          map (fun r => if hit r
                        then set_fraud (column_value isFraud) (column_value fraudScore)
                               fraudReason r
                        else r)
              (transactions db);
        fraud_alerts := fraud_alerts db;
        blockchain_records := blockchain_records db |}).

End Binding.

(** [createFraudAlert]: [status] takes its default ['active']. *)
Definition createFraudAlert (a : AlertData) : M Db nat :=
  fun db =>
    match ad_transaction_id a, ad_alert_type a, ad_severity a,
          ad_confidence_score a, ad_ml_model_used a with
    | None, _, _, _, _ => (Throw (not_null "fraud_alerts" "transaction_id"), db)
    | _, None, _, _, _ => (Throw (not_null "fraud_alerts" "alert_type"), db)
    | _, _, None, _, _ => (Throw (not_null "fraud_alerts" "severity"), db)
    | _, _, _, None, _ => (Throw (not_null "fraud_alerts" "confidence_score"), db)
    | _, _, _, _, None => (Throw (not_null "fraud_alerts" "ml_model_used"), db)
    | Some tid, Some ty, Some sev, Some conf, Some model =>
        let id := next_id (map fa_id (fraud_alerts db)) in
        let row := {| fa_id := id;
                      fa_transaction_id := tid;
                      fa_alert_type := ty;
                      fa_severity := sev;
                      fa_confidence_score := conf;
                      fa_ml_model_used := model;
                      fa_features := ad_features a;
                      fa_cardano_tx_hash := ad_cardano_tx_hash a;
                      fa_cardano_nft_id := ad_cardano_nft_id a;
                      fa_status := "active" |} in
        (Ok id,
         {| transactions := transactions db;
            fraud_alerts := fraud_alerts db ++ [row];
            blockchain_records := blockchain_records db |})
    end.

(** [createBlockchainRecord]: the INSERT names
    [transaction_id, cardano_tx_hash, nft_id, metadata, block_height] only;
    [confirmation_status] is not among them and takes its default. *)
Definition createBlockchainRecord (recordData : RecordData) : M Db nat :=
  fun db =>
    match rd_transaction_id recordData, rd_cardano_tx_hash recordData with
    | None, _ => (Throw (not_null "blockchain_records" "transaction_id"), db)
    | _, None => (Throw (not_null "blockchain_records" "cardano_tx_hash"), db)
    | Some tid, Some hash =>
        if existsb_eq hash (map br_cardano_tx_hash (blockchain_records db))
        then (Throw (unique_failed "blockchain_records" "cardano_tx_hash"), db)
        else
          let id := next_id (map br_id (blockchain_records db)) in
          let row := {| br_id := id;
                        br_transaction_id := tid;
                        br_cardano_tx_hash := hash;
                        br_nft_id := rd_nft_id recordData;
                        br_metadata := rd_metadata recordData;
                        br_block_height := rd_block_height recordData;
                        br_confirmation_status := "pending" |} in
          (Ok id,
           {| transactions := transactions db;
              fraud_alerts := fraud_alerts db;
              blockchain_records := blockchain_records db ++ [row] |})
    end.

(** [updateFraudAlertWithBlockchain] (routes/fraud.js):
    [UPDATE fraud_alerts SET cardano_tx_hash = ?, cardano_nft_id = ? WHERE id = ?]. *)
Definition updateFraudAlertWithBlockchain (alertId : nat)
  (blockchainRecord : RecordData) : M Db nat :=
  fun db =>
    let hit r := Nat.eqb (fa_id r) alertId in
    (Ok (List.length (filter hit (fraud_alerts db))),
     {| transactions := transactions db;
        fraud_alerts :=
          map (fun r =>
                 if hit r
                 then {| fa_id := fa_id r;
                         fa_transaction_id := fa_transaction_id r;
                         fa_alert_type := fa_alert_type r;
                         fa_severity := fa_severity r;
                         fa_confidence_score := fa_confidence_score r;
                         fa_ml_model_used := fa_ml_model_used r;
                         fa_features := fa_features r;
                         fa_cardano_tx_hash := rd_cardano_tx_hash blockchainRecord;
                         fa_cardano_nft_id := rd_nft_id blockchainRecord;
                         fa_status := fa_status r |}
                 else r)
              (fraud_alerts db);
        blockchain_records := blockchain_records db |}).

(* ------------------------------------------------------------------ *)
(** ** The server: database, ledger integration, responses *)

Record FraudPrediction : Type := {
  fp_is_fraud : JSValue;
  fp_fraud_score : JSValue;
  fp_confidence : JSValue
}.

(** The state a request handler runs in: the database and the log of calls
    made to [cardanoIntegration.createFraudAlertTransaction]. *)
Record World : Type := {
  db : Db;
  submissions : list (TransactionRow * FraudPrediction)
}.

Definition lift_db {A} (m : M Db A) : M World A :=
  fun w => let (r, d) := m (db w) in
           (r, {| db := d; submissions := submissions w |}).

Record ItemError : Type := {
  ie_transaction_id : option string;
  ie_error : string
}.

(** The prediction object [runFraudDetection] resolves with. *)
Record FraudDetection : Type := {
  fd_is_fraud : JSValue;
  fd_fraud_score : JSValue;
  fd_fraud_reason : string;
  fd_confidence : JSValue;
  fd_xgb_probability : JSValue;
  fd_kmeans_anomaly : JSValue
}.

(** Entries of a batch response's [results]; each carries [status: 'success']. *)
Inductive ItemResult : Type :=
| RecordedItem (transaction_id : option string) (blockchain_record : RecordData)
| AlertedItem (alert_id : nat) (transaction_id : option string)
    (blockchain_record : RecordData)
| ScoredItem (transaction_id : string) (fraud_detection : FraudDetection).

Inductive Body : Type :=
| ErrorBody (error : string) (transaction_id : option string)
    (message : option string)
| RecordBody (transaction_id : option string) (blockchain_record : RecordData)
    (message : string)
| AlertBody (alert_id : nat) (transaction_id : option string)
    (blockchain_record : RecordData) (message : string)
| BatchBody (processed : nat) (results : list ItemResult)
    (errors : list ItemError) (message : string).

Record Response : Type := { status : nat; body : Body }.

(** [try { ... } catch (error) { res.status(500).json({error, message}) }]
    around a handler body. *)
Definition respond (failure : string) (m : M World Response)
  : World -> Response * World :=
  fun w => match m w with
           | (Ok r, w') => (r, w')
           | (Throw e, w') =>
               ({| status := 500; body := ErrorBody failure None (Some e) |}, w')
           end.

(** The same around a body that may not return: [None] is a request that is
    never answered. *)
Definition respond_pending (failure : string) (m : W World Response)
  : World -> option Response * World :=
  fun w => match m w with
           | (Some (Ok r), w') => (Some r, w')
           | (Some (Throw e), w') =>
               (Some {| status := 500; body := ErrorBody failure None (Some e) |}, w')
           | (None, w') => (None, w')
           end.

(** A route that always answers, among routes that may not. *)
Definition answered {R : Type} (route : World -> R * World)
  : World -> option R * World :=
  fun w => let (r, w') := route w in (Some r, w').

(* ------------------------------------------------------------------ *)
(** ** String operations of the JavaScript runtime used by the routes *)

Definition LF : string := String "010"%char EmptyString.

(** The string with the given bytes. *)
Definition bytes (codes : list nat) : string :=
  fold_right (fun n s => String (ascii_of_nat n) s) EmptyString codes.

(** The code points [String.prototype.trim] removes, in UTF-8: the white
    space U+0009, U+000B, U+000C, U+0020, U+00A0, U+FEFF and the space
    separators U+1680, U+2000 to U+200A, U+202F, U+205F, U+3000, and the line
    terminators U+000A, U+000D, U+2028, U+2029. *)
Definition white_space : list string :=
  map bytes
    [[9]; [10]; [11]; [12]; [13]; [32];
     [194; 160];
     [225; 154; 128];
     [226; 128; 128]; [226; 128; 129]; [226; 128; 130]; [226; 128; 131];
     [226; 128; 132]; [226; 128; 133]; [226; 128; 134]; [226; 128; 135];
     [226; 128; 136]; [226; 128; 137]; [226; 128; 138];
     [226; 128; 168]; [226; 128; 169]; [226; 128; 175];
     [226; 129; 159];
     [227; 128; 128];
     [239; 187; 191]]%nat.

(** The number of bytes of the white-space code point [s] starts with; 0 when
    it starts with none. *)
Definition space_length (s : string) : nat :=
  match find (fun ws => prefix ws s) white_space with
  | Some ws => String.length ws
  | None => 0
  end.

(** [skip] counts the bytes of a white-space code point still to be passed
    over. *)
Fixpoint trim_start_go (skip : nat) (s : string) : string :=
  match s with
  | EmptyString => EmptyString
  | String _ r =>
      match skip with
      | S k => trim_start_go k r
      | O =>
          match space_length s with
          | S k => trim_start_go k r
          | O => s
          end
      end
  end.

Definition trim_start (s : string) : string := trim_start_go 0 s.

(** A suffix that is white space to its end is dropped. *)
Fixpoint trim_end (s : string) : string :=
  match s with
  | EmptyString => EmptyString
  | String c r => if trim_start s =? "" then EmptyString else String c (trim_end r)
  end.

Definition trim (s : string) : string := trim_end (trim_start s).

(** [s.includes(needle)]. *)
Fixpoint includes (needle s : string) : bool :=
  prefix needle s ||
  match s with
  | EmptyString => false
  | String _ r => includes needle r
  end.

(** [s.split(sep)] for a non-empty separator: [skip] counts the characters
    of a matched separator still to be passed over, [cur] is the piece being
    collected. *)
Fixpoint split_go (sep s : string) (skip : nat) (cur : string) : list string :=
  match s with
  | EmptyString => [cur]
  | String c r =>
      match skip with
      | S k => split_go sep r k cur
      | O =>
          if prefix sep s
          then cur :: split_go sep r (String.length sep - 1) EmptyString
          else split_go sep r 0 (cur ++ String c EmptyString)
      end
  end.

Definition split (sep s : string) : list string := split_go sep s 0 EmptyString.

(** [`${n}`] for a length. *)
Definition string_of_nat (n : nat) : string :=
  NilZero.string_of_uint (Nat.to_uint n).

(** [Promise] outcomes. *)
Inductive Settled (A : Type) : Type :=
| Resolved (a : A)
| Rejected (reason : string).
Arguments Resolved {A} a.
Arguments Rejected {A} reason.

(** A promise: it settles, or it stays pending for ever. *)
Inductive Promise (A : Type) : Type :=
| Settles (outcome : Settled A)
| Pending.
Arguments Settles {A} outcome.
Arguments Pending {A}.

(** What becomes of a spawned process: it closes, with its exit code ([None]
    when a signal ended it) and what it wrote to standard output, or its
    ['close'] event never comes, because the process does not end or could
    not be started. *)
Inductive Process : Type :=
| Closed (code : option Z) (output : string)
| Unclosed.

Definition rbind {A B} (r : Result A) (k : A -> Result B) : Result B :=
  match r with
  | Ok a => k a
  | Throw e => Throw e
  end.

(** Property read [v.name]: a TypeError on [null] and [undefined],
    [undefined] when the property is absent. *)
Definition get_prop (v : JSValue) (name : string) : Result JSValue :=
  match v with
  | JUndefined | JNull =>
      Throw ("TypeError: Cannot read properties of null (reading '" ++ name ++ "')")
  | JObj fields =>
      Ok (match find (fun kv => fst kv =? name) fields with
          | Some kv => snd kv
          | None => JUndefined
          end)
  | JBool _ | JNum _ | JStr _ | JArr _ => Ok JUndefined
  end.

(** The prediction [runFraudDetection] falls back to. *)
Definition fallback : FraudDetection :=
  {| fd_is_fraud := JNum 0;
     fd_fraud_score := JNum (1 # 10);
     fd_fraud_reason := "Legitimate transaction";
     fd_confidence := JNum (9 # 10);
     fd_xgb_probability := JNum (1 # 10);
     fd_kmeans_anomaly := JNum 0 |}.

Section Server.

(** *** The runtime and the collaborators outside the repository's sources *)

(** [JSON.parse]; [Throw] is its SyntaxError. *)
Variable JSON_parse : string -> Result JSValue.

(** ToNumber on strings, arrays and objects; [None] is NaN. *)
Variable ToNumber_text : JSValue -> option Q.

(** The scoring process [python ml/fraud_detector.py --predict <json>]. *)
Variable fraud_detector_py : TransactionData -> Process.

(** SQLite's conversion of text bound to a numeric column. *)
Variable column_text : JSValue -> JSValue.

(* ------------------------------------------------------------------ *)
(** ** routes/transactions.js: [runFraudDetection] *)

Definition ToNumber (v : JSValue) : option Q :=
  match v with
  | JUndefined => None
  | JNull => Some 0%Q
  | JBool b => Some (if b then 1%Q else 0%Q)
  | JNum q => Some q
  | JStr _ | JArr _ | JObj _ => ToNumber_text v
  end.

(** [v > q] for a numeric literal [q]. *)
Definition js_gt (v : JSValue) (q : Q) : bool :=
  match ToNumber v with
  | Some x => Qgtb x q
  | None => false
  end.

(** [lines.find(line => line.includes('Sample prediction:'))]. *)
Definition predictionLine (output : string) : option string :=
  find (includes "Sample prediction:") (split LF (trim output)).

(** [JSON.parse(predictionLine.split('Sample prediction: ')[1])];
    [JSON.parse(undefined)] is a SyntaxError. *)
Definition prediction (line : string) : Result JSValue :=
  match nth_error (split "Sample prediction: " line) 1 with
  | Some predictionStr => JSON_parse predictionStr
  | None => Throw "SyntaxError: undefined is not valid JSON"
  end.

(** The body of the [try] in the ['close'] listener; [None] is the branch
    taken when no prediction line is found. *)
Definition parse_output (output : string) : Result (option FraudDetection) :=
  match predictionLine output with
  | Some line =>
      rbind (prediction line) (fun p =>
      rbind (get_prop p "is_fraud") (fun is_fraud =>
      rbind (if truthy is_fraud
             then
               rbind (get_prop p "xgb_probability") (fun xgb =>
               rbind (get_prop p "kmeans_anomaly") (fun km =>
               rbind (get_prop p "anomaly_distance") (fun dist =>
               let reasons :=
                 ((if js_gt xgb (7 # 10) then ["High ML probability"] else []) ++
                  (if truthy km then ["Anomaly detected"] else []) ++
                  (if js_gt dist 2 then ["Unusual pattern"] else []))%list in
               let joined := String.concat ", " reasons in
               Ok (if joined =? "" then "Suspicious activity detected" else joined))))
             else Ok "Legitimate transaction") (fun fraudReason =>
      rbind (get_prop p "fraud_score") (fun fraud_score =>
      rbind (get_prop p "confidence") (fun confidence =>
      rbind (get_prop p "xgb_probability") (fun xgb_probability =>
      rbind (get_prop p "kmeans_anomaly") (fun kmeans_anomaly =>
      Ok (Some {| fd_is_fraud := is_fraud;
                  fd_fraud_score := fraud_score;
                  fd_fraud_reason := fraudReason;
                  fd_confidence := confidence;
                  fd_xgb_probability := xgb_probability;
                  fd_kmeans_anomaly := kmeans_anomaly |}))))))))
  | None => Ok None
  end.

(** The ['close'] listener: what the promise settles with. *)
Definition on_close (code : option Z) (output : string) : Settled FraudDetection :=
  match code with
  | Some 0%Z =>
      match parse_output output with
      | Ok (Some detection) => Resolved detection
      | Ok None => Resolved fallback
      | Throw _ => Resolved fallback
      end
  | _ => Resolved fallback
  end.

(** [runFraudDetection]: the promise is settled by the ['close'] listener
    alone; the process has no ['error'] listener and no timeout. *)
Definition runFraudDetection (transactionData : TransactionData)
  : Promise FraudDetection :=
  match fraud_detector_py transactionData with
  | Closed code output => Settles (on_close code output)
  | Unclosed => Pending
  end.

(** [await p] for a promise that has settled. *)
Definition await {S A} (p : Settled A) : M S A :=
  match p with
  | Resolved a => ret a
  | Rejected e => throw e
  end.

(** [await p] for a promise that may stay pending. *)
Definition await_pending {S A} (p : Promise A) : W S A :=
  match p with
  | Settles outcome => immediate (await outcome)
  | Pending => fun s => (None, s)
  end.

(** [cardanoIntegration.createFraudAlertTransaction] of
    blockchain/cardano_integration.js, which is not among the sources: any
    function of the server state, the transaction row and the prediction that
    returns a record object or throws.  It reads the database at most; the
    handlers are what writes [blockchain_records]. *)
Variable createFraudAlertTransaction :
  World -> TransactionRow -> FraudPrediction -> Result RecordData.

(** [await cardanoIntegration.createFraudAlertTransaction(transaction, fraudPrediction)],
    logged in [submissions]. *)
Definition submit (t : TransactionRow) (p : FraudPrediction) : M World RecordData :=
  fun w => (createFraudAlertTransaction w t p,
            {| db := db w; submissions := (submissions w ++ [(t, p)])%list |}).

(* ------------------------------------------------------------------ *)
(** ** routes/blockchain.js *)

(** The prediction rebuilt from the stored row. *)
Definition stored_prediction (t : TransactionRow) : FraudPrediction :=
  {| fp_is_fraud := js_or (tx_is_fraud t) (JBool false);
     fp_fraud_score := js_or (tx_fraud_score t) (JNum 0);
     fp_confidence := js_or (tx_fraud_score t) (JNum 0) |}.

(** POST /api/blockchain/record. *)
Definition post_record (transaction_id : option string) : World -> Response * World :=
  respond "Failed to record transaction on blockchain"
    (if negb (truthy_str transaction_id)
     then ret {| status := 400;
                 body := ErrorBody "Missing required field: transaction_id" None None |}
     else
       transaction <- lift_db (getTransaction transaction_id) ;;
       match transaction with
       | None =>
           ret {| status := 404;
                  body := ErrorBody "Transaction not found" transaction_id None |}
       | Some t =>
           blockchainRecord <- submit t (stored_prediction t) ;;
           lift_db (createBlockchainRecord blockchainRecord) ;;;
           ret {| status := 201;
                  body := RecordBody transaction_id blockchainRecord
                            "Transaction recorded on blockchain successfully" |}
       end)%js.

(** The loop of POST /api/blockchain/batch-record:
    [for (const x of items) { try { body } catch (error) { errors.push(...) } }],
    where [body] ends in [results.push(r)] ([inl r]) or in
    [errors.push(e); continue] ([inr e]).  The items are the identifiers
    themselves, so the [catch] reads no property of them. *)
Fixpoint for_each {I : Type} (item_id : I -> option string)
  (body : I -> M World (ItemResult + ItemError)) (items : list I)
  (results : list ItemResult) (errors : list ItemError)
  : World -> (list ItemResult * list ItemError) * World :=
  fun w =>
    match items with
    | [] => ((results, errors), w)
    | x :: rest =>
        match body x w with
        | (Ok (inl r), w') =>
            for_each item_id body rest (results ++ [r])%list errors w'
        | (Ok (inr e), w') =>
            for_each item_id body rest results (errors ++ [e])%list w'
        | (Throw message, w') =>
            for_each item_id body rest results
              (errors ++ [{| ie_transaction_id := item_id x;
                             ie_error := message |}])%list w'
        end
    end.

(** The 201 response of a batch route.  The object literal names [errors]
    twice; the later value, the array, is the one the response carries. *)
Definition batch_response (title : string)
  (results : list ItemResult) (errors : list ItemError) : Response :=
  {| status := 201;
     body := BatchBody (List.length results) results errors
               (title ++ string_of_nat (List.length results) ++ " successful, "
                      ++ string_of_nat (List.length errors) ++ " errors") |}.

(** One turn of the loop of POST /api/blockchain/batch-record. *)
Definition batch_record_item (transactionId : option string)
  : M World (ItemResult + ItemError) :=
  (transaction <- lift_db (getTransaction transactionId) ;;
   match transaction with
   | None =>
       ret (inr {| ie_transaction_id := transactionId;
                   ie_error := "Transaction not found" |})
   | Some t =>
       blockchainRecord <- submit t (stored_prediction t) ;;
       lift_db (createBlockchainRecord blockchainRecord) ;;;
       ret (inl (RecordedItem transactionId blockchainRecord))
   end)%js.

(** POST /api/blockchain/batch-record; [None] is a body whose
    [transaction_ids] is not an array. *)
Definition post_batch_record (transaction_ids : option (list (option string)))
  : World -> Response * World :=
  fun w =>
    match transaction_ids with
    | None =>
        ({| status := 400;
            body := ErrorBody "transaction_ids must be an array" None None |}, w)
    | Some ids =>
        let '((results, errors), w') :=
          for_each (fun i => i) batch_record_item ids [] [] w in
        (batch_response "Batch recording completed: " results errors, w')
    end.

(* ------------------------------------------------------------------ *)
(** ** routes/fraud.js *)

(** The message of the TypeError that reading [transaction_id] of [null]
    throws. *)
Definition null_item : string :=
  "Cannot read properties of null (reading 'transaction_id')".

(** The loop of the two batch routes whose items are objects:
    [for (const x of items) { try { body } catch (error) {
       errors.push({ transaction_id: x.transaction_id, error: error.message }) } }].
    On a [null] item the first statement of the [try] throws when it reads a
    property of the item, and the [catch] throws again when it reads
    [x.transaction_id]: that error leaves the loop.  A turn that never
    returns ends the loop without a result. *)
Fixpoint for_each_object {I : Type} (item_id : I -> option string)
  (body : I -> W World (ItemResult + ItemError)) (items : list (option I))
  (results : list ItemResult) (errors : list ItemError)
  : W World (list ItemResult * list ItemError) :=
  fun w =>
    match items with
    | [] => (Some (Ok (results, errors)), w)
    | None :: _ => (Some (Throw null_item), w)
    | Some x :: rest =>
        match body x w with
        | (Some (Ok (inl r)), w') =>
            for_each_object item_id body rest (results ++ [r])%list errors w'
        | (Some (Ok (inr e)), w') =>
            for_each_object item_id body rest results (errors ++ [e])%list w'
        | (Some (Throw message), w') =>
            for_each_object item_id body rest results
              (errors ++ [{| ie_transaction_id := item_id x;
                             ie_error := message |}])%list w'
        | (None, w') => (None, w')
        end
    end.

Definition default_model : string := "XGBoost + KMeans".

(** The prediction built from the alert's confidence score. *)
Definition alert_prediction (confidence_score : option Q) : FraudPrediction :=
  let c := match confidence_score with Some q => JNum q | None => JUndefined end in
  {| fp_is_fraud := JBool true; fp_fraud_score := c; fp_confidence := c |}.

(** POST /api/fraud/alert. *)
Definition post_alert (req : AlertData) : World -> Response * World :=
  respond "Failed to create fraud alert"
    (if negb (truthy_str (ad_transaction_id req)) || negb (truthy_str (ad_alert_type req))
        || negb (truthy_str (ad_severity req)) || negb (truthy_num (ad_confidence_score req))
     then ret {| status := 400;
                 body := ErrorBody
                   "Missing required fields: transaction_id, alert_type, severity, confidence_score"
                   None None |}
     else
       transaction <- lift_db (getTransaction (ad_transaction_id req)) ;;
       match transaction with
       | None =>
           ret {| status := 404;
                  body := ErrorBody "Transaction not found" (ad_transaction_id req) None |}
       | Some t =>
           let alertData :=
             {| ad_transaction_id := ad_transaction_id req;
                ad_alert_type := ad_alert_type req;
                ad_severity := ad_severity req;
                ad_confidence_score := ad_confidence_score req;
                ad_ml_model_used :=
                  Some (if truthy_str (ad_ml_model_used req)
                        then match ad_ml_model_used req with
                             | Some m => m
                             | None => default_model
                             end
                        else default_model);
                ad_features :=
                  Some (js_or (match ad_features req with
                               | Some f => f
                               | None => JUndefined
                               end) (JObj []));
                ad_cardano_tx_hash := None;
                ad_cardano_nft_id := None |} in
           alertId <- lift_db (createFraudAlert alertData) ;;
           blockchainRecord <- submit t (alert_prediction (ad_confidence_score req)) ;;
           lift_db (updateFraudAlertWithBlockchain alertId blockchainRecord) ;;;
           lift_db (createBlockchainRecord blockchainRecord) ;;;
           ret {| status := 201;
                  body := AlertBody alertId (ad_transaction_id req) blockchainRecord
                            "Fraud alert created and recorded on blockchain" |}
       end)%js.

(** One turn of the loop of POST /api/fraud/alerts/batch. *)
Definition alerts_batch_item (alertData : AlertData)
  : M World (ItemResult + ItemError) :=
  (transaction <- lift_db (getTransaction (ad_transaction_id alertData)) ;;
   match transaction with
   | None =>
       ret (inr {| ie_transaction_id := ad_transaction_id alertData;
                   ie_error := "Transaction not found" |})
   | Some t =>
       alertId <- lift_db (createFraudAlert alertData) ;;
       blockchainRecord <-
         submit t (alert_prediction (ad_confidence_score alertData)) ;;
       lift_db (updateFraudAlertWithBlockchain alertId blockchainRecord) ;;;
       lift_db (createBlockchainRecord blockchainRecord) ;;;
       ret (inl (AlertedItem alertId (ad_transaction_id alertData) blockchainRecord))
   end)%js.

(** POST /api/fraud/alerts/batch; [None] is a body whose [alerts] is not an
    array. *)
Definition post_alerts_batch (alerts : option (list (option AlertData)))
  : World -> option Response * World :=
  respond_pending "Failed to process batch fraud alerts"
    (match alerts with
     | None =>
         immediate
           (ret {| status := 400; body := ErrorBody "Alerts must be an array" None None |})
     | Some items =>
         entries <- for_each_object ad_transaction_id
                      (fun alertData => immediate (alerts_batch_item alertData))
                      items [] [] ;;
         immediate (ret (batch_response "Batch processing completed: "
                           (fst entries) (snd entries)))
     end)%wait.

(* ------------------------------------------------------------------ *)
(** ** routes/transactions.js: POST /api/transactions/batch *)

(** [requiredFields.filter(field => !transactionData[field])]. *)
Definition missingFields (d : TransactionData) : list string :=
  ((if truthy_str (td_transaction_id d) then [] else ["transaction_id"]) ++
   (if truthy_str (td_user_id d) then [] else ["user_id"]) ++
   (if truthy_num (td_amount d) then [] else ["amount"]) ++
   (if truthy_str (td_transaction_type d) then [] else ["transaction_type"]))%list.

(** One turn of the loop of POST /api/transactions/batch. *)
Definition transactions_batch_item (transactionData : TransactionData)
  : W World (ItemResult + ItemError) :=
  (if negb (Nat.eqb (List.length (missingFields transactionData)) 0)
   then immediate
          (ret (inr {| ie_transaction_id := td_transaction_id transactionData;
                       ie_error := "Missing required fields: "
                                   ++ String.concat ", "
                                        (missingFields transactionData) |}))
   else
     existingTransaction <-
       immediate (lift_db (getTransaction (td_transaction_id transactionData))) ;;
     match existingTransaction with
     | Some _ =>
         immediate
           (ret (inr {| ie_transaction_id := td_transaction_id transactionData;
                        ie_error := "Transaction already exists" |}))
     | None =>
         result <- immediate (lift_db (createTransaction transactionData)) ;;
         fraudDetection <- await_pending (runFraudDetection transactionData) ;;
         immediate
           (lift_db (updateTransactionFraud column_text
                       (td_transaction_id transactionData)
                       (fd_is_fraud fraudDetection) (fd_fraud_score fraudDetection)
                       (Some (fd_fraud_reason fraudDetection)))) ;;;
         immediate (ret (inl (ScoredItem (snd result) fraudDetection)))
     end)%wait.

(** POST /api/transactions/batch; [None] is a body whose [transactions] is
    not an array. *)
Definition post_transactions_batch
  (transactions : option (list (option TransactionData)))
  : World -> option Response * World :=
  respond_pending "Failed to process batch transactions"
    (match transactions with
     | None =>
         immediate
           (ret {| status := 400;
                   body := ErrorBody "Transactions must be an array" None None |})
     | Some items =>
         entries <- for_each_object td_transaction_id transactions_batch_item
                      items [] [] ;;
         immediate (ret (batch_response "Batch processing completed: "
                           (fst entries) (snd entries)))
     end)%wait.

(* ------------------------------------------------------------------ *)
(** ** The router: the modelled requests and their dispatch *)

Inductive Request : Type :=
| PostRecord (transaction_id : option string)
| PostBatchRecord (transaction_ids : option (list (option string)))
| PostAlert (req : AlertData)
| PostAlertsBatch (alerts : option (list (option AlertData)))
| PostTransactionsBatch (transactions : option (list (option TransactionData))).

(** The answer to a request, [None] when it is never answered, and the
    server state it leaves. *)
Definition handle (r : Request) : World -> option Response * World :=
  match r with
  | PostRecord transaction_id => answered (post_record transaction_id)
  | PostBatchRecord transaction_ids => answered (post_batch_record transaction_ids)
  | PostAlert req => answered (post_alert req)
  | PostAlertsBatch alerts => post_alerts_batch alerts
  | PostTransactionsBatch transactions => post_transactions_batch transactions
  end.

(** The server state after a sequence of requests. *)
Definition serve (rs : list Request) (w : World) : World :=
  fold_left (fun acc r => snd (handle r acc)) rs w.

End Server.

(* ------------------------------------------------------------------ *)
(** ** demo/demo_data.js *)

(** A transaction object as [generateDemoTransactions] builds it. *)
Record DemoTransaction : Type := {
  dt_transaction_id : string;
  dt_user_id : string;
  dt_amount : Q;
  dt_currency : string;
  dt_merchant_name : string;
  dt_merchant_category : string;
  dt_transaction_type : string;
  dt_location_lat : Q;
  dt_location_lng : Q;
  dt_device_id : string;
  dt_ip_address : string;
  dt_timestamp : string;
  dt_hour : Z;
  dt_day_of_week : Z;
  dt_user_age : Z;
  dt_account_age_days : Z;
  dt_previous_fraud_count : Z;
  dt_device_type : string;
  dt_is_weekend : Z;
  dt_is_holiday : Z
}.

(** What [Math.random()] and [crypto.randomBytes] return during one
    transaction's turn, in the order the generators and the seeding script
    ask for them.  Every [Math.random()] value lies in [0, 1). *)
Record Draws : Type := {
  confidence_draw : Q;
  hash_hex : string;
  nft_draw : Q;
  nft_hex : string;
  height_draw : Q;
  status_draw : Q;
  score_draw : Q
}.

(** The test both [generateFraudAlerts] and [seedDatabase] apply. *)
Definition suspicious (t : DemoTransaction) : bool :=
  Qgtb (dt_amount t) 1000
  || ((2 <=? dt_hour t)%Z && (dt_hour t <=? 5)%Z)
  || ((dt_merchant_category t =? "online_shopping") && Qgtb (dt_amount t) 500).

Definition generateFraudAlerts (transactions : list (DemoTransaction * Draws))
  : list AlertData :=
  flat_map
    (fun '(transaction, d) =>
       if suspicious transaction
       then [{| ad_transaction_id := Some (dt_transaction_id transaction);
                ad_alert_type := Some "FRAUD_ALERT";
                ad_severity :=
                  Some (if Qgtb (dt_amount transaction) 2000 then "high"
                        else if Qgtb (dt_amount transaction) 1000 then "medium"
                        else "low");
                ad_confidence_score := Some (confidence_draw d * (4 # 10) + (6 # 10))%Q;
                ad_ml_model_used := Some "XGBoost + KMeans";
                ad_features :=
                  Some (JObj [("amount", JNum (dt_amount transaction));
                              ("hour", JNum (inject_Z (dt_hour transaction)));
                              ("merchant_category",
                               JStr (dt_merchant_category transaction));
                              ("is_weekend", JNum (inject_Z (dt_is_weekend transaction)));
                              ("is_holiday", JNum (inject_Z (dt_is_holiday transaction)))]);
                ad_cardano_tx_hash := None;
                ad_cardano_nft_id := None |}]
       else [])
    transactions.

(** The metadata object of a generated record. *)
Definition demo_metadata (transaction : DemoTransaction) : JSValue :=
  JObj [("transactionID", JStr (dt_transaction_id transaction));
        ("amount", JNum (dt_amount transaction));
        ("flag", JStr (if Qgtb (dt_amount transaction) 2000
                       then "Suspicious" else "Legitimate"));
        ("timestamp", JStr (dt_timestamp transaction));
        ("merchantName", JStr (dt_merchant_name transaction));
        ("merchantCategory", JStr (dt_merchant_category transaction))].

Definition generateBlockchainRecords (transactions : list (DemoTransaction * Draws))
  : list RecordData :=
  flat_map
    (fun '(transaction, d) =>
       if Qgtb (dt_amount transaction) 1000
       then [{| rd_transaction_id := Some (dt_transaction_id transaction);
                rd_cardano_tx_hash := Some ("0x" ++ hash_hex d);
                rd_nft_id :=
                  if Qgtb (3 # 10) (nft_draw d) then Some ("NFT" ++ nft_hex d) else None;
                rd_metadata := Some (demo_metadata transaction);
                rd_block_height :=
                  Some (Qfloor (height_draw d * 1000000) + 1000000)%Z;
                rd_confirmation_status :=
                  Some (if Qgtb (8 # 10) (status_draw d) then "confirmed" else "pending") |}]
       else [])
    transactions.

(* ------------------------------------------------------------------ *)
(** ** demo/seed_database.js *)

Definition demo_data (t : DemoTransaction) : TransactionData :=
  {| td_transaction_id := Some (dt_transaction_id t);
     td_user_id := Some (dt_user_id t);
     td_amount := Some (dt_amount t);
     td_currency := Some (dt_currency t);
     td_merchant_name := Some (dt_merchant_name t);
     td_merchant_category := Some (dt_merchant_category t);
     td_transaction_type := Some (dt_transaction_type t);
     td_location_lat := Some (dt_location_lat t);
     td_location_lng := Some (dt_location_lng t);
     td_device_id := Some (dt_device_id t);
     td_ip_address := Some (dt_ip_address t) |}.

(** [for (const x of xs) { try { await op(x) } catch (error) { log } }]. *)
Definition seed_each {A B : Type} (op : A -> M Db B) (xs : list A) (d : Db) : Db :=
  fold_left (fun acc x => snd (op x acc)) xs d.

Section Seeding.

(** SQLite's conversion of text bound to a numeric column. *)
Variable column_text : JSValue -> JSValue.

(** The simulated detection result written for one transaction. *)
Definition simulate_detection (td : DemoTransaction * Draws) : M Db nat :=
  let '(transaction, d) := td in
  let isFraud := suspicious transaction in
  let fraudScore :=
    (if isFraud then score_draw d * (4 # 10) + (6 # 10)
     else score_draw d * (3 # 10) + (1 # 10))%Q in
  let fraudReason :=
    if isFraud
    then (if Qgtb (dt_amount transaction) 2000 then "High amount transaction"
          else if ((2 <=? dt_hour transaction)%Z && (dt_hour transaction <=? 5)%Z)
               then "Unusual time"
               else "Suspicious pattern")
    else "Legitimate transaction" in
  updateTransactionFraud column_text (Some (dt_transaction_id transaction))
    (JNum (if isFraud then 1 else 0)) (JNum fraudScore) (Some fraudReason).

(** [seedDatabase], given the generated transactions. *)
Definition seedDatabase (transactions : list (DemoTransaction * Draws)) (d : Db) : Db :=
  let fraudAlerts := generateFraudAlerts transactions in
  let blockchainRecords := generateBlockchainRecords transactions in
  let d1 := seed_each (fun t => createTransaction (demo_data (fst t))) transactions d in
  let d2 := seed_each simulate_detection transactions d1 in
  let d3 := seed_each createFraudAlert fraudAlerts d2 in
  seed_each createBlockchainRecord blockchainRecords d3.

End Seeding.

(* ------------------------------------------------------------------ *)
(** ** Views of the stored ledger records *)

(** The ledger transaction hashes of the stored records. *)
Definition hashes (d : Db) : list string :=
  map br_cardano_tx_hash (blockchain_records d).

(** A record that is not in status ['failed']. *)
Definition live (r : BlockchainRow) : bool :=
  (br_confirmation_status r =? "pending") || (br_confirmation_status r =? "confirmed").

(** The live records stored for a transaction identifier. *)
Definition live_records (tid : string) (d : Db) : list BlockchainRow :=
  filter (fun r => (br_transaction_id r =? tid) && live r) (blockchain_records d).

(** A record object with its [confirmation_status] replaced. *)
Definition with_status (s : option string) (r : RecordData) : RecordData :=
  {| rd_transaction_id := rd_transaction_id r;
     rd_cardano_tx_hash := rd_cardano_tx_hash r;
     rd_nft_id := rd_nft_id r;
     rd_metadata := rd_metadata r;
     rd_block_height := rd_block_height r;
     rd_confirmation_status := s |}.

(** Field read on a JSON object. *)
Definition field (name : string) (v : JSValue) : JSValue :=
  match get_prop v name with
  | Ok x => x
  | Throw _ => JUndefined
  end.

(** [Object.keys]. *)
Definition keys (v : JSValue) : list string :=
  match v with
  | JObj fields => map fst fields
  | _ => []
  end.

(* ------------------------------------------------------------------ *)
(** ** The metadata codec of the ledger integration *)

Definition schema_version : string := "1.0.0".

Definition text_or_null (s : option string) : JSValue :=
  match s with Some x => JStr x | None => JNull end.

(** Modelled from the spec: the metadata encoder of the ledger integration,
    which [createFraudAlertTransaction] of blockchain/cardano_integration.js
    applies to the transaction and the prediction it is given; that file is
    not among the sources.  Section 4.1 of the spec lists what the payload
    contains; the field names, the model name, the version and the alert type
    are those of the README's "Metadata Structure", with [currency] added as
    the spec lists it.  The two inputs are those the routes hand to
    [createFraudAlertTransaction].  The timestamp is a parameter: the rows of
    this development leave the timestamp columns out. *)
Definition encode (timestamp : string) (t : TransactionRow) (p : FraudPrediction)
  : JSValue :=
  JObj [("transactionID", JStr (tx_transaction_id t));
        ("amount", JNum (tx_amount t));
        ("currency", text_or_null (tx_currency t));
        ("flag", JStr (if truthy (fp_is_fraud p) then "Suspicious" else "Legitimate"));
        ("fraudScore", fp_fraud_score p);
        ("confidence", fp_confidence p);
        ("timestamp", JStr timestamp);
        ("merchantName", text_or_null (tx_merchant_name t));
        ("merchantCategory", text_or_null (tx_merchant_category t));
        ("userId", JStr (tx_user_id t));
        ("mlModel", JStr default_model);
        ("version", JStr schema_version);
        ("alertType", JStr "FRAUD_ALERT")].

(* ------------------------------------------------------------------ *)
(** ** Vocabulary of the properties *)

(** What an insert into [blockchain_records] does: it appends one row built
    from the five named fields, in status ['pending'], or it throws and leaves
    the database as it was. *)
Inductive inserted (recordData : RecordData) (d : Db) : Result nat * Db -> Prop :=
| inserted_row (tid hash : string) :
    rd_transaction_id recordData = Some tid ->
    rd_cardano_tx_hash recordData = Some hash ->
    ~ In hash (hashes d) ->
    let row := {| br_id := next_id (map br_id (blockchain_records d));
                  br_transaction_id := tid;
                  br_cardano_tx_hash := hash;
                  br_nft_id := rd_nft_id recordData;
                  br_metadata := rd_metadata recordData;
                  br_block_height := rd_block_height recordData;
                  br_confirmation_status := "pending" |} in
    inserted recordData d
      (Ok (br_id row),
       {| transactions := transactions d;
          fraud_alerts := fraud_alerts d;
          blockchain_records := blockchain_records d ++ [row] |})
| inserted_null_transaction :
    rd_transaction_id recordData = None ->
    inserted recordData d
      (Throw (not_null "blockchain_records" "transaction_id"), d)
| inserted_null_hash :
    rd_cardano_tx_hash recordData = None ->
    inserted recordData d
      (Throw (not_null "blockchain_records" "cardano_tx_hash"), d)
| inserted_duplicate (hash : string) :
    rd_cardano_tx_hash recordData = Some hash ->
    In hash (hashes d) ->
    inserted recordData d
      (Throw (unique_failed "blockchain_records" "cardano_tx_hash"), d).

(** A computation keeps a property of the database, whether it returns,
    throws or never returns. *)
Definition keeps (P : Db -> Prop) {R : Type} (m : World -> R * World) : Prop :=
  forall w, P (db w) -> P (db (snd (m w))).

(** The server state after one logged submission. *)
Definition logged (w : World) (t : TransactionRow) (p : FraudPrediction) (d : Db)
  : World :=
  {| db := d; submissions := (submissions w ++ [(t, p)])%list |}.

Definition failure (title e : string) : Response :=
  {| status := 500; body := ErrorBody title None (Some e) |}.

(** The record a response carries. *)
Definition body_record (b : Body) : option RecordData :=
  match b with
  | RecordBody _ r _ | AlertBody _ _ r _ => Some r
  | ErrorBody _ _ _ | BatchBody _ _ _ _ => None
  end.

(** The alert row POST /api/fraud/alert inserts for a valid request. *)
Definition alert_row (req : AlertData) (id : nat) (tid ty sev : string) (c : Q)
  : FraudAlertRow :=
  {| fa_id := id;
     fa_transaction_id := tid;
     fa_alert_type := ty;
     fa_severity := sev;
     fa_confidence_score := c;
     fa_ml_model_used :=
       if truthy_str (ad_ml_model_used req)
       then match ad_ml_model_used req with Some m => m | None => default_model end
       else default_model;
     fa_features :=
       Some (js_or (match ad_features req with Some f => f | None => JUndefined end)
                   (JObj []));
     fa_cardano_tx_hash := None;
     fa_cardano_nft_id := None;
     fa_status := "active" |}.

(** What a record-alert call that reaches the ledger integration does: it
    logs one more submission, and either answers 201 with a record that it has
    just stored as a new ['pending'] row under a hash no stored row had, or
    answers 500 with no record and leaves [blockchain_records] as it was. *)
Definition submitted_again (w : World) (t : TransactionRow) (p : FraudPrediction)
  (out : Response * World) : Prop :=
  submissions (snd out) = (submissions w ++ [(t, p)])%list /\
  ((status (fst out) = 201%nat /\
    exists blockchainRecord row,
      body_record (body (fst out)) = Some blockchainRecord /\
      rd_cardano_tx_hash blockchainRecord = Some (br_cardano_tx_hash row) /\
      blockchain_records (db (snd out)) = (blockchain_records (db w) ++ [row])%list /\
      ~ In (br_cardano_tx_hash row) (hashes (db w)) /\
      br_confirmation_status row = "pending")
   \/
   (status (fst out) = 500%nat /\
    body_record (body (fst out)) = None /\
    blockchain_records (db (snd out)) = blockchain_records (db w))).

(** The output of the scoring process cannot be parsed into a prediction:
    no line contains 'Sample prediction:', or [JSON.parse] throws on what
    follows 'Sample prediction: ' in the first such line, or it yields a value
    with no properties to read ([null]). *)
Inductive unparsable (JSON_parse : string -> Result JSValue) (output : string)
  : Prop :=
| no_prediction_line :
    predictionLine output = None -> unparsable JSON_parse output
| syntax_error (line e : string) :
    predictionLine output = Some line ->
    prediction JSON_parse line = Throw e ->
    unparsable JSON_parse output
| null_prediction (line : string) (p : JSValue) :
    predictionLine output = Some line ->
    prediction JSON_parse line = Ok p ->
    p = JNull \/ p = JUndefined ->
    unparsable JSON_parse output.

(** What one item of a batch comes to: the result or error entry its turn of
    the loop pushes, a thrown error being caught into an entry that carries
    the item's own identifier. *)
Definition item_outcome {I : Type} (item_id : I -> option string)
  (body : I -> M World (ItemResult + ItemError)) (x : I) (w : World)
  : (ItemResult + ItemError) * World :=
  match body x w with
  | (Ok o, w') => (o, w')
  | (Throw message, w') =>
      (inr {| ie_transaction_id := item_id x; ie_error := message |}, w')
  end.

(** A body that returns, taken as the computation it then is.  It is used for
    bodies that are known to return; one that does not return has no result
    to give and stands as a throwing one. *)
Definition when_returns {S A : Type} (m : W S A) : M S A :=
  fun s => match m s with
           | (Some r, s') => (r, s')
           | (None, s') => (Throw "the body does not return", s')
           end.

(** The outcomes of the items in order, each item starting from the server
    state the item before it left. *)
Fixpoint outcomes {I : Type} (item_id : I -> option string)
  (body : I -> M World (ItemResult + ItemError)) (items : list I) (w : World)
  : list (ItemResult + ItemError) * World :=
  match items with
  | [] => ([], w)
  | x :: rest =>
      let (o, w') := item_outcome item_id body x w in
      let (os, w'') := outcomes item_id body rest w' in
      (o :: os, w'')
  end.

Definition results_of (os : list (ItemResult + ItemError)) : list ItemResult :=
  flat_map (fun o => match o with inl r => [r] | inr _ => [] end) os.

Definition errors_of (os : list (ItemResult + ItemError)) : list ItemError :=
  flat_map (fun o => match o with inl _ => [] | inr e => [e] end) os.

(** The transaction identifier an entry reports. *)
Definition outcome_id (o : ItemResult + ItemError) : option string :=
  match o with
  | inl (RecordedItem tid _) => tid
  | inl (AlertedItem _ tid _) => tid
  | inl (ScoredItem tid _) => Some tid
  | inr e => ie_transaction_id e
  end.

(** The shape of a batch answer: 201, the number of successes under
    [processed], the entries, and both counts in the message. *)
Definition batch_answer {I : Type} (item_id : I -> option string)
  (step : I -> M World (ItemResult + ItemError)) (title : string)
  (items : list I) (w : World) (out : Response * World) : Prop :=
  let os := fst (outcomes item_id step items w) in
  out = ({| status := 201;
            body := BatchBody (List.length (results_of os)) (results_of os)
                      (errors_of os)
                      (title ++ string_of_nat (List.length (results_of os))
                             ++ " successful, "
                             ++ string_of_nat (List.length (errors_of os))
                             ++ " errors") |},
         snd (outcomes item_id step items w)) /\
  List.length os = List.length items /\
  (List.length (results_of os) + List.length (errors_of os) = List.length items)%nat /\
  Forall2 (fun x o => outcome_id o = item_id x) items os.

(** The stored transaction an identifier names, if any. *)
Definition stored_transaction (transactionId : option string) (w : World)
  : option TransactionRow :=
  match transactionId with
  | Some tid => find (fun r => tx_transaction_id r =? tid) (transactions (db w))
  | None => None
  end.

(** Every stored ledger record is ['pending']. *)
Definition all_pending (d : Db) : Prop :=
  Forall (fun r => br_confirmation_status r = "pending") (blockchain_records d).

(* ------------------------------------------------------------------ *)
(** ** Sample data *)

(** A ledger integration that issues a new hash for every submission, as
    [generateBlockchainRecords] does with [crypto.randomBytes]. *)
Definition fresh_hash_ledger (w : World) (t : TransactionRow) (p : FraudPrediction)
  : Result RecordData :=
  Ok {| rd_transaction_id := Some (tx_transaction_id t);
        rd_cardano_tx_hash :=
          Some ("0x" ++ string_of_nat (List.length (submissions w)));
        rd_nft_id := None;
        rd_metadata := None;
        rd_block_height := None;
        rd_confirmation_status := Some "pending" |}.

(** A ledger integration that is itself idempotent: the hash it returns is
    determined by the transaction. *)
Definition same_hash_ledger (w : World) (t : TransactionRow) (p : FraudPrediction)
  : Result RecordData :=
  Ok {| rd_transaction_id := Some (tx_transaction_id t);
        rd_cardano_tx_hash := Some ("0x" ++ tx_transaction_id t);
        rd_nft_id := None;
        rd_metadata := None;
        rd_block_height := None;
        rd_confirmation_status := Some "pending" |}.

(** A ledger integration whose network is down. *)
Definition unavailable_ledger (w : World) (t : TransactionRow) (p : FraudPrediction)
  : Result RecordData :=
  Throw "LedgerUnavailable".

Definition sample_row (id : nat) (tid : string) (amount : Q) (is_fraud score : Q)
  : TransactionRow :=
  {| tx_id := id;
     tx_transaction_id := tid;
     tx_user_id := "USER0001";
     tx_amount := amount;
     tx_currency := Some "USD";
     tx_merchant_name := Some "Online Store";
     tx_merchant_category := Some "online_shopping";
     tx_transaction_type := "online";
     tx_location_lat := None;
     tx_location_lng := None;
     tx_device_id := None;
     tx_ip_address := None;
     tx_is_fraud := JNum is_fraud;
     tx_fraud_score := JNum score;
     tx_fraud_reason := None |}.

(** TX1 was scored fraudulent (0.85), TX2 legitimate (0.1). *)
Definition TX1 : TransactionRow := sample_row 1 "TX1" 5000 1 (85 # 100).
Definition TX2 : TransactionRow := sample_row 2 "TX2" 40 0 (1 # 10).

Definition sample_world : World :=
  {| db := {| transactions := [TX1; TX2]; fraud_alerts := []; blockchain_records := [] |};
     submissions := [] |}.

Definition sample_demo (tid : string) (amount : Q) (hour : Z) : DemoTransaction :=
  {| dt_transaction_id := tid;
     dt_user_id := "USER0001";
     dt_amount := amount;
     dt_currency := "USD";
     dt_merchant_name := "Walmart";
     dt_merchant_category := "grocery";
     dt_transaction_type := "debit";
     dt_location_lat := 40 # 1;
     dt_location_lng := (-74) # 1;
     dt_device_id := "DEV0001";
     dt_ip_address := "192.168.1.1";
     dt_timestamp := "2025-01-21T12:34:00.000Z";
     dt_hour := hour;
     dt_day_of_week := 2;
     dt_user_age := 30;
     dt_account_age_days := 400;
     dt_previous_fraud_count := 0;
     dt_device_type := "mobile";
     dt_is_weekend := 0;
     dt_is_holiday := 0 |}.

Definition sample_draws (hex : string) : Draws :=
  {| confidence_draw := 3 # 4;
     hash_hex := hex;
     nft_draw := 1 # 2;
     nft_hex := "00";
     height_draw := 1 # 2;
     status_draw := 1 # 2;
     score_draw := 1 # 2 |}.

Definition sample_alert (tid : string) : AlertData :=
  {| ad_transaction_id := Some tid;
     ad_alert_type := Some "FRAUD_ALERT";
     ad_severity := Some "high";
     ad_confidence_score := Some (85 # 100);
     ad_ml_model_used := Some "XGBoost + KMeans";
     ad_features := None;
     ad_cardano_tx_hash := None;
     ad_cardano_nft_id := None |}.

(** A ledger integration that fails for TX1 only. *)
Definition flaky_ledger (w : World) (t : TransactionRow) (p : FraudPrediction)
  : Result RecordData :=
  if tx_transaction_id t =? "TX1" then Throw "LedgerUnavailable"
  else fresh_hash_ledger w t p.

(** The sample server after TX1 has been recorded once. *)
Definition recorded_world : World :=
  snd (post_record fresh_hash_ledger (Some "TX1") sample_world).

(** Runtime and scoring stubs: a [JSON.parse] that knows two texts ([{P}]
    stands for the JSON text of the object it returns), a conversion that
    yields NaN, a scoring process that crashes and one that prints a
    prediction. *)
Definition sample_JSON_parse (s : string) : Result JSValue :=
  if s =? "{P}"
  then Ok (JObj [("is_fraud", JBool true);
                 ("fraud_score", JNum (85 # 100));
                 ("confidence", JNum (92 # 100));
                 ("xgb_probability", JNum (9 # 10));
                 ("kmeans_anomaly", JNum 0);
                 ("anomaly_distance", JNum 3)])
  else if s =? "{}" then Ok (JObj [])
  else Throw "SyntaxError: Unexpected token".

Definition sample_ToNumber_text (v : JSValue) : option Q := None.

(** A conversion of bound text for a database that was handed no numeric
    text: a string is kept, an array or an object is stored as the text of its
    [toString]. *)
Definition sample_column_text (v : JSValue) : JSValue :=
  match v with
  | JStr s => JStr s
  | _ => JStr "[object Object]"
  end.

Definition crashing_py (d : TransactionData) : Process :=
  Closed (Some 1%Z) "Traceback (most recent call last):".

Definition scoring_py (d : TransactionData) : Process :=
  Closed (Some 0%Z) ("Models loaded" ++ LF ++ "Sample prediction: {P}" ++ LF).

(** A scoring process that prints an empty object as its prediction, and one
    that never ends. *)
Definition empty_py (d : TransactionData) : Process :=
  Closed (Some 0%Z) ("Sample prediction: {}" ++ LF).

Definition hanging_py (d : TransactionData) : Process := Unclosed.

(** A scoring process that never ends for one transaction and crashes for
    the others. *)
Definition hanging_for (tid : string) (d : TransactionData) : Process :=
  match td_transaction_id d with
  | Some x => if x =? tid then Unclosed else crashing_py d
  | None => crashing_py d
  end.

Definition sample_transaction (tid : string) : TransactionData :=
  {| td_transaction_id := Some tid;
     td_user_id := Some "USER0001";
     td_amount := Some 1500%Q;
     td_currency := Some "USD";
     td_merchant_name := Some "Suspicious Online Store";
     td_merchant_category := Some "online_shopping";
     td_transaction_type := Some "online";
     td_location_lat := None;
     td_location_lng := None;
     td_device_id := None;
     td_ip_address := None |}.

(* ------------------------------------------------------------------ *)
(** ** routes/transactions.js: the single-transaction routes;
       routes/blockchain.js: GET /records/:transactionId;
       routes/fraud.js: POST /retrain *)

(** A row of the join
    [blockchain_records br JOIN transactions t ON br.transaction_id = t.transaction_id]
    with the columns the routes select from [t]. *)
Record JoinedRecord : Type := {
  jr_record : BlockchainRow;
  jr_amount : Q;
  jr_merchant_name : option string;
  jr_merchant_category : option string
}.

(** The body of PUT /api/transactions/:transactionId; [None] is a field the
    body does not have. *)
Record FraudUpdate : Type := {
  fu_is_fraud : option JSValue;
  fu_fraud_score : option JSValue;
  fu_fraud_reason : option string
}.

Inductive AnswerBody : Type :=
| AError (error : string) (transaction_id : option string) (message : option string)
| ACreated (transaction_id : string) (fraud_detection : FraudDetection)
    (message : string)
| AFound (transaction : TransactionRow)
| AUpdated (transaction_id : string) (updated_fields : list string) (message : string)
| ARecord (record : JoinedRecord) (transaction_id : string)
| ATrained (training_result : JSValue) (message : string).

Record Answer : Type := { answer_status : nat; answer_body : AnswerBody }.

(** The [try]/[catch] around the body of these routes. *)
Definition reply (failure : string) (m : M World Answer) : World -> Answer * World :=
  fun w => match m w with
           | (Ok r, w') => (r, w')
           | (Throw e, w') =>
               ({| answer_status := 500;
                   answer_body := AError failure None (Some e) |}, w')
           end.

(** The same around a body that may not return: [None] is a request that is
    never answered. *)
Definition reply_pending (failure : string) (m : W World Answer)
  : World -> option Answer * World :=
  fun w => match m w with
           | (Some (Ok r), w') => (Some r, w')
           | (Some (Throw e), w') =>
               (Some {| answer_status := 500;
                        answer_body := AError failure None (Some e) |}, w')
           | (None, w') => (None, w')
           end.

(** What the training run resolves with when its output names no result. *)
Definition retrained : JSValue :=
  JObj [("status", JStr "completed"); ("message", JStr "Models retrained successfully")].

Section MoreRoutes.

Variable JSON_parse : string -> Result JSValue.
Variable ToNumber_text : JSValue -> option Q.
Variable fraud_detector_py : TransactionData -> Process.
Variable column_text : JSValue -> JSValue.
Variable createFraudAlertTransaction :
  World -> TransactionRow -> FraudPrediction -> Result RecordData.

(** The training process [python ml/fraud_detector.py --retrain [--force]]:
    its exit code, standard output and standard error, given whether
    [--force] was passed. *)
Variable retrain_py : bool -> option Z * string * string.

(** The loop over [requiredFields] of POST /api/transactions: the first
    field that is missing or falsy. *)
Definition first_missing (d : TransactionData) : option string :=
  if negb (truthy_str (td_transaction_id d)) then Some "transaction_id"
  else if negb (truthy_str (td_user_id d)) then Some "user_id"
  else if negb (truthy_num (td_amount d)) then Some "amount"
  else if negb (truthy_str (td_transaction_type d)) then Some "transaction_type"
  else None.

(** POST /api/transactions. *)
Definition post_transaction (transactionData : TransactionData)
  : World -> option Answer * World :=
  reply_pending "Failed to create transaction"
    (match first_missing transactionData with
     | Some field =>
         immediate
           (ret {| answer_status := 400;
                   answer_body := AError ("Missing required field: " ++ field)
                                    None None |})
     | None =>
         existingTransaction <-
           immediate (lift_db (getTransaction (td_transaction_id transactionData))) ;;
         match existingTransaction with
         | Some _ =>
             immediate
               (ret {| answer_status := 409;
                       answer_body := AError "Transaction already exists"
                                        (td_transaction_id transactionData) None |})
         | None =>
             result <- immediate (lift_db (createTransaction transactionData)) ;;
             fraudDetection <-
               await_pending
                 (runFraudDetection JSON_parse ToNumber_text fraud_detector_py
                    transactionData) ;;
             immediate
               (lift_db (updateTransactionFraud column_text
                           (td_transaction_id transactionData)
                           (fd_is_fraud fraudDetection) (fd_fraud_score fraudDetection)
                           (Some (fd_fraud_reason fraudDetection)))) ;;;
             immediate
               (ret {| answer_status := 201;
                       answer_body := ACreated (snd result) fraudDetection
                                        "Transaction created and analyzed successfully" |})
         end
     end)%wait.

(** GET /api/transactions/:transactionId. *)
Definition get_transaction (transactionId : string) : World -> Answer * World :=
  reply "Failed to get transaction"
    (transaction <- lift_db (getTransaction (Some transactionId)) ;;
     match transaction with
     | None =>
         ret {| answer_status := 404;
                answer_body := AError "Transaction not found" (Some transactionId) None |}
     | Some t => ret {| answer_status := 200; answer_body := AFound t |}
     end)%js.

(** [Object.keys(updates)]: the allowed fields the body has, in the order of
    [allowedUpdates]. *)
Definition updated_fields (updateData : FraudUpdate) : list string :=
  ((match fu_is_fraud updateData with Some _ => ["is_fraud"] | None => [] end) ++
   (match fu_fraud_score updateData with Some _ => ["fraud_score"] | None => [] end) ++
   (match fu_fraud_reason updateData with Some _ => ["fraud_reason"] | None => [] end))%list.

(** A field of [updates]; an absent one is [undefined]. *)
Definition sent (v : option JSValue) : JSValue :=
  match v with Some x => x | None => JUndefined end.

(** PUT /api/transactions/:transactionId. *)
Definition put_transaction (transactionId : string) (updateData : FraudUpdate)
  : World -> Answer * World :=
  reply "Failed to update transaction"
    (existingTransaction <- lift_db (getTransaction (Some transactionId)) ;;
     match existingTransaction with
     | None =>
         ret {| answer_status := 404;
                answer_body := AError "Transaction not found" (Some transactionId) None |}
     | Some _ =>
         if Nat.eqb (List.length (updated_fields updateData)) 0
         then ret {| answer_status := 400;
                     answer_body := AError "No valid fields to update" None None |}
         else
           lift_db (updateTransactionFraud column_text (Some transactionId)
                      (sent (fu_is_fraud updateData)) (sent (fu_fraud_score updateData))
                      (fu_fraud_reason updateData)) ;;;
           ret {| answer_status := 200;
                  answer_body := AUpdated transactionId (updated_fields updateData)
                                   "Transaction updated successfully" |}
     end)%js.

(** [getBlockchainRecordByTransactionId]: the first row of the join for the
    transaction, records taken in the order of their insertion. *)
Definition getBlockchainRecordByTransactionId (transactionId : string)
  : M Db (option JoinedRecord) :=
  fun d =>
    (Ok (hd_error
           (flat_map
              (fun br =>
                 map (fun t => {| jr_record := br;
                                  jr_amount := tx_amount t;
                                  jr_merchant_name := tx_merchant_name t;
                                  jr_merchant_category := tx_merchant_category t |})
                     (filter (fun t => tx_transaction_id t =? br_transaction_id br)
                             (transactions d)))
              (filter (fun br => br_transaction_id br =? transactionId)
                      (blockchain_records d)))), d).

(** GET /api/blockchain/records/:transactionId. *)
Definition get_record (transactionId : string) : World -> Answer * World :=
  reply "Failed to get blockchain record"
    (record <- lift_db (getBlockchainRecordByTransactionId transactionId) ;;
     match record with
     | None =>
         ret {| answer_status := 404;
                answer_body := AError "Blockchain record not found"
                                 (Some transactionId) None |}
     | Some r => ret {| answer_status := 200; answer_body := ARecord r transactionId |}
     end)%js.

(** The ['close'] listener of [retrainModels]. *)
Definition retrain_on_close (code : option Z) (output errorOutput : string)
  : Settled JSValue :=
  match code with
  | Some 0%Z =>
      match
        match find (includes "Training completed:") (split LF (trim output)) with
        | Some resultLine =>
            match nth_error (split "Training completed: " resultLine) 1 with
            | Some resultStr => JSON_parse resultStr
            | None => Throw "SyntaxError: undefined is not valid JSON"
            end
        | None => Ok retrained
        end
      with
      | Ok result => Resolved result
      | Throw _ => Resolved retrained
      end
  | _ => Rejected ("Training failed: " ++ errorOutput)
  end.

Definition retrainModels (forceRetrain : JSValue) : Settled JSValue :=
  let '(code, output, errorOutput) := retrain_py (truthy forceRetrain) in
  retrain_on_close code output errorOutput.

(** POST /api/fraud/retrain; [force_retrain] defaults to [false]. *)
Definition post_retrain (force_retrain : option JSValue) : World -> Answer * World :=
  reply "Failed to retrain models"
    (trainingResult <-
       await (retrainModels (match force_retrain with
                             | Some f => f
                             | None => JBool false
                             end)) ;;
     ret {| answer_status := 200;
            answer_body := ATrained trainingResult "Models retrained successfully" |})%js.

(** Every modelled request, and the server state after a sequence of them. *)
Inductive Call : Type :=
| Routed (r : Request)
| PostTransaction (transactionData : TransactionData)
| GetTransaction (transactionId : string)
| PutTransaction (transactionId : string) (updateData : FraudUpdate)
| GetRecord (transactionId : string)
| PostRetrain (force_retrain : option JSValue).

Definition after (c : Call) (w : World) : World :=
  match c with
  | Routed r =>
      snd (handle JSON_parse ToNumber_text fraud_detector_py column_text
             createFraudAlertTransaction r w)
  | PostTransaction transactionData => snd (post_transaction transactionData w)
  | GetTransaction transactionId => snd (get_transaction transactionId w)
  | PutTransaction transactionId updateData =>
      snd (put_transaction transactionId updateData w)
  | GetRecord transactionId => snd (get_record transactionId w)
  | PostRetrain force_retrain => snd (post_retrain force_retrain w)
  end.

Definition run (cs : list Call) (w : World) : World :=
  fold_left (fun acc c => after c acc) cs w.

End MoreRoutes.

(* ------------------------------------------------------------------ *)
(** ** Further vocabulary *)

(** A transaction row without its three fraud columns. *)
Definition tx_core (r : TransactionRow) : TransactionRow :=
  set_fraud JUndefined JUndefined None r.

(** An alert row without its ledger link. *)
Definition fa_core (r : FraudAlertRow) : FraudAlertRow :=
  {| fa_id := fa_id r;
     fa_transaction_id := fa_transaction_id r;
     fa_alert_type := fa_alert_type r;
     fa_severity := fa_severity r;
     fa_confidence_score := fa_confidence_score r;
     fa_ml_model_used := fa_ml_model_used r;
     fa_features := fa_features r;
     fa_cardano_tx_hash := None;
     fa_cardano_nft_id := None;
     fa_status := fa_status r |}.

(** The keys of the three tables are unique. *)
Definition unique_keys (d : Db) : Prop :=
  NoDup (map tx_transaction_id (transactions d)) /\
  NoDup (map tx_id (transactions d)) /\
  NoDup (map fa_id (fraud_alerts d)) /\
  NoDup (map br_id (blockchain_records d)).

(** [d'] holds everything [d] holds: the ledger records of [d] as they are,
    its transactions up to their fraud columns and its alerts up to their
    ledger link, each followed by what was added since. *)
Definition extends (d d' : Db) : Prop :=
  (exists added, blockchain_records d' = (blockchain_records d ++ added)%list) /\
  (exists added,
      map tx_core (transactions d') = (map tx_core (transactions d) ++ added)%list) /\
  (exists added,
      map fa_core (fraud_alerts d') = (map fa_core (fraud_alerts d) ++ added)%list).

(** Calling a route once for each item, in order: the answers and the final
    server state. *)
Fixpoint in_sequence {A R : Type} (route : A -> World -> R * World) (xs : list A)
  (w : World) : list R * World :=
  match xs with
  | [] => ([], w)
  | x :: rest =>
      let (r, w') := route x w in
      let (rs, w'') := in_sequence route rest w' in
      (r :: rs, w'')
  end.

(** The number of answers with a given status. *)
Definition count_status {R : Type} (status_of : R -> nat) (code : nat) (rs : list R)
  : nat :=
  List.length (filter (fun r => Nat.eqb (status_of r) code) rs).

(** The status of an answer; 0, which is no status, for a request that is
    never answered. *)
Definition answered_status (a : option Answer) : nat :=
  match a with
  | Some x => answer_status x
  | None => 0
  end.

(** The entries of a batch answer, and its [processed] count. *)
Definition batch_processed (r : Response) : option nat :=
  match body r with
  | BatchBody processed _ _ _ => Some processed
  | _ => None
  end.

Definition batch_errors (r : Response) : list ItemError :=
  match body r with
  | BatchBody _ _ errors _ => errors
  | _ => []
  end.

(** The identifier of a generated transaction. *)
Definition demo_id (td : DemoTransaction * Draws) : string :=
  dt_transaction_id (fst td).

(** A training process that fails at start-up. *)
Definition failing_training (force : bool) : option Z * string * string :=
  (Some 1%Z, "", "ModuleNotFoundError: No module named xgboost").

(* ================================================================== *)
(** * Properties *)

Lemma Qgtb_true (a b : Q) : Qgtb a b = true <-> (b < a)%Q.
Proof.
  unfold Qgtb. rewrite negb_true_iff. split; intro H.
  - apply Qnot_le_lt. intro L. apply Qle_bool_iff in L. congruence.
  - destruct (Qle_bool a b) eqn:E; [|reflexivity].
    apply Qle_bool_iff in E. exfalso. exact (Qlt_not_le _ _ H E).
Qed.

Lemma Qgtb_false (a b : Q) : Qgtb a b = false <-> (a <= b)%Q.
Proof.
  unfold Qgtb. rewrite negb_false_iff. apply Qle_bool_iff.
Qed.

Lemma existsb_eq_In (s : string) (l : list string) :
  existsb_eq s l = true <-> In s l.
Proof.
  unfold existsb_eq. rewrite existsb_exists. split.
  - intros [x [Hin Heq]]. apply String.eqb_eq in Heq. now subst.
  - intro Hin. exists s. split; [assumption | apply String.eqb_refl].
Qed.

Lemma existsb_eq_not_In (s : string) (l : list string) :
  existsb_eq s l = false <-> ~ In s l.
Proof.
  rewrite <- existsb_eq_In. destruct (existsb_eq s l); split; congruence.
Qed.

(** *** [createBlockchainRecord] *)

Lemma createBlockchainRecord_inserted (recordData : RecordData) (d : Db) :
  inserted recordData d (createBlockchainRecord recordData d).
Proof.
  unfold createBlockchainRecord.
  destruct (rd_transaction_id recordData) as [tid|] eqn:Et.
  - destruct (rd_cardano_tx_hash recordData) as [hash|] eqn:Eh.
    + destruct (existsb_eq hash (map br_cardano_tx_hash (blockchain_records d))) eqn:Ex.
      * apply inserted_duplicate with hash; [assumption|].
        now apply existsb_eq_In.
      * apply (@inserted_row recordData d tid hash); try assumption.
        now apply existsb_eq_not_In.
    + now apply inserted_null_hash.
  - now apply inserted_null_transaction.
Qed.

Lemma createBlockchainRecord_frame (recordData : RecordData) (d : Db) :
  transactions (snd (createBlockchainRecord recordData d)) = transactions d /\
  fraud_alerts (snd (createBlockchainRecord recordData d)) = fraud_alerts d.
Proof.
  destruct (createBlockchainRecord_inserted recordData d); simpl; auto.
Qed.

(** *** Invariants of the stored ledger records

    A property of the database that only looks at [blockchain_records] and
    that an insert keeps is kept by every handler and by the seeding script:
    [createBlockchainRecord] is the only writer of that table. *)
Section Invariant.

Variable P : Db -> Prop.
Hypothesis P_frame :
  forall d d', blockchain_records d' = blockchain_records d -> P d -> P d'.
Hypothesis P_insert :
  forall recordData d, P d -> P (snd (createBlockchainRecord recordData d)).

Lemma keeps_ret {A} (a : A) : keeps P (ret a).
Proof. intros w H. exact H. Qed.

Lemma keeps_throw {A} (e : string) : keeps P (@throw World A e).
Proof. intros w H. exact H. Qed.

Lemma keeps_bind {A B} (m : M World A) (k : A -> M World B) :
  keeps P m -> (forall a, keeps P (k a)) -> keeps P (bind m k).
Proof.
  intros Hm Hk w H. unfold bind. specialize (Hm w H).
  destruct (m w) as [[a|e] w']; simpl in *.
  - now apply Hk.
  - exact Hm.
Qed.

Lemma keeps_lift_db {A} (f : M Db A) :
  (forall d, P d -> P (snd (f d))) -> keeps P (lift_db f).
Proof.
  intros Hf w H. unfold lift_db. specialize (Hf (db w) H).
  destruct (f (db w)) as [r d']. exact Hf.
Qed.

Lemma keeps_immediate {A} (m : M World A) : keeps P m -> keeps P (immediate m).
Proof.
  intros Hm w H. unfold immediate. specialize (Hm w H).
  now destruct (m w) as [r w'].
Qed.

Lemma keeps_wbind {A B} (m : W World A) (k : A -> W World B) :
  keeps P m -> (forall a, keeps P (k a)) -> keeps P (wbind m k).
Proof.
  intros Hm Hk w H. unfold wbind. specialize (Hm w H).
  destruct (m w) as [[[a|e]|] w']; simpl in *.
  - now apply Hk.
  - exact Hm.
  - exact Hm.
Qed.

Lemma keeps_answered {R} (route : World -> R * World) :
  keeps P route -> keeps P (answered route).
Proof.
  intros Hr w H. unfold answered. specialize (Hr w H).
  now destruct (route w) as [r w'].
Qed.

Lemma keeps_await {A} (p : Settled A) : keeps P (@await World A p).
Proof. destruct p; [apply keeps_ret | apply keeps_throw]. Qed.

Lemma keeps_await_pending {A} (p : Promise A) : keeps P (@await_pending World A p).
Proof.
  destruct p as [outcome|]; [apply keeps_immediate, keeps_await|].
  intros w H. exact H.
Qed.

Lemma keeps_getTransaction tid : keeps P (lift_db (getTransaction tid)).
Proof.
  apply keeps_lift_db. intros d H. unfold getTransaction. now destruct tid.
Qed.

Lemma createTransaction_records (data : TransactionData) (d : Db) :
  blockchain_records (snd (createTransaction data d)) = blockchain_records d.
Proof.
  unfold createTransaction.
  destruct (td_transaction_id data), (td_user_id data), (td_amount data),
    (td_transaction_type data); try reflexivity.
  now destruct (existsb_eq _ _).
Qed.

Lemma createFraudAlert_records (a : AlertData) (d : Db) :
  blockchain_records (snd (createFraudAlert a d)) = blockchain_records d.
Proof.
  unfold createFraudAlert.
  now destruct (ad_transaction_id a), (ad_alert_type a), (ad_severity a),
    (ad_confidence_score a), (ad_ml_model_used a).
Qed.

Lemma keeps_createTransaction data : keeps P (lift_db (createTransaction data)).
Proof.
  apply keeps_lift_db. intros d H.
  apply P_frame with d; [apply createTransaction_records | exact H].
Qed.

Lemma keeps_updateTransactionFraud column_text tid f s r :
  keeps P (lift_db (updateTransactionFraud column_text tid f s r)).
Proof.
  apply keeps_lift_db. intros d H. now apply P_frame with d.
Qed.

Lemma keeps_createFraudAlert a : keeps P (lift_db (createFraudAlert a)).
Proof.
  apply keeps_lift_db. intros d H.
  apply P_frame with d; [apply createFraudAlert_records | exact H].
Qed.

Lemma keeps_updateFraudAlertWithBlockchain id r :
  keeps P (lift_db (updateFraudAlertWithBlockchain id r)).
Proof.
  apply keeps_lift_db. intros d H. now apply P_frame with d.
Qed.

Lemma keeps_createBlockchainRecord r : keeps P (lift_db (createBlockchainRecord r)).
Proof. apply keeps_lift_db. intros d H. now apply P_insert. Qed.

Lemma keeps_submit ledger t p : keeps P (submit ledger t p).
Proof. intros w H. exact H. Qed.

Lemma keeps_respond failure (m : M World Response) :
  keeps P m -> forall w, P (db w) -> P (db (snd (respond failure m w))).
Proof.
  intros Hm w H. unfold respond. specialize (Hm w H).
  now destruct (m w) as [[r|e] w'].
Qed.

Lemma keeps_respond_pending failure (m : W World Response) :
  keeps P m -> forall w, P (db w) -> P (db (snd (respond_pending failure m w))).
Proof.
  intros Hm w H. unfold respond_pending. specialize (Hm w H).
  now destruct (m w) as [[[r|e]|] w'].
Qed.

Lemma keeps_for_each {I} (item_id : I -> option string)
  (body : I -> M World (ItemResult + ItemError)) :
  (forall x, keeps P (body x)) ->
  forall items results errors w,
    P (db w) -> P (db (snd (for_each item_id body items results errors w))).
Proof.
  intros Hb items. induction items as [|x rest IH]; intros results errors w H.
  - exact H.
  - simpl. specialize (Hb x w H).
    destruct (body x w) as [[[r|e]|msg] w']; simpl in Hb; now apply IH.
Qed.

Lemma keeps_for_each_object {I} (item_id : I -> option string)
  (body : I -> W World (ItemResult + ItemError)) :
  (forall x, keeps P (body x)) ->
  forall items results errors,
    keeps P (for_each_object item_id body items results errors).
Proof.
  intros Hb items. induction items as [|[x|] rest IH]; intros results errors w H.
  - exact H.
  - simpl. specialize (Hb x w H).
    destruct (body x w) as [[[[r|e]|msg]|] w']; simpl in Hb;
      [now apply IH | now apply IH | now apply IH | exact Hb].
  - exact H.
Qed.

Lemma seed_each_keeps {A B} (op : A -> M Db B) (xs : list A) :
  (forall x d, P d -> P (snd (op x d))) ->
  forall d, P d -> P (seed_each op xs d).
Proof.
  intros Hop. unfold seed_each.
  induction xs as [|x rest IH]; intros d H; simpl; [exact H|].
  apply IH. now apply Hop.
Qed.

End Invariant.

Section HandlersKeep.

Variable P : Db -> Prop.
Hypothesis P_frame :
  forall d d', blockchain_records d' = blockchain_records d -> P d -> P d'.
Hypothesis P_insert :
  forall recordData d, P d -> P (snd (createBlockchainRecord recordData d)).

Variable JSON_parse : string -> Result JSValue.
Variable ToNumber_text : JSValue -> option Q.
Variable fraud_detector_py : TransactionData -> Process.
Variable column_text : JSValue -> JSValue.
Variable ledger : World -> TransactionRow -> FraudPrediction -> Result RecordData.

Create HintDb keeps.

#[local] Hint Resolve keeps_ret keeps_throw keeps_await keeps_getTransaction
  keeps_createTransaction keeps_updateTransactionFraud keeps_createFraudAlert
  keeps_updateFraudAlertWithBlockchain keeps_createBlockchainRecord
  keeps_submit keeps_immediate keeps_await_pending : keeps.

Ltac keeps_step :=
  first [ apply keeps_bind; [ | intro ]
        | apply keeps_wbind; [ | intro ]
        | progress auto with keeps ].

Lemma keeps_batch_record_item id : keeps P (batch_record_item ledger id).
Proof.
  unfold batch_record_item. apply keeps_bind; [auto with keeps|].
  intros [t|]; repeat keeps_step.
Qed.

Lemma keeps_alerts_batch_item a : keeps P (alerts_batch_item ledger a).
Proof.
  unfold alerts_batch_item. apply keeps_bind; [auto with keeps|].
  intros [t|]; repeat keeps_step.
Qed.

Lemma keeps_transactions_batch_item data :
  keeps P (transactions_batch_item JSON_parse ToNumber_text fraud_detector_py
             column_text data).
Proof.
  unfold transactions_batch_item.
  destruct (negb _); [auto with keeps|].
  apply keeps_wbind; [auto with keeps|].
  intros [t|]; repeat keeps_step.
Qed.

Lemma handle_keeps (r : Request) (w : World) :
  P (db w) ->
  P (db (snd (handle JSON_parse ToNumber_text fraud_detector_py column_text
                ledger r w))).
Proof.
  intro H. destruct r as [id|ids|req|alerts|txs]; simpl.
  - apply keeps_answered; [|exact H]. intros w0 H0.
    unfold post_record. apply keeps_respond; [|exact H0].
    destruct (negb _); [auto with keeps|].
    apply keeps_bind; [auto with keeps|].
    intros [t|]; repeat keeps_step.
  - apply keeps_answered; [|exact H]. intros w0 H0.
    unfold post_batch_record. destruct ids as [ids|]; [|exact H0].
    pose proof (@keeps_for_each P _ (fun i => i) (batch_record_item ledger)
                  keeps_batch_record_item ids [] [] w0 H0) as K.
    destruct (for_each _ _ ids [] [] w0) as [[results errors] w']. exact K.
  - apply keeps_answered; [|exact H]. intros w0 H0.
    unfold post_alert. apply keeps_respond; [|exact H0].
    destruct (_ || _); [auto with keeps|].
    apply keeps_bind; [auto with keeps|].
    intros [t|]; repeat keeps_step.
  - unfold post_alerts_batch. apply keeps_respond_pending; [|exact H].
    destruct alerts as [items|]; [|auto with keeps].
    apply keeps_wbind; [|intro; auto with keeps].
    apply keeps_for_each_object. intro a.
    apply keeps_immediate, keeps_alerts_batch_item.
  - unfold post_transactions_batch. apply keeps_respond_pending; [|exact H].
    destruct txs as [items|]; [|auto with keeps].
    apply keeps_wbind; [|intro; auto with keeps].
    apply keeps_for_each_object, keeps_transactions_batch_item.
Qed.

Lemma serve_keeps (rs : list Request) (w : World) :
  P (db w) ->
  P (db (serve JSON_parse ToNumber_text fraud_detector_py column_text ledger rs w)).
Proof.
  unfold serve. revert w.
  induction rs as [|r rest IH]; intros w H; simpl; [exact H|].
  apply IH. now apply handle_keeps.
Qed.

Lemma seedDatabase_keeps (transactions : list (DemoTransaction * Draws)) (d : Db) :
  P d -> P (seedDatabase column_text transactions d).
Proof.
  intro H. unfold seedDatabase.
  apply seed_each_keeps; [exact P_insert|].
  apply seed_each_keeps.
  { intros a d' H'. apply P_frame with d'; [apply createFraudAlert_records | exact H']. }
  apply seed_each_keeps.
  { intros [t dr] d' H'. simpl. now apply P_frame with d'. }
  apply seed_each_keeps; [|exact H].
  intros t d' H'. apply P_frame with d'; [apply createTransaction_records | exact H'].
Qed.

End HandlersKeep.

(** *** Uniqueness of ledger transaction hashes *)

Lemma NoDup_snoc {A} (l : list A) (a : A) :
  NoDup l -> ~ In a l -> NoDup (l ++ [a]).
Proof.
  induction l as [|x l IH]; intros Hl Ha; simpl.
  - constructor; [intros [] | constructor].
  - inversion Hl as [|y l' Hx Hl']; subst. constructor.
    + rewrite in_app_iff. intros [Hin|[Heq|[]]]; [contradiction|].
      subst. apply Ha. now left.
    + apply IH; [assumption|]. intro Hin. apply Ha. now right.
Qed.

Lemma hashes_frame (d d' : Db) :
  blockchain_records d' = blockchain_records d -> NoDup (hashes d) -> NoDup (hashes d').
Proof. unfold hashes. now intros ->. Qed.

Lemma hashes_insert (recordData : RecordData) (d : Db) :
  NoDup (hashes d) -> NoDup (hashes (snd (createBlockchainRecord recordData d))).
Proof.
  intro H. destruct (createBlockchainRecord_inserted recordData d) as [tid hash Et Eh Hn row| | |];
    simpl; try assumption.
  unfold hashes. simpl. rewrite map_app. simpl.
  now apply NoDup_snoc.
Qed.

Lemma duplicate_hash_rejected (recordData : RecordData) (d : Db) (hash : string) :
  rd_cardano_tx_hash recordData = Some hash ->
  In hash (hashes d) ->
  exists message, createBlockchainRecord recordData d = (Throw message, d).
Proof.
  intros Eh Hin.
  destruct (createBlockchainRecord_inserted recordData d) as [tid h Et Eh' Hn row| | |];
    try (eexists; reflexivity).
  rewrite Eh in Eh'. injection Eh' as <-. contradiction.
Qed.

(** C7.  In every database reached by seeding and then serving any sequence
    of requests, whatever the ledger integration returns, no two stored ledger
    records hold the same [cardano_tx_hash], and inserting a record whose hash
    is already stored throws and stores nothing. *)
Theorem ledger_hash_unique :
  forall (JSON_parse : string -> Result JSValue)
         (ToNumber_text : JSValue -> option Q)
         (fraud_detector_py : TransactionData -> Process)
         (column_text : JSValue -> JSValue)
         (ledger : World -> TransactionRow -> FraudPrediction -> Result RecordData)
         (transactions : list (DemoTransaction * Draws))
         (requests : list Request),
    let w := serve JSON_parse ToNumber_text fraud_detector_py column_text ledger
               requests
               {| db := seedDatabase column_text transactions empty_db;
                  submissions := [] |} in
    NoDup (hashes (db w)) /\
    (forall recordData hash,
        rd_cardano_tx_hash recordData = Some hash ->
        In hash (hashes (db w)) ->
        exists message,
          createBlockchainRecord recordData (db w) = (Throw message, db w)).
Proof.
  intros. split.
  - apply (@serve_keeps (fun d => NoDup (hashes d)) hashes_frame hashes_insert).
    simpl.
    apply (@seedDatabase_keeps (fun d => NoDup (hashes d)) hashes_frame hashes_insert).
    constructor.
  - intros recordData hash. apply duplicate_hash_rejected.
Qed.

Lemma ledger_hash_unique_witness :
  let w := serve sample_JSON_parse sample_ToNumber_text crashing_py
             sample_column_text fresh_hash_ledger
             [PostRecord (Some "TXA")]
             {| db := seedDatabase sample_column_text
                        [(sample_demo "TXA" 1500 12, sample_draws "ab")]
                        empty_db;
                submissions := [] |} in
  hashes (db w) = ["0xab"; "0x0"] /\
  exists message,
    createBlockchainRecord (with_status (Some "confirmed")
                              {| rd_transaction_id := Some "TXA";
                                 rd_cardano_tx_hash := Some "0x0";
                                 rd_nft_id := None;
                                 rd_metadata := None;
                                 rd_block_height := None;
                                 rd_confirmation_status := None |}) (db w)
    = (Throw message, db w).
Proof.
  split; [vm_compute; reflexivity|].
  apply (proj2 (ledger_hash_unique sample_JSON_parse sample_ToNumber_text crashing_py
                  sample_column_text fresh_hash_ledger
                  [(sample_demo "TXA" 1500 12, sample_draws "ab")]
                  [PostRecord (Some "TXA")])) with (hash := "0x0").
  - reflexivity.
  - vm_compute. right. left. reflexivity.
Defined.

(** *** Status and block height of a created record *)

Lemma createBlockchainRecord_ignores_status (s : option string)
  (recordData : RecordData) (d : Db) :
  createBlockchainRecord (with_status s recordData) d
  = createBlockchainRecord recordData d.
Proof. reflexivity. Qed.

(** C6.  A record is created in status ['pending'].  For a record object
    that names a transaction and carries a hash no stored record has,
    whatever [confirmation_status] it carries, [createBlockchainRecord]
    succeeds and appends exactly one row, which holds the object's
    transaction, hash, NFT id, metadata and block height and whose
    [confirmation_status] is ['pending'].  For every record object: the status
    it carries has no influence on the outcome, a success appends one
    ['pending'] row, and a failure leaves the database as it was. *)
Theorem created_record_is_pending :
  forall (recordData : RecordData) (d : Db) (tid hash : string)
         (carried : option string),
    rd_transaction_id recordData = Some tid ->
    rd_cardano_tx_hash recordData = Some hash ->
    ~ In hash (hashes d) ->
    (exists row,
        createBlockchainRecord (with_status carried recordData) d
        = (Ok (br_id row),
           {| transactions := transactions d;
              fraud_alerts := fraud_alerts d;
              blockchain_records := (blockchain_records d ++ [row])%list |}) /\
        br_transaction_id row = tid /\
        br_cardano_tx_hash row = hash /\
        br_nft_id row = rd_nft_id recordData /\
        br_metadata row = rd_metadata recordData /\
        br_block_height row = rd_block_height recordData /\
        br_confirmation_status row = "pending") /\
    (forall (other : RecordData) (d0 : Db),
        (forall s : option string,
            createBlockchainRecord (with_status s other) d0
            = createBlockchainRecord other d0) /\
        match createBlockchainRecord other d0 with
        | (Ok id, d') =>
            exists row,
              blockchain_records d' = (blockchain_records d0 ++ [row])%list /\
              br_id row = id /\
              br_confirmation_status row = "pending"
        | (Throw _, d') => d' = d0
        end).
Proof.
  intros recordData d tid hash carried Et Eh Hfresh. split.
  - rewrite createBlockchainRecord_ignores_status.
    unfold createBlockchainRecord. rewrite Et, Eh.
    replace (existsb_eq hash (map br_cardano_tx_hash (blockchain_records d)))
      with false by (symmetry; now apply existsb_eq_not_In).
    exists {| br_id := next_id (map br_id (blockchain_records d));
              br_transaction_id := tid;
              br_cardano_tx_hash := hash;
              br_nft_id := rd_nft_id recordData;
              br_metadata := rd_metadata recordData;
              br_block_height := rd_block_height recordData;
              br_confirmation_status := "pending" |}.
    repeat split.
  - intros other d0. split.
    + intro s. apply createBlockchainRecord_ignores_status.
    + destruct (createBlockchainRecord_inserted other d0)
        as [tid' hash' Et' Eh' Hn row| | |]; try reflexivity.
      exists row. repeat split.
Qed.

Lemma created_record_is_pending_witness :
  exists row,
    createBlockchainRecord
      {| rd_transaction_id := Some "TX1";
         rd_cardano_tx_hash := Some "0xabc";
         rd_nft_id := None;
         rd_metadata := None;
         rd_block_height := Some 1500000%Z;
         rd_confirmation_status := Some "confirmed" |} (db sample_world)
    = (Ok (br_id row),
       {| transactions := transactions (db sample_world);
          fraud_alerts := fraud_alerts (db sample_world);
          blockchain_records := [row] |}) /\
    br_confirmation_status row = "pending".
Proof.
  destruct (@created_record_is_pending
              {| rd_transaction_id := Some "TX1";
                 rd_cardano_tx_hash := Some "0xabc";
                 rd_nft_id := None;
                 rd_metadata := None;
                 rd_block_height := Some 1500000%Z;
                 rd_confirmation_status := None |}
              (db sample_world) "TX1" "0xabc" (Some "confirmed"))
    as [[row (E & _ & _ & _ & _ & _ & Hp)] _];
    [reflexivity | reflexivity | intros [] |].
  exists row. split; [exact E | exact Hp].
Defined.

Lemma generated_record_has_height (transactions : list (DemoTransaction * Draws)) :
  Forall (fun r => exists t d,
              In (t, d) transactions /\
              rd_block_height r
              = Some (Qfloor (height_draw d * 1000000) + 1000000)%Z)
         (generateBlockchainRecords transactions).
Proof.
  apply Forall_forall. intros r Hin.
  unfold generateBlockchainRecords in Hin. apply in_flat_map in Hin.
  destruct Hin as [[t d] [Hin Hr]].
  destruct (Qgtb (dt_amount t) 1000); [|contradiction].
  destruct Hr as [<-|[]]. exists t, d. split; [assumption | reflexivity].
Qed.

(** C9 (as the code has it).  The block height of a stored record is the one
    the record object carried when it was created, null exactly when that
    object carried none, and the record is stored in status ['pending'] either
    way; every record of [generateBlockchainRecords] carries a block height. *)
Theorem block_height_as_supplied :
  forall (recordData : RecordData) (d : Db)
         (transactions : list (DemoTransaction * Draws)),
    match createBlockchainRecord recordData d with
    | (Ok id, d') =>
        exists row,
          blockchain_records d' = (blockchain_records d ++ [row])%list /\
          br_block_height row = rd_block_height recordData /\
          br_confirmation_status row = "pending"
    | (Throw _, d') => d' = d
    end /\
    Forall (fun r => exists t dr,
                In (t, dr) transactions /\
                rd_block_height r
                = Some (Qfloor (height_draw dr * 1000000) + 1000000)%Z)
           (generateBlockchainRecords transactions).
Proof.
  intros recordData d transactions. split.
  - destruct (createBlockchainRecord_inserted recordData d) as [tid hash Et Eh Hn row| | |];
      try reflexivity.
    exists row. repeat split.
  - apply generated_record_has_height.
Qed.

(** C9, the claim as stated fails: seeding one generated transaction of
    amount 1500 stores a record that is ['pending'] and has block height
    1500000. *)
Lemma pending_record_with_block_height :
  map (fun r => (br_confirmation_status r, br_block_height r))
      (blockchain_records
         (seedDatabase sample_column_text
            [(sample_demo "TXA" 1500 12, sample_draws "ab")] empty_db))
  = [("pending", Some 1500000%Z)].
Proof. vm_compute. reflexivity. Qed.

(** *** The demo generators *)

Lemma Qgtb_cases (a b : Q) :
  (Qgtb a b = true /\ (b < a)%Q) \/ (Qgtb a b = false /\ (a <= b)%Q).
Proof.
  destruct (Qgtb a b) eqn:E.
  - left. split; [reflexivity | now apply Qgtb_true].
  - right. split; [reflexivity | now apply Qgtb_false].
Qed.

Lemma demo_flag (t : DemoTransaction) :
  (field "flag" (demo_metadata t) = JStr "Suspicious" <-> (2000 < dt_amount t)%Q) /\
  (field "flag" (demo_metadata t) = JStr "Legitimate" <-> (dt_amount t <= 2000)%Q).
Proof.
  unfold field, demo_metadata. cbn.
  destruct (Qgtb_cases (dt_amount t) 2000) as [[E L]|[E L]]; rewrite E; split; split;
    intro H; try reflexivity; try discriminate; try assumption.
  - exfalso. exact (Qlt_not_le _ _ L H).
  - exfalso. exact (Qlt_not_le _ _ H L).
Qed.

(** X16.  The metadata of the demo generator.  For every transaction that
    [generateBlockchainRecords] records, which are those of amount above 1000,
    the metadata has exactly the fields transactionID, amount, flag,
    timestamp, merchantName and merchantCategory, each taken from the
    transaction, and the flag is "Suspicious" exactly when the amount exceeds
    2000 and "Legitimate" otherwise: the generator is given no verdict. *)
Theorem demo_metadata_payload :
  forall (transactions : list (DemoTransaction * Draws)) (r : RecordData),
    In r (generateBlockchainRecords transactions) ->
    exists t d metadata,
      In (t, d) transactions /\
      (1000 < dt_amount t)%Q /\
      rd_metadata r = Some metadata /\
      keys metadata
      = ["transactionID"; "amount"; "flag"; "timestamp"; "merchantName";
         "merchantCategory"] /\
      field "transactionID" metadata = JStr (dt_transaction_id t) /\
      field "amount" metadata = JNum (dt_amount t) /\
      field "timestamp" metadata = JStr (dt_timestamp t) /\
      field "merchantName" metadata = JStr (dt_merchant_name t) /\
      field "merchantCategory" metadata = JStr (dt_merchant_category t) /\
      (field "flag" metadata = JStr "Suspicious" <-> (2000 < dt_amount t)%Q) /\
      (field "flag" metadata = JStr "Legitimate" <-> (dt_amount t <= 2000)%Q).
Proof.
  intros transactions r Hin.
  unfold generateBlockchainRecords in Hin. apply in_flat_map in Hin.
  destruct Hin as [[t d] [Hin Hr]].
  destruct (Qgtb_cases (dt_amount t) 1000) as [[E L]|[E L]]; rewrite E in Hr;
    [|contradiction].
  destruct Hr as [<-|[]].
  exists t, d, (demo_metadata t).
  repeat (split; [first [assumption | reflexivity]|]).
  apply demo_flag.
Qed.

Lemma demo_metadata_payload_witness :
  exists t d metadata,
    In (t, d) [(sample_demo "TXB" 2500 12, sample_draws "cd")] /\
    (1000 < dt_amount t)%Q /\
    Some (demo_metadata (sample_demo "TXB" 2500 12)) = Some metadata /\
    keys metadata
    = ["transactionID"; "amount"; "flag"; "timestamp"; "merchantName";
       "merchantCategory"] /\
    field "transactionID" metadata = JStr (dt_transaction_id t) /\
    field "amount" metadata = JNum (dt_amount t) /\
    field "timestamp" metadata = JStr (dt_timestamp t) /\
    field "merchantName" metadata = JStr (dt_merchant_name t) /\
    field "merchantCategory" metadata = JStr (dt_merchant_category t) /\
    (field "flag" metadata = JStr "Suspicious" <-> (2000 < dt_amount t)%Q) /\
    (field "flag" metadata = JStr "Legitimate" <-> (dt_amount t <= 2000)%Q).
Proof.
  apply (demo_metadata_payload
           [(sample_demo "TXB" 2500 12, sample_draws "cd")]
           {| rd_transaction_id := Some "TXB";
              rd_cardano_tx_hash := Some "0xcd";
              rd_nft_id := None;
              rd_metadata := Some (demo_metadata (sample_demo "TXB" 2500 12));
              rd_block_height := Some 1500000%Z;
              rd_confirmation_status := Some "confirmed" |}).
  vm_compute. left. reflexivity.
Defined.

(** Seeding marks a transaction of amount 1500 fraudulent ([is_fraud = 1]),
    and the demo metadata stored for it is flagged "Legitimate". *)
Example legitimate_flag_on_fraudulent_transaction :
  let d := seedDatabase sample_column_text
             [(sample_demo "TXA" 1500 12, sample_draws "ab")] empty_db in
  map tx_is_fraud (transactions d) = [JNum 1] /\
  map br_metadata (blockchain_records d)
  = [Some (JObj [("transactionID", JStr "TXA");
                 ("amount", JNum 1500);
                 ("flag", JStr "Legitimate");
                 ("timestamp", JStr "2025-01-21T12:34:00.000Z");
                 ("merchantName", JStr "Walmart");
                 ("merchantCategory", JStr "grocery")])].
Proof. vm_compute. split; reflexivity. Qed.

(** *** The metadata codec *)

(** C4.  For every transaction and prediction, the payload of [encode] has
    the transaction identifier, amount, currency, flag, fraud score,
    confidence, timestamp, merchant name and category, user, scoring-model
    identifier, schema version and alert-type tag, each taken from its input;
    the flag is "Suspicious" exactly when the prediction's [is_fraud] is
    truthy and "Legitimate" otherwise, and it is the same for every
    transaction and timestamp the prediction is encoded with. *)
Theorem encoded_payload_fields :
  forall (timestamp : string) (t : TransactionRow) (p : FraudPrediction),
    let metadata := encode timestamp t p in
    keys metadata
    = ["transactionID"; "amount"; "currency"; "flag"; "fraudScore"; "confidence";
       "timestamp"; "merchantName"; "merchantCategory"; "userId"; "mlModel";
       "version"; "alertType"] /\
    field "transactionID" metadata = JStr (tx_transaction_id t) /\
    field "amount" metadata = JNum (tx_amount t) /\
    field "currency" metadata = text_or_null (tx_currency t) /\
    field "fraudScore" metadata = fp_fraud_score p /\
    field "confidence" metadata = fp_confidence p /\
    field "timestamp" metadata = JStr timestamp /\
    field "merchantName" metadata = text_or_null (tx_merchant_name t) /\
    field "merchantCategory" metadata = text_or_null (tx_merchant_category t) /\
    field "userId" metadata = JStr (tx_user_id t) /\
    field "mlModel" metadata = JStr default_model /\
    field "version" metadata = JStr schema_version /\
    field "alertType" metadata = JStr "FRAUD_ALERT" /\
    (field "flag" metadata = JStr "Suspicious" <-> truthy (fp_is_fraud p) = true) /\
    (field "flag" metadata = JStr "Legitimate" <-> truthy (fp_is_fraud p) = false) /\
    (forall (timestamp' : string) (t' : TransactionRow),
        field "flag" (encode timestamp' t' p) = field "flag" metadata).
Proof.
  intros timestamp t p metadata. subst metadata.
  unfold encode, field, keys. cbn.
  repeat (split; [reflexivity|]).
  destruct (truthy (fp_is_fraud p)); repeat split; intro H;
    first [reflexivity | discriminate H].
Qed.

(** *** The single-record routes *)

Section RouteFacts.

Variable ledger : World -> TransactionRow -> FraudPrediction -> Result RecordData.

Lemma post_record_found (tid : string) (t : TransactionRow) (w : World) :
  tid <> "" ->
  find (fun r => tx_transaction_id r =? tid) (transactions (db w)) = Some t ->
  post_record ledger (Some tid) w =
  match ledger w t (stored_prediction t) with
  | Throw e =>
      (failure "Failed to record transaction on blockchain" e,
       logged w t (stored_prediction t) (db w))
  | Ok blockchainRecord =>
      match createBlockchainRecord blockchainRecord (db w) with
      | (Ok _, d') =>
          ({| status := 201;
              body := RecordBody (Some tid) blockchainRecord
                        "Transaction recorded on blockchain successfully" |},
           logged w t (stored_prediction t) d')
      | (Throw e, d') =>
          (failure "Failed to record transaction on blockchain" e,
           logged w t (stored_prediction t) d')
      end
  end.
Proof.
  intros Hne Hfind. destruct w as [d subs]. simpl in Hfind.
  unfold post_record, respond, bind, lift_db, getTransaction, submit, ret, logged, failure.
  simpl. apply String.eqb_neq in Hne. rewrite Hne. simpl. rewrite Hfind.
  destruct (ledger _ t (stored_prediction t)) as [rd|e]; [|reflexivity].
  simpl. destruct (createBlockchainRecord rd d) as [[id|e] d']; reflexivity.
Qed.

Lemma post_alert_found (req : AlertData) (tid ty sev : string) (c : Q)
  (t : TransactionRow) (w : World) :
  ad_transaction_id req = Some tid -> tid <> "" ->
  ad_alert_type req = Some ty -> ty <> "" ->
  ad_severity req = Some sev -> sev <> "" ->
  ad_confidence_score req = Some c -> Qeq_bool c 0 = false ->
  find (fun r => tx_transaction_id r =? tid) (transactions (db w)) = Some t ->
  let id := next_id (map fa_id (fraud_alerts (db w))) in
  let d1 := {| transactions := transactions (db w);
               fraud_alerts := (fraud_alerts (db w) ++ [alert_row req id tid ty sev c])%list;
               blockchain_records := blockchain_records (db w) |} in
  let p := alert_prediction (Some c) in
  post_alert ledger req w =
  match ledger {| db := d1; submissions := submissions w |} t p with
  | Throw e => (failure "Failed to create fraud alert" e, logged w t p d1)
  | Ok blockchainRecord =>
      match createBlockchainRecord blockchainRecord
              (snd (updateFraudAlertWithBlockchain id blockchainRecord d1)) with
      | (Ok _, d3) =>
          ({| status := 201;
              body := AlertBody id (Some tid) blockchainRecord
                        "Fraud alert created and recorded on blockchain" |},
           logged w t p d3)
      | (Throw e, d3) => (failure "Failed to create fraud alert" e, logged w t p d3)
      end
  end.
Proof.
  intros Et Ht Ea Ha Es Hs Ec Hc Hfind. destruct w as [d subs]. simpl in *.
  apply String.eqb_neq in Ht, Ha, Hs.
  unfold post_alert, respond, bind, lift_db, getTransaction, createFraudAlert, submit,
    ret, logged, failure.
  rewrite Et, Ea, Es, Ec. simpl. rewrite Ht, Ha, Hs, Hc. simpl. rewrite Hfind.
  destruct (ledger _ t _) as [rd|e]; [|reflexivity].
  simpl.
  destruct (createBlockchainRecord rd _) as [[id|e] d']; reflexivity.
Qed.

End RouteFacts.

Lemma stored_or_failed (w : World) (t : TransactionRow) (p : FraudPrediction)
  (d : Db) (recordData : RecordData) (ok : Response) (title : string) :
  blockchain_records d = blockchain_records (db w) ->
  status ok = 201%nat ->
  body_record (body ok) = Some recordData ->
  submitted_again w t p
    match createBlockchainRecord recordData d with
    | (Ok _, d') => (ok, logged w t p d')
    | (Throw e, d') => (failure title e, logged w t p d')
    end.
Proof.
  intros Hd Hs Hb.
  destruct (createBlockchainRecord_inserted recordData d) as [tid hash Et Eh Hn row| | |];
    (split; [reflexivity|]); try (right; repeat split; assumption).
  left. split; [assumption|]. exists recordData, row. simpl.
  unfold hashes in *. rewrite <- Hd. repeat split; assumption.
Qed.

(** C1 (as the code has it).  For a transaction identifier that already has
    a ledger record in status ['pending'] or ['confirmed'], a further
    record-alert call, through POST /api/blockchain/record or POST
    /api/fraud/alert, submits to the ledger integration again; it then either
    stores an additional ['pending'] record under a hash no stored record had
    and returns that new record with 201, or answers 500 and stores no record.
    It never returns a stored record. *)
Theorem record_alert_submits_again :
  forall (ledger : World -> TransactionRow -> FraudPrediction -> Result RecordData)
         (tid : string) (t : TransactionRow) (w : World),
    tid <> "" ->
    find (fun r => tx_transaction_id r =? tid) (transactions (db w)) = Some t ->
    live_records tid (db w) <> [] ->
    submitted_again w t (stored_prediction t) (post_record ledger (Some tid) w) /\
    (forall (req : AlertData) (ty sev : string) (c : Q),
        ad_transaction_id req = Some tid ->
        ad_alert_type req = Some ty -> ty <> "" ->
        ad_severity req = Some sev -> sev <> "" ->
        ad_confidence_score req = Some c -> Qeq_bool c 0 = false ->
        submitted_again w t (alert_prediction (Some c)) (post_alert ledger req w)).
Proof.
  intros ledger tid t w Hne Hfind _. split.
  - rewrite (@post_record_found ledger tid t w Hne Hfind).
    destruct (ledger w t (stored_prediction t)) as [rd|e].
    + now apply stored_or_failed.
    + split; [reflexivity|]. right. repeat split.
  - intros req ty sev c Et Ea Ha Es Hs Ec Hc.
    rewrite (@post_alert_found ledger req tid ty sev c t w Et Hne Ea Ha Es Hs Ec Hc Hfind).
    destruct (ledger _ t (alert_prediction (Some c))) as [rd|e].
    + now apply stored_or_failed.
    + split; [reflexivity|]. right. repeat split.
Qed.

Lemma record_alert_submits_again_witness :
  submitted_again recorded_world TX1 (stored_prediction TX1)
    (post_record fresh_hash_ledger (Some "TX1") recorded_world) /\
  submitted_again recorded_world TX1 (alert_prediction (Some (85 # 100)))
    (post_alert fresh_hash_ledger (sample_alert "TX1") recorded_world).
Proof.
  destruct (@record_alert_submits_again fresh_hash_ledger "TX1" TX1 recorded_world)
    as [Hrecord Halert].
  - discriminate.
  - reflexivity.
  - vm_compute. discriminate.
  - split; [exact Hrecord|].
    apply (Halert (sample_alert "TX1") "FRAUD_ALERT" "high" (85 # 100));
      first [reflexivity | discriminate].
Defined.

(** C1, the claim as stated fails.  With a ledger integration that issues a
    new hash per submission, two POST /api/blockchain/record calls for TX1
    both answer 201, make two submissions and leave two ['pending'] records
    for TX1.  With one that returns the same hash for the same transaction, the
    second call still submits, and answers 500 on the UNIQUE constraint rather
    than returning the stored record. *)
Lemma two_calls_two_live_records :
  let first := post_record fresh_hash_ledger (Some "TX1") sample_world in
  let second := post_record fresh_hash_ledger (Some "TX1") (snd first) in
  let first' := post_record same_hash_ledger (Some "TX1") sample_world in
  let second' := post_record same_hash_ledger (Some "TX1") (snd first') in
  (status (fst first) = 201%nat /\
   status (fst second) = 201%nat /\
   List.length (submissions (snd second)) = 2%nat /\
   map (fun r => (br_cardano_tx_hash r, br_confirmation_status r))
       (live_records "TX1" (db (snd second)))
   = [("0x0", "pending"); ("0x1", "pending")]) /\
  (status (fst first') = 201%nat /\
   fst second'
   = {| status := 500;
        body := ErrorBody "Failed to record transaction on blockchain" None
                  (Some (unique_failed "blockchain_records" "cardano_tx_hash")) |} /\
   List.length (submissions (snd second')) = 2%nat).
Proof. vm_compute. repeat split. Qed.

(** C2 (as the code has it).  POST /api/blockchain/record applies no
    eligibility test.  For a stored transaction whose [is_fraud] is false it
    submits to the ledger integration all the same, with a prediction whose
    [is_fraud] is [false], and answers 201 or 500, as for any other
    transaction; when the integration returns a record with a transaction
    identifier and a hash not yet stored, the route stores the record as
    ['pending'] and answers 201. *)
Theorem record_without_eligibility_check :
  forall (ledger : World -> TransactionRow -> FraudPrediction -> Result RecordData)
         (tid : string) (t : TransactionRow) (w : World),
    tid <> "" ->
    find (fun r => tx_transaction_id r =? tid) (transactions (db w)) = Some t ->
    truthy (tx_is_fraud t) = false ->
    fp_is_fraud (stored_prediction t) = JBool false /\
    submissions (snd (post_record ledger (Some tid) w))
    = (submissions w ++ [(t, stored_prediction t)])%list /\
    (status (fst (post_record ledger (Some tid) w)) = 201%nat
     \/ status (fst (post_record ledger (Some tid) w)) = 500%nat) /\
    (forall (blockchainRecord : RecordData) (rtid hash : string),
        ledger w t (stored_prediction t) = Ok blockchainRecord ->
        rd_transaction_id blockchainRecord = Some rtid ->
        rd_cardano_tx_hash blockchainRecord = Some hash ->
        ~ In hash (hashes (db w)) ->
        exists row w',
          post_record ledger (Some tid) w
          = ({| status := 201;
                body := RecordBody (Some tid) blockchainRecord
                          "Transaction recorded on blockchain successfully" |}, w') /\
          blockchain_records (db w') = (blockchain_records (db w) ++ [row])%list /\
          br_transaction_id row = rtid /\
          br_cardano_tx_hash row = hash /\
          br_confirmation_status row = "pending").
Proof.
  intros ledger tid t w Hne Hfind Hfraud.
  rewrite (@post_record_found ledger tid t w Hne Hfind).
  split; [|split; [|split]].
  - unfold stored_prediction, js_or. simpl. now rewrite Hfraud.
  - destruct (ledger w t (stored_prediction t)) as [rd|e]; [|reflexivity].
    now destruct (createBlockchainRecord rd (db w)) as [[id|e] d'].
  - destruct (ledger w t (stored_prediction t)) as [rd|e]; [|now right].
    destruct (createBlockchainRecord rd (db w)) as [[id|e] d']; [now left | now right].
  - intros rd rtid hash Hl Et Eh Hn. rewrite Hl.
    destruct (createBlockchainRecord_inserted rd (db w))
      as [tid' hash' Et' Eh' Hn' row| E | E | hash' Eh' Hin]; try congruence.
    exists row. eexists. split; [reflexivity|].
    rewrite Et in Et'. rewrite Eh in Eh'. injection Et' as <-. injection Eh' as <-.
    repeat split.
Qed.

Lemma record_without_eligibility_check_witness :
  fp_is_fraud (stored_prediction TX2) = JBool false /\
  submissions (snd (post_record fresh_hash_ledger (Some "TX2") sample_world))
  = (submissions sample_world ++ [(TX2, stored_prediction TX2)])%list /\
  (status (fst (post_record fresh_hash_ledger (Some "TX2") sample_world)) = 201%nat
   \/ status (fst (post_record fresh_hash_ledger (Some "TX2") sample_world)) = 500%nat) /\
  exists row w',
    post_record fresh_hash_ledger (Some "TX2") sample_world
    = ({| status := 201;
          body := RecordBody (Some "TX2")
                    {| rd_transaction_id := Some "TX2";
                       rd_cardano_tx_hash := Some "0x0";
                       rd_nft_id := None;
                       rd_metadata := None;
                       rd_block_height := None;
                       rd_confirmation_status := Some "pending" |}
                    "Transaction recorded on blockchain successfully" |}, w') /\
    blockchain_records (db w')
    = (blockchain_records (db sample_world) ++ [row])%list /\
    br_transaction_id row = "TX2" /\
    br_cardano_tx_hash row = "0x0" /\
    br_confirmation_status row = "pending".
Proof.
  destruct (@record_without_eligibility_check fresh_hash_ledger "TX2" TX2 sample_world)
    as (Hflag & Hsub & Hstatus & Hstore).
  - discriminate.
  - reflexivity.
  - reflexivity.
  - repeat (split; [assumption|]).
    apply (Hstore _ "TX2" "0x0"); try reflexivity.
    simpl. intros [].
Defined.

(** C2, the claim as stated fails.  TX2 is stored with [is_fraud = 0].  POST
    /api/blockchain/record for it submits a prediction with [is_fraud: false];
    with a ledger integration that returns a record the route answers 201 and
    stores that record, and with the ledger down it answers 500 with the
    ledger's error. *)
Lemma legitimate_transaction_recorded :
  let out := post_record fresh_hash_ledger (Some "TX2") sample_world in
  let out' := post_record unavailable_ledger (Some "TX2") sample_world in
  truthy (tx_is_fraud TX2) = false /\
  (status (fst out) = 201%nat /\
   map (fun c => (tx_transaction_id (fst c), fp_is_fraud (snd c))) (submissions (snd out))
   = [("TX2", JBool false)] /\
   map (fun r => (br_transaction_id r, br_confirmation_status r))
       (blockchain_records (db (snd out)))
   = [("TX2", "pending")]) /\
  (fst out'
   = {| status := 500;
        body := ErrorBody "Failed to record transaction on blockchain" None
                  (Some "LedgerUnavailable") |} /\
   map (fun c => (tx_transaction_id (fst c), fp_is_fraud (snd c))) (submissions (snd out'))
   = [("TX2", JBool false)]).
Proof. vm_compute. repeat split. Qed.

(** C5 (as the code has it).  When the ledger integration throws, as on an
    unavailable network, POST /api/blockchain/record answers 500 with the
    error's message and leaves the database as it was: no record is stored.
    A record object without a hash is never stored either: inserting it
    violates NOT NULL on [cardano_tx_hash] (or on [transaction_id]). *)
Theorem ledger_failure_answers_500 :
  forall (ledger : World -> TransactionRow -> FraudPrediction -> Result RecordData)
         (tid : string) (t : TransactionRow) (w : World) (e : string),
    tid <> "" ->
    find (fun r => tx_transaction_id r =? tid) (transactions (db w)) = Some t ->
    ledger w t (stored_prediction t) = Throw e ->
    post_record ledger (Some tid) w
    = ({| status := 500;
          body := ErrorBody "Failed to record transaction on blockchain" None (Some e) |},
       {| db := db w;
          submissions := (submissions w ++ [(t, stored_prediction t)])%list |}) /\
    (forall (recordData : RecordData) (d : Db),
        rd_cardano_tx_hash recordData = None ->
        exists message, createBlockchainRecord recordData d = (Throw message, d)).
Proof.
  intros ledger tid t w e Hne Hfind Hl. split.
  - now rewrite (@post_record_found ledger tid t w Hne Hfind), Hl.
  - intros recordData d Eh.
    destruct (createBlockchainRecord_inserted recordData d); try congruence;
      eexists; reflexivity.
Qed.

Lemma ledger_failure_answers_500_witness :
  post_record unavailable_ledger (Some "TX1") sample_world
  = ({| status := 500;
        body := ErrorBody "Failed to record transaction on blockchain" None
                  (Some "LedgerUnavailable") |},
     {| db := db sample_world;
        submissions := (submissions sample_world ++ [(TX1, stored_prediction TX1)])%list |}) /\
  exists message,
    createBlockchainRecord
      {| rd_transaction_id := Some "TX1";
         rd_cardano_tx_hash := None;
         rd_nft_id := None;
         rd_metadata := None;
         rd_block_height := None;
         rd_confirmation_status := Some "pending" |} (db sample_world)
    = (Throw message, db sample_world).
Proof.
  destruct (@ledger_failure_answers_500 unavailable_ledger "TX1" TX1 sample_world
              "LedgerUnavailable") as [Hanswer Hnull].
  - discriminate.
  - reflexivity.
  - reflexivity.
  - split; [exact Hanswer|]. apply Hnull. reflexivity.
Defined.

(** C5, the claim as stated fails: with the ledger unavailable the caller
    gets a 500 response that carries no record, and no ledger record, pending
    or other, is stored. *)
Lemma unavailable_ledger_fails_the_caller :
  let out := post_record unavailable_ledger (Some "TX1") sample_world in
  status (fst out) = 500%nat /\
  body_record (body (fst out)) = None /\
  blockchain_records (db (snd out)) = [].
Proof. vm_compute. repeat split. Qed.

(** *** Severity of created alerts *)

Lemma in_map_update (f : FraudAlertRow -> FraudAlertRow) (rows : list FraudAlertRow)
  (row : FraudAlertRow) :
  In (f row) (map f (rows ++ [row])).
Proof. apply in_map. apply in_or_app. right. now left. Qed.

Lemma truthy_str_Some (x : option string) :
  truthy_str x = true -> exists s, x = Some s /\ s <> "".
Proof.
  destruct x as [s|]; simpl; [|discriminate].
  intro H. exists s. split; [reflexivity|].
  apply String.eqb_neq. now apply negb_true_iff.
Qed.

Lemma truthy_num_Some (x : option Q) :
  truthy_num x = true -> exists q, x = Some q /\ Qeq_bool q 0 = false.
Proof.
  destruct x as [q|]; simpl; [|discriminate].
  intro H. exists q. split; [reflexivity|]. now apply negb_true_iff.
Qed.

(** A 201 answer of POST /api/fraud/alert comes from a request with all four
    required fields and a stored transaction. *)
Lemma post_alert_201 ledger (req : AlertData) (w : World) :
  status (fst (post_alert ledger req w)) = 201%nat ->
  exists tid ty sev c t,
    (ad_transaction_id req = Some tid /\ tid <> "") /\
    (ad_alert_type req = Some ty /\ ty <> "") /\
    (ad_severity req = Some sev /\ sev <> "") /\
    (ad_confidence_score req = Some c /\ Qeq_bool c 0 = false) /\
    find (fun r => tx_transaction_id r =? tid) (transactions (db w)) = Some t.
Proof.
  intro H. unfold post_alert, respond in H.
  destruct (negb (truthy_str (ad_transaction_id req)) || _ || _ || _) eqn:V;
    [discriminate H|].
  repeat (apply orb_false_iff in V; destruct V as [V ?]).
  repeat match goal with
         | X : negb _ = false |- _ => apply negb_false_iff in X
         end.
  destruct (truthy_str_Some _ V) as [tid [Et Ht]].
  destruct (truthy_str_Some _ H2) as [ty [Ea Ha]].
  destruct (truthy_str_Some _ H1) as [sev [Es Hs]].
  destruct (truthy_num_Some _ H0) as [c [Ec Hc]].
  exists tid, ty, sev, c.
  destruct (find (fun r => tx_transaction_id r =? tid) (transactions (db w)))
    as [t|] eqn:Hfind.
  - exists t. repeat split; assumption.
  - exfalso. destruct w as [d subs]. simpl in Hfind.
    unfold bind, lift_db, getTransaction, ret in H. rewrite Et in H. simpl in H.
    rewrite Hfind in H. discriminate H.
Qed.

(** C8 (as the code has it).  Severity does not come from score thresholds.
    [generateFraudAlerts] derives it from the transaction amount: 'high'
    exactly when the amount exceeds 2000, 'medium' exactly when it exceeds 1000
    but not 2000, 'low' otherwise, while the confidence score is drawn
    independently.  POST /api/fraud/alert stores the severity the caller
    sends: the alert row of a 201 response carries the request's severity. *)
Theorem severity_from_amount_or_caller :
  (forall (transactions : list (DemoTransaction * Draws)) (a : AlertData),
      In a (generateFraudAlerts transactions) ->
      exists t d,
        In (t, d) transactions /\
        suspicious t = true /\
        ad_transaction_id a = Some (dt_transaction_id t) /\
        ad_confidence_score a = Some (confidence_draw d * (4 # 10) + (6 # 10))%Q /\
        (ad_severity a = Some "high" <-> (2000 < dt_amount t)%Q) /\
        (ad_severity a = Some "medium"
         <-> (1000 < dt_amount t)%Q /\ (dt_amount t <= 2000)%Q) /\
        (ad_severity a = Some "low" <-> (dt_amount t <= 1000)%Q)) /\
  (forall (ledger : World -> TransactionRow -> FraudPrediction -> Result RecordData)
          (req : AlertData) (w : World),
      status (fst (post_alert ledger req w)) = 201%nat ->
      exists alert_id tid blockchainRecord message row,
        body (fst (post_alert ledger req w))
        = AlertBody alert_id tid blockchainRecord message /\
        In row (fraud_alerts (db (snd (post_alert ledger req w)))) /\
        fa_id row = alert_id /\
        Some (fa_severity row) = ad_severity req /\
        Some (fa_confidence_score row) = ad_confidence_score req).
Proof.
  split.
  - intros transactions a Hin.
    unfold generateFraudAlerts in Hin. apply in_flat_map in Hin.
    destruct Hin as [[t d] [Hin Ha]].
    destruct (suspicious t) eqn:Es; [|contradiction].
    destruct Ha as [<-|[]]. exists t, d. simpl.
    repeat (split; [first [assumption | reflexivity]|]).
    destruct (Qgtb_cases (dt_amount t) 2000) as [[E2 L2]|[E2 L2]]; rewrite E2;
      destruct (Qgtb_cases (dt_amount t) 1000) as [[E1 L1]|[E1 L1]]; rewrite ?E1;
      repeat split; intros; repeat split;
      try discriminate; try assumption; try reflexivity; exfalso; lra.
  - intros ledger req w H.
    destruct (post_alert_201 ledger req w H)
      as (tid & ty & sev & c & t & [Et Ht] & [Ea Ha] & [Es Hs] & [Ec Hc] & Hfind).
    rewrite (@post_alert_found ledger req tid ty sev c t w Et Ht Ea Ha Es Hs Ec Hc Hfind) in *.
    destruct (ledger _ t (alert_prediction (Some c))) as [rd|e]; [|discriminate H].
    set (id := next_id (map fa_id (fraud_alerts (db w)))) in *.
    set (d1 := {| transactions := transactions (db w);
                  fraud_alerts := (fraud_alerts (db w) ++ [alert_row req id tid ty sev c])%list;
                  blockchain_records := blockchain_records (db w) |}) in *.
    pose proof (createBlockchainRecord_frame rd
                  (snd (updateFraudAlertWithBlockchain id rd d1))) as [_ F].
    destruct (createBlockchainRecord rd _) as [[n|e] d3]; [|discriminate H].
    simpl in F. simpl.
    eexists. eexists. eexists. eexists. eexists.
    split; [reflexivity|]. rewrite F. split; [apply in_map_update|].
    rewrite Es, Ec.
    destruct (Nat.eqb _ _); repeat split.
Qed.

Lemma severity_from_amount_or_caller_witness :
  (exists t d,
      In (t, d) [(sample_demo "TXN" 500 3, sample_draws "ef")] /\
      suspicious t = true /\
      Some "TXN" = Some (dt_transaction_id t) /\
      Some ((3 # 4) * (4 # 10) + (6 # 10))%Q
      = Some (confidence_draw d * (4 # 10) + (6 # 10))%Q /\
      (Some "low" = Some "high" <-> (2000 < dt_amount t)%Q) /\
      (Some "low" = Some "medium"
       <-> (1000 < dt_amount t)%Q /\ (dt_amount t <= 2000)%Q) /\
      (Some "low" = Some "low" <-> (dt_amount t <= 1000)%Q)) /\
  (exists alert_id tid blockchainRecord message row,
      body (fst (post_alert fresh_hash_ledger (sample_alert "TX1") sample_world))
      = AlertBody alert_id tid blockchainRecord message /\
      In row (fraud_alerts
                (db (snd (post_alert fresh_hash_ledger (sample_alert "TX1") sample_world)))) /\
      fa_id row = alert_id /\
      Some (fa_severity row) = Some "high" /\
      Some (fa_confidence_score row) = Some (85 # 100)).
Proof.
  destruct severity_from_amount_or_caller as [Hgenerated Hposted]. split.
  - apply (Hgenerated
             [(sample_demo "TXN" 500 3, sample_draws "ef")]
             {| ad_transaction_id := Some "TXN";
                ad_alert_type := Some "FRAUD_ALERT";
                ad_severity := Some "low";
                ad_confidence_score := Some ((3 # 4) * (4 # 10) + (6 # 10))%Q;
                ad_ml_model_used := Some "XGBoost + KMeans";
                ad_features :=
                  Some (JObj [("amount", JNum 500);
                              ("hour", JNum (inject_Z 3));
                              ("merchant_category", JStr "grocery");
                              ("is_weekend", JNum (inject_Z 0));
                              ("is_holiday", JNum (inject_Z 0))]);
                ad_cardano_tx_hash := None;
                ad_cardano_nft_id := None |}).
    left. reflexivity.
  - apply (Hposted fresh_hash_ledger (sample_alert "TX1") sample_world).
    reflexivity.
Defined.

(** A valid alert request for a stored transaction: the alert row is
    created with the caller's severity and is then linked to the record's hash. *)
Example alert_is_created_and_linked :
  let out := post_alert fresh_hash_ledger (sample_alert "TX1") sample_world in
  status (fst out) = 201%nat /\
  map (fun a => (fa_id a, fa_severity a, fa_cardano_tx_hash a))
      (fraud_alerts (db (snd out)))
  = [(1%nat, "high", Some "0x0")] /\
  hashes (db (snd out)) = ["0x0"].
Proof. vm_compute. repeat split. Qed.

(** C8, the claim as stated fails: a transaction of amount 500 made at 3 AM
    gets an alert whose confidence score is 0.9, at least 0.8, and whose
    severity is 'low'. *)
Lemma low_severity_at_high_confidence :
  map (fun a => (ad_severity a,
                 match ad_confidence_score a with
                 | Some c => Qle_bool (8 # 10) c
                 | None => false
                 end))
      (generateFraudAlerts [(sample_demo "TXN" 500 3, sample_draws "ef")])
  = [(Some "low", true)].
Proof. vm_compute. reflexivity. Qed.

(** *** The scoring fallback *)

Section Scoring.

Variable JSON_parse : string -> Result JSValue.
Variable ToNumber_text : JSValue -> option Q.

Lemma on_close_settles (code : option Z) (output : string) :
  exists detection, on_close JSON_parse ToNumber_text code output = Resolved detection.
Proof.
  unfold on_close.
  destruct code as [[|c|c]|]; try (eexists; reflexivity).
  destruct (parse_output JSON_parse ToNumber_text output) as [[detection|]|e];
    eexists; reflexivity.
Qed.

Lemma on_close_nonzero (code : option Z) (output : string) :
  code <> Some 0%Z ->
  on_close JSON_parse ToNumber_text code output = Resolved fallback.
Proof.
  intro H. destruct code as [[|c|c]|]; try reflexivity. contradiction.
Qed.

Lemma on_close_unparsable (code : option Z) (output : string) :
  unparsable JSON_parse output ->
  on_close JSON_parse ToNumber_text code output = Resolved fallback.
Proof.
  intro H. unfold on_close.
  destruct code as [[|c|c]|]; try reflexivity.
  unfold parse_output.
  destruct H as [H | line e H Hp | line p H Hp Hnull]; rewrite H.
  - reflexivity.
  - rewrite Hp. reflexivity.
  - rewrite Hp. destruct Hnull as [-> | ->]; reflexivity.
Qed.

Lemma on_close_reads (code : option Z) (output line : string) (p : JSValue) :
  code = Some 0%Z ->
  predictionLine output = Some line ->
  prediction JSON_parse line = Ok p ->
  p <> JNull -> p <> JUndefined ->
  exists detection,
    on_close JSON_parse ToNumber_text code output = Resolved detection /\
    fd_is_fraud detection = field "is_fraud" p /\
    fd_fraud_score detection = field "fraud_score" p.
Proof.
  intros -> Hl Hp Hnull Hundef. unfold on_close, parse_output. rewrite Hl, Hp.
  cbn [rbind]. unfold field.
  destruct p as [| |b|q|s|items|fields]; try contradiction; cbn [get_prop rbind];
    match goal with
    | |- context [if truthy ?v then _ else _] => destruct (truthy v)
    end; cbn [rbind]; eexists; (split; [reflexivity|]); split; reflexivity.
Qed.

End Scoring.

(** C3.  When the scoring process closes with an exit code other than 0, or
    with an output that has no prediction line, or whose prediction text
    [JSON.parse] rejects, or whose prediction is [null], [runFraudDetection]
    resolves with the fallback prediction, whose [is_fraud] is 0 and whose
    [fraud_score] is 0.1.  Whenever the process closes the promise resolves
    and does not reject.  Any other value printed as the prediction is taken
    as it is: the prediction resolved with has its [is_fraud] and
    [fraud_score], [undefined] where the value has none.  When the process
    never closes the promise stays pending. *)
Theorem scoring_failure_falls_back :
  forall (JSON_parse : string -> Result JSValue)
         (ToNumber_text : JSValue -> option Q)
         (fraud_detector_py : TransactionData -> Process)
         (transactionData : TransactionData)
         (code : option Z) (output : string),
    fraud_detector_py transactionData = Closed code output ->
    code <> Some 0%Z \/ unparsable JSON_parse output ->
    runFraudDetection JSON_parse ToNumber_text fraud_detector_py transactionData
    = Settles (Resolved fallback) /\
    fd_is_fraud fallback = JNum 0 /\
    fd_fraud_score fallback = JNum (1 # 10) /\
    (forall (other : TransactionData) (code' : option Z) (output' : string),
        fraud_detector_py other = Closed code' output' ->
        exists detection,
          runFraudDetection JSON_parse ToNumber_text fraud_detector_py other
          = Settles (Resolved detection)) /\
    (forall (other : TransactionData) (output' line : string) (p : JSValue),
        fraud_detector_py other = Closed (Some 0%Z) output' ->
        predictionLine output' = Some line ->
        prediction JSON_parse line = Ok p ->
        p <> JNull -> p <> JUndefined ->
        exists detection,
          runFraudDetection JSON_parse ToNumber_text fraud_detector_py other
          = Settles (Resolved detection) /\
          fd_is_fraud detection = field "is_fraud" p /\
          fd_fraud_score detection = field "fraud_score" p) /\
    (forall other : TransactionData,
        fraud_detector_py other = Unclosed ->
        runFraudDetection JSON_parse ToNumber_text fraud_detector_py other
        = Pending).
Proof.
  intros JSON_parse ToNumber_text py td code output Hclosed H.
  split; [|split; [reflexivity|split; [reflexivity|split; [|split]]]].
  - unfold runFraudDetection. rewrite Hclosed. f_equal.
    destruct H as [H | H].
    + now apply on_close_nonzero.
    + now apply on_close_unparsable.
  - intros other code' output' Hother. unfold runFraudDetection. rewrite Hother.
    destruct (on_close_settles JSON_parse ToNumber_text code' output')
      as [detection E].
    exists detection. now rewrite E.
  - intros other output' line p Hother Hl Hp Hnull Hundef.
    unfold runFraudDetection. rewrite Hother.
    destruct (@on_close_reads JSON_parse ToNumber_text (Some 0%Z) output' line p
                eq_refl Hl Hp Hnull Hundef) as (detection & E & Hf & Hs).
    exists detection. rewrite E. now repeat split.
  - intros other Hother. unfold runFraudDetection. now rewrite Hother.
Qed.

Lemma scoring_failure_falls_back_witness :
  runFraudDetection sample_JSON_parse sample_ToNumber_text crashing_py
    (sample_transaction "TX9")
  = Settles (Resolved fallback).
Proof.
  apply (@scoring_failure_falls_back sample_JSON_parse sample_ToNumber_text
           crashing_py (sample_transaction "TX9") (Some 1%Z)
           "Traceback (most recent call last):").
  - reflexivity.
  - left. discriminate.
Defined.

(** C3, the claim as stated fails.  A process that exits with code 0 after
    printing an empty object as its prediction has printed nothing that can
    be read as a prediction, yet the promise resolves with the fields of that
    object, all [undefined], not with the fallback; and with a process that
    never closes the promise does not settle at all. *)
Lemma empty_prediction_is_passed_on :
  runFraudDetection sample_JSON_parse sample_ToNumber_text empty_py
    (sample_transaction "TX9")
  = Settles (Resolved {| fd_is_fraud := JUndefined;
                         fd_fraud_score := JUndefined;
                         fd_fraud_reason := "Legitimate transaction";
                         fd_confidence := JUndefined;
                         fd_xgb_probability := JUndefined;
                         fd_kmeans_anomaly := JUndefined |}) /\
  runFraudDetection sample_JSON_parse sample_ToNumber_text empty_py
    (sample_transaction "TX9")
  <> Settles (Resolved fallback) /\
  runFraudDetection sample_JSON_parse sample_ToNumber_text hanging_py
    (sample_transaction "TX9")
  = Pending.
Proof.
  split; [vm_compute; reflexivity|]. split; [vm_compute; discriminate|].
  reflexivity.
Qed.

(** A run of the scoring process that succeeds is read, not replaced by the
    fallback. *)
Example scoring_success_is_read :
  runFraudDetection sample_JSON_parse sample_ToNumber_text scoring_py
    (sample_transaction "TX9")
  = Settles (Resolved {| fd_is_fraud := JBool true;
                         fd_fraud_score := JNum (85 # 100);
                         fd_fraud_reason := "High ML probability, Unusual pattern";
                         fd_confidence := JNum (92 # 100);
                         fd_xgb_probability := JNum (9 # 10);
                         fd_kmeans_anomaly := JNum 0 |}).
Proof. vm_compute. reflexivity. Qed.

(** *** The batch routes *)

Section Batch.

Variable I : Type.
Variable item_id : I -> option string.
Variable step : I -> M World (ItemResult + ItemError).

Lemma for_each_outcomes (items : list I) :
  forall results errors w,
    for_each item_id step items results errors w
    = let (os, w') := outcomes item_id step items w in
      ((results ++ results_of os, errors ++ errors_of os)%list, w').
Proof.
  induction items as [|x rest IH]; intros results errors w; simpl.
  - now rewrite !app_nil_r.
  - unfold item_outcome.
    destruct (step x w) as [[[r|e]|message] w1]; rewrite IH;
      destruct (outcomes item_id step rest w1) as [os w2]; simpl;
      now rewrite <- ?app_assoc.
Qed.

Lemma outcomes_length (items : list I) :
  forall w, List.length (fst (outcomes item_id step items w)) = List.length items.
Proof.
  induction items as [|x rest IH]; intro w; simpl; [reflexivity|].
  destruct (item_outcome item_id step x w) as [o w1].
  specialize (IH w1). destruct (outcomes item_id step rest w1) as [os w2].
  simpl in *. now rewrite IH.
Qed.

Lemma results_errors_length (os : list (ItemResult + ItemError)) :
  (List.length (results_of os) + List.length (errors_of os) = List.length os)%nat.
Proof.
  induction os as [|[r|e] os IH]; simpl; lia.
Qed.

Hypothesis step_id :
  forall x w o w', step x w = (Ok o, w') -> outcome_id o = item_id x.

Lemma outcomes_ids (items : list I) :
  forall w, Forall2 (fun x o => outcome_id o = item_id x) items
                    (fst (outcomes item_id step items w)).
Proof.
  induction items as [|x rest IH]; intro w; simpl; [constructor|].
  unfold item_outcome. pose proof (@step_id x w) as Hid.
  destruct (step x w) as [[o|message] w1];
    specialize (IH w1); destruct (outcomes item_id step rest w1) as [os w2];
    simpl in *; constructor; try assumption.
  - now apply Hid with w1.
  - reflexivity.
Qed.

Lemma for_each_answer (title : string) (items : list I) (w : World) :
  batch_answer item_id step title items w
    (let '((results, errors), w') := for_each item_id step items [] [] w in
     (batch_response title results errors, w')).
Proof.
  unfold batch_answer. rewrite for_each_outcomes.
  pose proof (outcomes_length items w) as HL.
  pose proof (outcomes_ids items w) as HI.
  destruct (outcomes item_id step items w) as [os w']. simpl in *.
  repeat split; try assumption.
  rewrite <- HL. apply results_errors_length.
Qed.

End Batch.

Ltac run_item :=
  repeat match goal with
         | H : (_, _) = (_, _) |- _ => injection H as <- <-
         | H : context [match ?e with _ => _ end] |- _ =>
             destruct e eqn:?; simpl in H; try discriminate H
         end.

Lemma batch_record_item_id ledger (x : option string) (w : World)
  (o : ItemResult + ItemError) (w' : World) :
  batch_record_item ledger x w = (Ok o, w') -> outcome_id o = x.
Proof.
  unfold batch_record_item, bind, lift_db, getTransaction, submit, ret.
  destruct w as [d subs]. intro H. destruct x as [tid|]; simpl in H; run_item;
    reflexivity.
Qed.

Lemma alerts_batch_item_id ledger (x : AlertData) (w : World)
  (o : ItemResult + ItemError) (w' : World) :
  alerts_batch_item ledger x w = (Ok o, w') -> outcome_id o = ad_transaction_id x.
Proof.
  unfold alerts_batch_item, bind, lift_db, getTransaction, submit, ret.
  destruct w as [d subs]. intro H.
  destruct (ad_transaction_id x) as [tid|]; simpl in H; run_item; reflexivity.
Qed.

Lemma createTransaction_id (data : TransactionData) (d d' : Db) (id : nat)
  (tid : string) :
  createTransaction data d = (Ok (id, tid), d') -> td_transaction_id data = Some tid.
Proof.
  unfold createTransaction. intro H.
  destruct (td_transaction_id data), (td_user_id data), (td_amount data),
    (td_transaction_type data); try discriminate H.
  destruct (existsb_eq _ _); [discriminate H|]. now injection H as _ <- _.
Qed.

Lemma transactions_batch_item_entry JSON_parse ToNumber_text py column_text
  (x : TransactionData) (w : World) (o : ItemResult + ItemError) (w' : World) :
  transactions_batch_item JSON_parse ToNumber_text py column_text x w
  = (Some (Ok o), w') ->
  outcome_id o = td_transaction_id x.
Proof.
  unfold transactions_batch_item. destruct (negb _).
  { unfold immediate, ret. intro H. now injection H as <- _. }
  unfold wbind at 1. unfold immediate at 1. unfold lift_db at 1.
  destruct (getTransaction (td_transaction_id x) (db w)) as [[[t|]|e] d1] eqn:G;
    try discriminate.
  { unfold immediate, ret. intro H. now injection H as <- _. }
  unfold wbind at 1. unfold immediate at 1. unfold lift_db at 1.
  destruct (createTransaction x _) as [[[id tid]|e] d2] eqn:C; try discriminate.
  apply createTransaction_id in C.
  unfold wbind at 1.
  destruct (await_pending _ _) as [[[detection|e]|] w2]; try discriminate.
  unfold wbind, immediate, lift_db, ret. simpl.
  intro H. injection H as <- _. simpl. now rewrite C.
Qed.

Lemma transactions_batch_item_id JSON_parse ToNumber_text py column_text
  (x : TransactionData) (w : World) (o : ItemResult + ItemError) (w' : World) :
  when_returns (transactions_batch_item JSON_parse ToNumber_text py column_text x) w
  = (Ok o, w') ->
  outcome_id o = td_transaction_id x.
Proof.
  unfold when_returns.
  destruct (transactions_batch_item _ _ _ _ x w) as [[[o0|e]|] w0] eqn:E;
    intro H; try discriminate H.
  injection H as <- <-. exact (transactions_batch_item_entry _ _ _ _ _ _ E).
Qed.

(** A turn of POST /api/transactions/batch returns when the scoring process
    of its item closes. *)
Lemma transactions_batch_item_returns JSON_parse ToNumber_text py column_text
  (x : TransactionData) (w : World) :
  py x <> Unclosed ->
  fst (transactions_batch_item JSON_parse ToNumber_text py column_text x w) <> None.
Proof.
  intro Hclosed. unfold transactions_batch_item. destruct (negb _).
  { unfold immediate, ret. discriminate. }
  unfold wbind at 1. unfold immediate at 1. unfold lift_db at 1.
  destruct (getTransaction (td_transaction_id x) (db w)) as [[[t|]|e] d1];
    try (cbn; discriminate).
  unfold wbind at 1. unfold immediate at 1. unfold lift_db at 1.
  destruct (createTransaction x _) as [[[id tid]|e] d2]; try (cbn; discriminate).
  unfold wbind at 1. unfold runFraudDetection.
  destruct (py x) as [code output|]; [|contradiction].
  unfold await_pending, immediate, await.
  destruct (on_close _ _ code output) as [detection|e]; cbn; discriminate.
Qed.

Section ObjectBatch.

Variable I : Type.
Variable item_id : I -> option string.
Variable body : I -> W World (ItemResult + ItemError).

(** Over an array without [null], and as long as every turn returns, the loop
    over objects is the plain loop. *)
Lemma for_each_object_returns (items : list I) :
  (forall x, In x items -> forall w, fst (body x w) <> None) ->
  forall results errors w,
    for_each_object item_id body (map Some items) results errors w
    = (Some (Ok (fst (for_each item_id (fun x => when_returns (body x)) items
                        results errors w))),
       snd (for_each item_id (fun x => when_returns (body x)) items
              results errors w)).
Proof.
  induction items as [|x rest IH]; intros Hret results errors w; [reflexivity|].
  cbn [map for_each_object for_each].
  pose proof (Hret x (or_introl eq_refl) w) as Hx.
  assert (Hrest : forall y, In y rest -> forall w0, fst (body y w0) <> None)
    by (intros y Hy; apply Hret; now right).
  destruct (body x w) as [[o|] w1] eqn:B; cbn [fst] in Hx; [|contradiction].
  assert (E : when_returns (body x) w = (o, w1))
    by (unfold when_returns; now rewrite B).
  rewrite E. destruct o as [[r|e]|message]; now apply IH.
Qed.

(** A [null] item ends the loop with the TypeError, after the items before
    it have had their turns. *)
Lemma for_each_object_null (before : list I) (rest : list (option I)) :
  (forall x, In x before -> forall w, fst (body x w) <> None) ->
  forall results errors w,
    for_each_object item_id body (map Some before ++ None :: rest)%list
      results errors w
    = (Some (Throw null_item),
       snd (for_each item_id (fun x => when_returns (body x)) before
              results errors w)).
Proof.
  induction before as [|x before IH]; intros Hret results errors w; [reflexivity|].
  cbn [map app for_each_object for_each].
  pose proof (Hret x (or_introl eq_refl) w) as Hx.
  assert (Hrest : forall y, In y before -> forall w0, fst (body y w0) <> None)
    by (intros y Hy; apply Hret; now right).
  destruct (body x w) as [[o|] w1] eqn:B; cbn [fst] in Hx; [|contradiction].
  assert (E : when_returns (body x) w = (o, w1))
    by (unfold when_returns; now rewrite B).
  rewrite E. destruct o as [[r|e]|message]; now apply IH.
Qed.

End ObjectBatch.

Lemma post_alerts_batch_plain ledger (alerts : list AlertData) (w : World) :
  post_alerts_batch ledger (Some (map Some alerts)) w
  = (let '((results, errors), w') :=
       for_each ad_transaction_id (alerts_batch_item ledger) alerts [] [] w in
     (Some (batch_response "Batch processing completed: " results errors), w')).
Proof.
  unfold post_alerts_batch, respond_pending, wbind.
  rewrite for_each_object_returns.
  2:{ intros x _ w0. unfold immediate.
      destruct (alerts_batch_item ledger x w0). discriminate. }
  replace (for_each ad_transaction_id
             (fun x => when_returns (immediate (alerts_batch_item ledger x)))
             alerts [] [] w)
    with (for_each ad_transaction_id (alerts_batch_item ledger) alerts [] [] w).
  - destruct (for_each _ _ alerts [] [] w) as [[results errors] w']. reflexivity.
  - generalize (@nil ItemResult) (@nil ItemError) w.
    induction alerts as [|x rest IH]; intros results errors w0; [reflexivity|].
    cbn [for_each].
    assert (E : when_returns (immediate (alerts_batch_item ledger x)) w0
                = alerts_batch_item ledger x w0).
    { unfold when_returns, immediate.
      now destruct (alerts_batch_item ledger x w0). }
    rewrite E.
    destruct (alerts_batch_item ledger x w0) as [[[r|e]|message] w1]; apply IH.
Qed.

Lemma post_transactions_batch_plain JSON_parse ToNumber_text py column_text
  (transactions : list TransactionData) (w : World) :
  (forall td, In td transactions -> py td <> Unclosed) ->
  post_transactions_batch JSON_parse ToNumber_text py column_text
    (Some (map Some transactions)) w
  = (let '((results, errors), w') :=
       for_each td_transaction_id
         (fun td => when_returns
                      (transactions_batch_item JSON_parse ToNumber_text py
                         column_text td))
         transactions [] [] w in
     (Some (batch_response "Batch processing completed: " results errors), w')).
Proof.
  intro Hclosed. unfold post_transactions_batch, respond_pending, wbind.
  rewrite for_each_object_returns.
  2:{ intros x Hx w0. apply transactions_batch_item_returns. now apply Hclosed. }
  destruct (for_each _ _ transactions [] [] w) as [[results errors] w']. reflexivity.
Qed.

(** C10.  Each batch route processes the items of an array one by one:
    POST /api/blockchain/batch-record for every array, POST
    /api/fraud/alerts/batch for every array of alert objects, and POST
    /api/transactions/batch for every array of transaction objects whose
    scoring processes close.  The answer is 201, with one entry per item, in
    order: the entry is the result or the error that item's own turn produces
    from the state the previous item left, a thrown error becoming an error
    entry with the item's identifier and the error's message, after which the
    loop goes on with the next item.  The answer carries the number of
    successes as [processed], the result and error entries, and both counts
    in its message; successes and errors add up to the number of items, and
    every entry reports its item's identifier.  An identifier that names no
    stored transaction comes to the error entry ['Transaction not found'] and
    changes nothing; an error thrown by the ledger integration comes to an
    error entry with its message and leaves the database as it was. *)
Theorem batch_items_are_independent :
  forall (JSON_parse : string -> Result JSValue)
         (ToNumber_text : JSValue -> option Q)
         (fraud_detector_py : TransactionData -> Process)
         (column_text : JSValue -> JSValue)
         (ledger : World -> TransactionRow -> FraudPrediction -> Result RecordData)
         (w : World),
    (forall ids : list (option string),
        batch_answer (fun i => i) (batch_record_item ledger)
          "Batch recording completed: " ids w
          (post_batch_record ledger (Some ids) w)) /\
    (forall alerts : list AlertData,
        exists answer w',
          post_alerts_batch ledger (Some (map Some alerts)) w = (Some answer, w') /\
          batch_answer ad_transaction_id (alerts_batch_item ledger)
            "Batch processing completed: " alerts w (answer, w')) /\
    (forall transactions : list TransactionData,
        (forall td, In td transactions -> fraud_detector_py td <> Unclosed) ->
        exists answer w',
          post_transactions_batch JSON_parse ToNumber_text fraud_detector_py
            column_text (Some (map Some transactions)) w
          = (Some answer, w') /\
          batch_answer td_transaction_id
            (fun td => when_returns
                         (transactions_batch_item JSON_parse ToNumber_text
                            fraud_detector_py column_text td))
            "Batch processing completed: " transactions w (answer, w')) /\
    (forall id : option string,
        stored_transaction id w = None ->
        item_outcome (fun i => i) (batch_record_item ledger) id w
        = (inr {| ie_transaction_id := id; ie_error := "Transaction not found" |},
           w)) /\
    (forall alert : AlertData,
        stored_transaction (ad_transaction_id alert) w = None ->
        item_outcome ad_transaction_id (alerts_batch_item ledger) alert w
        = (inr {| ie_transaction_id := ad_transaction_id alert;
                  ie_error := "Transaction not found" |}, w)) /\
    (forall (id : option string) (t : TransactionRow) (e : string),
        stored_transaction id w = Some t ->
        ledger w t (stored_prediction t) = Throw e ->
        item_outcome (fun i => i) (batch_record_item ledger) id w
        = (inr {| ie_transaction_id := id; ie_error := e |},
           logged w t (stored_prediction t) (db w))).
Proof.
  intros JSON_parse ToNumber_text py column_text ledger w.
  split; [|split; [|split; [|split; [|split]]]].
  4:{ intros id Hnone. destruct w as [d subs].
      unfold item_outcome, batch_record_item, bind, lift_db, getTransaction, ret.
      destruct id as [tid|]; cbn [stored_transaction db] in Hnone |- *;
        [rewrite Hnone|]; reflexivity. }
  4:{ intros alert Hnone. destruct w as [d subs].
      unfold item_outcome, alerts_batch_item, bind, lift_db, getTransaction, ret.
      destruct (ad_transaction_id alert) as [tid|];
        cbn [stored_transaction db] in Hnone |- *; [rewrite Hnone|]; reflexivity. }
  4:{ intros id t e Hsome Hthrow. destruct w as [d subs].
      unfold item_outcome, batch_record_item, bind, lift_db, getTransaction, submit,
        ret, logged.
      destruct id as [tid|]; cbn [stored_transaction db] in Hsome;
        [|discriminate Hsome].
      cbn [db submissions]. rewrite Hsome. cbn [db submissions]. rewrite Hthrow.
      reflexivity. }
  - intro ids. unfold post_batch_record.
    apply for_each_answer. apply batch_record_item_id.
  - intro alerts. rewrite post_alerts_batch_plain.
    pose proof (@for_each_answer _ ad_transaction_id (alerts_batch_item ledger)
                  (alerts_batch_item_id ledger)
                  "Batch processing completed: " alerts w) as A.
    destruct (for_each _ _ alerts [] [] w) as [[results errors] w'].
    eexists; eexists. split; [reflexivity | exact A].
  - intros transactions Hclosed. rewrite post_transactions_batch_plain by exact Hclosed.
    pose proof (@for_each_answer _ td_transaction_id
                  (fun td => when_returns
                               (transactions_batch_item JSON_parse ToNumber_text py
                                  column_text td))
                  (transactions_batch_item_id JSON_parse ToNumber_text py column_text)
                  "Batch processing completed: " transactions w) as A.
    destruct (for_each _ _ transactions [] [] w) as [[results errors] w'].
    eexists; eexists. split; [reflexivity | exact A].
Qed.

Lemma batch_items_are_independent_witness :
  exists answer w',
    post_transactions_batch sample_JSON_parse sample_ToNumber_text crashing_py
      sample_column_text
      (Some [Some (sample_transaction "TX9"); Some (sample_transaction "TX1");
             Some (sample_transaction "TX8")]) sample_world
    = (Some answer, w') /\
    batch_processed answer = Some 2%nat /\
    map ie_transaction_id (batch_errors answer) = [Some "TX1"].
Proof.
  destruct (proj1 (proj2 (proj2 (@batch_items_are_independent sample_JSON_parse
                                   sample_ToNumber_text crashing_py
                                   sample_column_text fresh_hash_ledger
                                   sample_world)))
              [sample_transaction "TX9"; sample_transaction "TX1";
               sample_transaction "TX8"])
    as (answer & w' & E & _).
  - intros td _. discriminate.
  - exists answer, w'. split; [exact E|].
    cbn [map] in E. vm_compute in E. injection E as <- _. split; reflexivity.
Defined.

(** C10, the claim as stated fails.  In a batch of two new transactions
    where the scoring process of the first never ends, the turn of the first
    item never returns: the request is never answered, no entry is reported
    for either item, and the second item is never processed, while the first
    stays stored with the fraud columns of its insert.  And in a batch of
    alerts whose second item is [null], the answer is 500 with no entry for
    any item, and the alert for TX2, which comes after the [null], is never
    stored. *)
Lemma batch_stops_before_its_end :
  let out := post_transactions_batch sample_JSON_parse sample_ToNumber_text
               (hanging_for "TXA") sample_column_text
               (Some [Some (sample_transaction "TXA");
                      Some (sample_transaction "TXB")]) sample_world in
  let out' := post_alerts_batch fresh_hash_ledger
                (Some [Some (sample_alert "TX1"); None; Some (sample_alert "TX2")])
                sample_world in
  fst out = None /\
  map tx_transaction_id (transactions (db (snd out))) = ["TX1"; "TX2"; "TXA"] /\
  hanging_for "TXA" (sample_transaction "TXB") <> Unclosed /\
  fst out' = Some {| status := 500;
                     body := ErrorBody "Failed to process batch fraud alerts" None
                               (Some null_item) |} /\
  map fa_transaction_id (fraud_alerts (db (snd out'))) = ["TX1"].
Proof. vm_compute. repeat split. discriminate. Qed.

(** A batch in which the ledger fails for TX1 and NOPE is not a stored
    transaction: both failures are reported per item, and TX2, which comes
    last, is still recorded. *)
Example failures_do_not_stop_the_batch :
  let out := post_batch_record flaky_ledger
               (Some [Some "TX1"; Some "NOPE"; Some "TX2"]) sample_world in
  fst out
  = {| status := 201;
       body := BatchBody 1
                 [RecordedItem (Some "TX2")
                    {| rd_transaction_id := Some "TX2";
                       rd_cardano_tx_hash := Some "0x1";
                       rd_nft_id := None;
                       rd_metadata := None;
                       rd_block_height := None;
                       rd_confirmation_status := Some "pending" |}]
                 [{| ie_transaction_id := Some "TX1"; ie_error := "LedgerUnavailable" |};
                  {| ie_transaction_id := Some "NOPE";
                     ie_error := "Transaction not found" |}]
                 "Batch recording completed: 1 successful, 2 errors" |} /\
  map br_transaction_id (blockchain_records (db (snd out))) = ["TX2"].
Proof. vm_compute. split; reflexivity. Qed.

(** *** Further properties of the stored state *)

Lemma all_pending_frame (d d' : Db) :
  blockchain_records d' = blockchain_records d -> all_pending d -> all_pending d'.
Proof. unfold all_pending. now intros ->. Qed.

Lemma all_pending_insert (recordData : RecordData) (d : Db) :
  all_pending d -> all_pending (snd (createBlockchainRecord recordData d)).
Proof.
  intro H.
  destruct (createBlockchainRecord_inserted recordData d) as [tid hash Et Eh Hn row| | |];
    simpl; try assumption.
  unfold all_pending. simpl. apply Forall_app. split; [assumption|].
  constructor; [reflexivity | constructor].
Qed.

(** X1.  No modelled route and no step of the seeding script moves a ledger
    record out of ['pending']: in every database reached by seeding and then
    serving requests, every stored record is ['pending']. *)
Theorem records_stay_pending :
  forall (JSON_parse : string -> Result JSValue)
         (ToNumber_text : JSValue -> option Q)
         (fraud_detector_py : TransactionData -> Process)
         (column_text : JSValue -> JSValue)
         (ledger : World -> TransactionRow -> FraudPrediction -> Result RecordData)
         (transactions : list (DemoTransaction * Draws))
         (requests : list Request),
    all_pending
      (db (serve JSON_parse ToNumber_text fraud_detector_py column_text ledger
             requests
             {| db := seedDatabase column_text transactions empty_db;
                submissions := [] |})).
Proof.
  intros.
  apply (@serve_keeps all_pending all_pending_frame all_pending_insert). simpl.
  apply (@seedDatabase_keeps all_pending all_pending_frame all_pending_insert).
  constructor.
Qed.

Lemma find_none_existsb (tid : string) (rows : list TransactionRow) :
  find (fun r => tx_transaction_id r =? tid) rows = None ->
  existsb_eq tid (map tx_transaction_id rows) = false.
Proof.
  induction rows as [|r rows IH]; simpl; [reflexivity|].
  rewrite (String.eqb_sym tid).
  destruct (tx_transaction_id r =? tid); [discriminate|]. exact IH.
Qed.

(** X2.  A new transaction with its required fields is ingested by
    POST /api/transactions/batch whatever its scoring process prints or exits
    with, provided the process closes: its turn ends in a success entry, its
    row is stored, and the row carries the prediction [runFraudDetection]
    resolved with, as SQLite stores it ([is_fraud] and [fraud_score] as 1 or
    0 for a boolean and NULL for [undefined]); the prediction is the fallback
    when the process exits with a code other than 0.  When the process never
    closes, the turn never returns, and the row stays stored with the fraud
    columns of its insert. *)
Theorem ingestion_survives_scoring :
  forall (JSON_parse : string -> Result JSValue)
         (ToNumber_text : JSValue -> option Q)
         (fraud_detector_py : TransactionData -> Process)
         (column_text : JSValue -> JSValue)
         (data : TransactionData) (w : World) (tid : string),
    td_transaction_id data = Some tid ->
    missingFields data = [] ->
    find (fun r => tx_transaction_id r =? tid) (transactions (db w)) = None ->
    match fraud_detector_py data with
    | Closed code output =>
        exists detection row w',
          runFraudDetection JSON_parse ToNumber_text fraud_detector_py data
          = Settles (Resolved detection) /\
          (code <> Some 0%Z -> detection = fallback) /\
          transactions_batch_item JSON_parse ToNumber_text fraud_detector_py
            column_text data w
          = (Some (Ok (inl (ScoredItem tid detection))), w') /\
          In row (transactions (db w')) /\
          tx_transaction_id row = tid /\
          tx_is_fraud row = column_value column_text (fd_is_fraud detection) /\
          tx_fraud_score row = column_value column_text (fd_fraud_score detection) /\
          tx_fraud_reason row = Some (fd_fraud_reason detection)
    | Unclosed =>
        exists row w',
          transactions_batch_item JSON_parse ToNumber_text fraud_detector_py
            column_text data w
          = (None, w') /\
          In row (transactions (db w')) /\
          tx_transaction_id row = tid /\
          tx_is_fraud row = JNum 0 /\
          tx_fraud_score row = JNum 0 /\
          tx_fraud_reason row = None
    end.
Proof.
  intros JSON_parse ToNumber_text py column_text data w tid Et Hm Hfind.
  assert (Hreq : exists uid amt ty,
             td_user_id data = Some uid /\ td_amount data = Some amt /\
             td_transaction_type data = Some ty).
  { unfold missingFields in Hm. rewrite Et in Hm.
    destruct (td_user_id data) as [uid|], (td_amount data) as [amt|],
      (td_transaction_type data) as [ty|]; simpl in Hm;
      repeat match type of Hm with
             | context [if ?b then _ else _] => destruct b; simpl in Hm
             end; try discriminate Hm.
    all: now exists uid, amt, ty. }
  destruct Hreq as (uid & amt & ty & Eu & Ea & Ety).
  destruct w as [d subs]. simpl in Hfind.
  unfold transactions_batch_item. rewrite Hm. simpl.
  unfold wbind, immediate, lift_db, getTransaction, createTransaction,
    updateTransactionFraud, ret.
  rewrite Et, Eu, Ea, Ety. simpl. rewrite Hfind.
  cbn [db submissions].
  rewrite (find_none_existsb _ _ Hfind).
  unfold runFraudDetection.
  destruct (py data) as [code output|].
  - destruct (on_close_settles JSON_parse ToNumber_text code output)
      as [detection R].
    exists detection.
    assert (Hfb : code <> Some 0%Z -> detection = fallback).
    { intro Hc. rewrite (on_close_nonzero JSON_parse ToNumber_text output Hc) in R.
      now injection R as <-. }
    rewrite R. simpl.
    eexists. eexists. split; [reflexivity|]. split; [exact Hfb|].
    split; [reflexivity|]. simpl. split.
    + rewrite map_app. apply in_or_app. right. simpl. left. reflexivity.
    + rewrite String.eqb_refl. repeat split.
  - simpl. eexists. eexists. split; [reflexivity|]. simpl. split.
    + apply in_or_app. right. left. reflexivity.
    + repeat split.
Qed.

Lemma ingestion_survives_scoring_witness :
  exists detection row w',
    runFraudDetection sample_JSON_parse sample_ToNumber_text scoring_py
      (sample_transaction "TX9")
    = Settles (Resolved detection) /\
    transactions_batch_item sample_JSON_parse sample_ToNumber_text scoring_py
      sample_column_text (sample_transaction "TX9") sample_world
    = (Some (Ok (inl (ScoredItem "TX9" detection))), w') /\
    In row (transactions (db w')) /\
    tx_transaction_id row = "TX9" /\
    fd_is_fraud detection = JBool true /\
    tx_is_fraud row = JNum 1.
Proof.
  destruct (@ingestion_survives_scoring sample_JSON_parse sample_ToNumber_text
              scoring_py sample_column_text (sample_transaction "TX9") sample_world
              "TX9" eq_refl eq_refl eq_refl)
    as (detection & row & w' & R & _ & E & Hin & Hid & Hf & _).
  exists detection, row, w'.
  assert (Hd : fd_is_fraud detection = JBool true).
  { vm_compute in R. now injection R as <-. }
  repeat (split; [assumption|]).
  rewrite Hf, Hd. reflexivity.
Defined.

(* ================================================================== *)
(** * Further properties: the remaining routes, the seeding script and the
      invariants of the whole server *)

(** *** Properties kept by every database helper are kept by every route *)

Section AnyInvariant.

Variable P : Db -> Prop.
Hypothesis P_createTransaction :
  forall data d, P d -> P (snd (createTransaction data d)).
Hypothesis P_updateTransactionFraud :
  forall column_text tid f s r d,
    P d -> P (snd (updateTransactionFraud column_text tid f s r d)).
Hypothesis P_createFraudAlert :
  forall a d, P d -> P (snd (createFraudAlert a d)).
Hypothesis P_updateFraudAlertWithBlockchain :
  forall id r d, P d -> P (snd (updateFraudAlertWithBlockchain id r d)).
Hypothesis P_createBlockchainRecord :
  forall r d, P d -> P (snd (createBlockchainRecord r d)).

Variable JSON_parse : string -> Result JSValue.
Variable ToNumber_text : JSValue -> option Q.
Variable fraud_detector_py : TransactionData -> Process.
Variable column_text : JSValue -> JSValue.
Variable ledger : World -> TransactionRow -> FraudPrediction -> Result RecordData.
Variable retrain_py : bool -> option Z * string * string.

Lemma kept_createTransaction data : keeps P (lift_db (createTransaction data)).
Proof. apply keeps_lift_db. intros d H. now apply P_createTransaction. Qed.

Lemma kept_updateTransactionFraud tid f s r :
  keeps P (lift_db (updateTransactionFraud column_text tid f s r)).
Proof. apply keeps_lift_db. intros d H. now apply P_updateTransactionFraud. Qed.

Lemma kept_createFraudAlert a : keeps P (lift_db (createFraudAlert a)).
Proof. apply keeps_lift_db. intros d H. now apply P_createFraudAlert. Qed.

Lemma kept_updateFraudAlertWithBlockchain id r :
  keeps P (lift_db (updateFraudAlertWithBlockchain id r)).
Proof. apply keeps_lift_db. intros d H. now apply P_updateFraudAlertWithBlockchain. Qed.

Lemma kept_createBlockchainRecord r : keeps P (lift_db (createBlockchainRecord r)).
Proof. apply keeps_lift_db. intros d H. now apply P_createBlockchainRecord. Qed.

Lemma kept_getBlockchainRecordByTransactionId tid :
  keeps P (lift_db (getBlockchainRecordByTransactionId tid)).
Proof. apply keeps_lift_db. intros d H. exact H. Qed.

Create HintDb kept.

#[local] Hint Resolve keeps_ret keeps_throw keeps_await keeps_getTransaction
  keeps_submit kept_createTransaction kept_updateTransactionFraud
  kept_createFraudAlert kept_updateFraudAlertWithBlockchain
  kept_createBlockchainRecord kept_getBlockchainRecordByTransactionId
  keeps_immediate keeps_await_pending : kept.

Ltac kept_step :=
  first [ apply keeps_bind; [ | intro ]
        | apply keeps_wbind; [ | intro ]
        | progress auto with kept ].

Lemma kept_reply failure (m : M World Answer) :
  keeps P m -> forall w, P (db w) -> P (db (snd (reply failure m w))).
Proof.
  intros Hm w H. unfold reply. specialize (Hm w H).
  now destruct (m w) as [[r|e] w'].
Qed.

Lemma kept_reply_pending failure (m : W World Answer) :
  keeps P m -> forall w, P (db w) -> P (db (snd (reply_pending failure m w))).
Proof.
  intros Hm w H. unfold reply_pending. specialize (Hm w H).
  now destruct (m w) as [[[r|e]|] w'].
Qed.

Lemma kept_batch_record_item id : keeps P (batch_record_item ledger id).
Proof.
  unfold batch_record_item. apply keeps_bind; [auto with kept|].
  intros [t|]; repeat kept_step.
Qed.

Lemma kept_alerts_batch_item a : keeps P (alerts_batch_item ledger a).
Proof.
  unfold alerts_batch_item. apply keeps_bind; [auto with kept|].
  intros [t|]; repeat kept_step.
Qed.

Lemma kept_transactions_batch_item data :
  keeps P (transactions_batch_item JSON_parse ToNumber_text fraud_detector_py
             column_text data).
Proof.
  unfold transactions_batch_item.
  destruct (negb _); [auto with kept|].
  apply keeps_wbind; [auto with kept|].
  intros [t|]; repeat kept_step.
Qed.

Lemma kept_handle (r : Request) (w : World) :
  P (db w) ->
  P (db (snd (handle JSON_parse ToNumber_text fraud_detector_py column_text
                ledger r w))).
Proof.
  intro H. destruct r as [id|ids|req|alerts|txs]; simpl.
  - apply keeps_answered; [|exact H]. intros w0 H0.
    unfold post_record. apply keeps_respond; [|exact H0].
    destruct (negb _); [auto with kept|].
    apply keeps_bind; [auto with kept|].
    intros [t|]; repeat kept_step.
  - apply keeps_answered; [|exact H]. intros w0 H0.
    unfold post_batch_record. destruct ids as [ids|]; [|exact H0].
    pose proof (@keeps_for_each P _ (fun i => i) (batch_record_item ledger)
                  kept_batch_record_item ids [] [] w0 H0) as K.
    destruct (for_each _ _ ids [] [] w0) as [[results errors] w']. exact K.
  - apply keeps_answered; [|exact H]. intros w0 H0.
    unfold post_alert. apply keeps_respond; [|exact H0].
    destruct (_ || _); [auto with kept|].
    apply keeps_bind; [auto with kept|].
    intros [t|]; repeat kept_step.
  - unfold post_alerts_batch. apply keeps_respond_pending; [|exact H].
    destruct alerts as [items|]; [|auto with kept].
    apply keeps_wbind; [|intro; auto with kept].
    apply keeps_for_each_object. intro a.
    apply keeps_immediate, kept_alerts_batch_item.
  - unfold post_transactions_batch. apply keeps_respond_pending; [|exact H].
    destruct txs as [items|]; [|auto with kept].
    apply keeps_wbind; [|intro; auto with kept].
    apply keeps_for_each_object, kept_transactions_batch_item.
Qed.

Lemma kept_after (c : Call) (w : World) :
  P (db w) ->
  P (db (after JSON_parse ToNumber_text fraud_detector_py column_text ledger
            retrain_py c w)).
Proof.
  intro H. destruct c as [r|data|tid|tid u|tid|force]; simpl.
  - now apply kept_handle.
  - unfold post_transaction. apply kept_reply_pending; [|exact H].
    destruct (first_missing data); [auto with kept|].
    apply keeps_wbind; [auto with kept|].
    intros [t|]; repeat kept_step.
  - unfold get_transaction. apply kept_reply; [|exact H].
    apply keeps_bind; [auto with kept|].
    intros [t|]; auto with kept.
  - unfold put_transaction. apply kept_reply; [|exact H].
    apply keeps_bind; [auto with kept|].
    intros [t|]; [|auto with kept].
    destruct (Nat.eqb _ _); repeat kept_step.
  - unfold get_record. apply kept_reply; [|exact H].
    apply keeps_bind; [auto with kept|].
    intros [r|]; auto with kept.
  - unfold post_retrain. apply kept_reply; [|exact H].
    apply keeps_bind; [auto with kept|]. intro; auto with kept.
Qed.

Lemma kept_run (cs : list Call) (w : World) :
  P (db w) ->
  P (db (run JSON_parse ToNumber_text fraud_detector_py column_text ledger
            retrain_py cs w)).
Proof.
  unfold run. revert w.
  induction cs as [|c rest IH]; intros w H; simpl; [exact H|].
  apply IH. now apply kept_after.
Qed.

Lemma kept_seedDatabase (transactions : list (DemoTransaction * Draws)) (d : Db) :
  P d -> P (seedDatabase column_text transactions d).
Proof.
  intro H. unfold seedDatabase.
  apply seed_each_keeps; [exact P_createBlockchainRecord|].
  apply seed_each_keeps; [exact P_createFraudAlert|].
  apply seed_each_keeps.
  { intros [t dr] d' H'. unfold simulate_detection. now apply P_updateTransactionFraud. }
  apply seed_each_keeps; [|exact H].
  intros t d' H'. now apply P_createTransaction.
Qed.

End AnyInvariant.

(** *** Keys stay unique *)

Lemma next_id_fresh (ids : list nat) : ~ In (next_id ids) ids.
Proof.
  unfold next_id. intro Hin.
  assert (Forall (fun k => k <= list_max ids)%nat ids) as HF
      by (apply list_max_le; apply Nat.le_refl).
  rewrite Forall_forall in HF. specialize (HF _ Hin). lia.
Qed.

Lemma createTransaction_cases (data : TransactionData) (d : Db) :
  (exists e, createTransaction data d = (Throw e, d)) \/
  (exists tid row,
      td_transaction_id data = Some tid /\
      ~ In tid (map tx_transaction_id (transactions d)) /\
      tx_id row = next_id (map tx_id (transactions d)) /\
      tx_transaction_id row = tid /\
      createTransaction data d
      = (Ok (tx_id row, tid),
         {| transactions := (transactions d ++ [row])%list;
            fraud_alerts := fraud_alerts d;
            blockchain_records := blockchain_records d |})).
Proof.
  unfold createTransaction.
  destruct (td_transaction_id data) as [tid|], (td_user_id data) as [uid|],
    (td_amount data) as [amt|], (td_transaction_type data) as [ty|];
    try (left; eexists; reflexivity).
  destruct (existsb_eq tid (map tx_transaction_id (transactions d))) eqn:E.
  - left. eexists. reflexivity.
  - right.
    exists tid,
      {| tx_id := next_id (map tx_id (transactions d));
         tx_transaction_id := tid;
         tx_user_id := uid;
         tx_amount := amt;
         tx_currency := td_currency data;
         tx_merchant_name := td_merchant_name data;
         tx_merchant_category := td_merchant_category data;
         tx_transaction_type := ty;
         tx_location_lat := td_location_lat data;
         tx_location_lng := td_location_lng data;
         tx_device_id := td_device_id data;
         tx_ip_address := td_ip_address data;
         tx_is_fraud := JNum 0;
         tx_fraud_score := JNum 0;
         tx_fraud_reason := None |}.
    split; [reflexivity|].
    split; [now apply existsb_eq_not_In|]. repeat split.
Qed.

Lemma createFraudAlert_cases (a : AlertData) (d : Db) :
  (exists e, createFraudAlert a d = (Throw e, d)) \/
  (exists row,
      fa_id row = next_id (map fa_id (fraud_alerts d)) /\
      Some (fa_transaction_id row) = ad_transaction_id a /\
      Some (fa_severity row) = ad_severity a /\
      fa_cardano_tx_hash row = ad_cardano_tx_hash a /\
      fa_status row = "active" /\
      createFraudAlert a d
      = (Ok (fa_id row),
         {| transactions := transactions d;
            fraud_alerts := (fraud_alerts d ++ [row])%list;
            blockchain_records := blockchain_records d |})).
Proof.
  unfold createFraudAlert.
  destruct (ad_transaction_id a) as [tid|], (ad_alert_type a) as [ty|],
    (ad_severity a) as [sev|], (ad_confidence_score a) as [conf|],
    (ad_ml_model_used a) as [model|];
    try (left; eexists; reflexivity).
  right.
  exists {| fa_id := next_id (map fa_id (fraud_alerts d));
            fa_transaction_id := tid;
            fa_alert_type := ty;
            fa_severity := sev;
            fa_confidence_score := conf;
            fa_ml_model_used := model;
            fa_features := ad_features a;
            fa_cardano_tx_hash := ad_cardano_tx_hash a;
            fa_cardano_nft_id := ad_cardano_nft_id a;
            fa_status := "active" |}.
  repeat split.
Qed.

Lemma map_update_same {A B} (key : A -> B) (f : A -> A) (hit : A -> bool) (l : list A) :
  (forall r, key (f r) = key r) ->
  map key (map (fun r => if hit r then f r else r) l) = map key l.
Proof.
  intro Hf. rewrite map_map. apply map_ext. intro r. now destruct (hit r).
Qed.

Lemma unique_keys_createTransaction data d :
  unique_keys d -> unique_keys (snd (createTransaction data d)).
Proof.
  intros (H1 & H2 & H3 & H4).
  destruct (createTransaction_cases data d)
    as [[e ->] | (tid & row & Et & Hn & Hid & Htid & ->)]; [repeat split; assumption|].
  unfold unique_keys. simpl. rewrite !map_app. simpl.
  repeat split; try assumption.
  - apply NoDup_snoc; [assumption | now rewrite Htid].
  - apply NoDup_snoc; [assumption | rewrite Hid; apply next_id_fresh].
Qed.

Lemma unique_keys_updateTransactionFraud column_text tid f s r d :
  unique_keys d -> unique_keys (snd (updateTransactionFraud column_text tid f s r d)).
Proof.
  intros (H1 & H2 & H3 & H4). unfold unique_keys, updateTransactionFraud. simpl.
  rewrite !map_update_same by reflexivity. repeat split; assumption.
Qed.

Lemma unique_keys_createFraudAlert a d :
  unique_keys d -> unique_keys (snd (createFraudAlert a d)).
Proof.
  intros (H1 & H2 & H3 & H4).
  destruct (createFraudAlert_cases a d)
    as [[e ->] | (row & Hid & _ & _ & _ & _ & ->)]; [repeat split; assumption|].
  unfold unique_keys. simpl. rewrite map_app. simpl.
  repeat split; try assumption.
  apply NoDup_snoc; [assumption | rewrite Hid; apply next_id_fresh].
Qed.

Lemma unique_keys_updateFraudAlertWithBlockchain id r d :
  unique_keys d -> unique_keys (snd (updateFraudAlertWithBlockchain id r d)).
Proof.
  intros (H1 & H2 & H3 & H4). unfold unique_keys, updateFraudAlertWithBlockchain. simpl.
  rewrite map_update_same by reflexivity. repeat split; assumption.
Qed.

Lemma unique_keys_createBlockchainRecord r d :
  unique_keys d -> unique_keys (snd (createBlockchainRecord r d)).
Proof.
  intros (H1 & H2 & H3 & H4).
  destruct (createBlockchainRecord_inserted r d) as [tid hash Et Eh Hn row| | |];
    try (repeat split; assumption).
  unfold unique_keys. simpl. rewrite map_app. simpl.
  repeat split; try assumption.
  apply NoDup_snoc; [assumption | apply next_id_fresh].
Qed.

(** X3.  In every database reached by seeding and then serving any sequence
    of requests, no two transactions share a [transaction_id], and no two
    rows of a table share an [id]. *)
Theorem keys_stay_unique :
  forall (JSON_parse : string -> Result JSValue)
         (ToNumber_text : JSValue -> option Q)
         (fraud_detector_py : TransactionData -> Process)
         (column_text : JSValue -> JSValue)
         (ledger : World -> TransactionRow -> FraudPrediction -> Result RecordData)
         (retrain_py : bool -> option Z * string * string)
         (transactions : list (DemoTransaction * Draws))
         (calls : list Call),
    unique_keys
      (db (run JSON_parse ToNumber_text fraud_detector_py column_text ledger
             retrain_py calls
             {| db := seedDatabase column_text transactions empty_db;
                submissions := [] |})).
Proof.
  intros.
  apply (@kept_run unique_keys unique_keys_createTransaction
           unique_keys_updateTransactionFraud unique_keys_createFraudAlert
           unique_keys_updateFraudAlertWithBlockchain unique_keys_createBlockchainRecord).
  simpl.
  apply (@kept_seedDatabase unique_keys unique_keys_createTransaction
           unique_keys_updateTransactionFraud unique_keys_createFraudAlert
           unique_keys_createBlockchainRecord).
  repeat split; constructor.
Qed.

(** *** Nothing is deleted or rewritten *)

Lemma extends_refl (d : Db) : extends d d.
Proof. repeat split; exists []; now rewrite app_nil_r. Qed.

Lemma extends_createTransaction d0 data d :
  extends d0 d -> extends d0 (snd (createTransaction data d)).
Proof.
  intros (H1 & [s2 H2] & H3).
  destruct (createTransaction_cases data d)
    as [[e ->] | (tid & row & _ & _ & _ & _ & ->)]; [repeat split; eauto|].
  repeat split; try assumption. simpl.
  exists (s2 ++ [tx_core row])%list. rewrite map_app, H2. simpl.
  now rewrite app_assoc.
Qed.

Lemma extends_updateTransactionFraud d0 column_text tid f s r d :
  extends d0 d -> extends d0 (snd (updateTransactionFraud column_text tid f s r d)).
Proof.
  intros (H1 & H2 & H3). repeat split; try assumption.
  unfold updateTransactionFraud. simpl.
  now rewrite map_update_same by reflexivity.
Qed.

Lemma extends_createFraudAlert d0 a d :
  extends d0 d -> extends d0 (snd (createFraudAlert a d)).
Proof.
  intros (H1 & H2 & [s3 H3]).
  destruct (createFraudAlert_cases a d)
    as [[e ->] | (row & _ & _ & _ & _ & _ & ->)]; [repeat split; eauto|].
  repeat split; try assumption. simpl.
  exists (s3 ++ [fa_core row])%list. rewrite map_app, H3. simpl.
  now rewrite app_assoc.
Qed.

Lemma extends_updateFraudAlertWithBlockchain d0 id r d :
  extends d0 d -> extends d0 (snd (updateFraudAlertWithBlockchain id r d)).
Proof.
  intros (H1 & H2 & H3). repeat split; try assumption.
  unfold updateFraudAlertWithBlockchain. simpl.
  now rewrite map_update_same by reflexivity.
Qed.

Lemma extends_createBlockchainRecord d0 r d :
  extends d0 d -> extends d0 (snd (createBlockchainRecord r d)).
Proof.
  intros ([s1 H1] & H2 & H3).
  destruct (createBlockchainRecord_inserted r d) as [tid hash Et Eh Hn row| | |];
    try (repeat split; eauto).
  simpl. exists (s1 ++ [row])%list. rewrite H1. now rewrite app_assoc.
Qed.

(** X4.  No request deletes or rewrites what is stored.  After any sequence
    of requests from any server state, the ledger records stored before are
    still there, unchanged and in place, followed by the new ones; so are the
    transactions, up to their three fraud columns, and the alerts, up to
    their ledger link. *)
Theorem nothing_is_deleted :
  forall (JSON_parse : string -> Result JSValue)
         (ToNumber_text : JSValue -> option Q)
         (fraud_detector_py : TransactionData -> Process)
         (column_text : JSValue -> JSValue)
         (ledger : World -> TransactionRow -> FraudPrediction -> Result RecordData)
         (retrain_py : bool -> option Z * string * string)
         (calls : list Call) (w : World),
    extends (db w)
      (db (run JSON_parse ToNumber_text fraud_detector_py column_text ledger
             retrain_py calls w)).
Proof.
  intros.
  apply (@kept_run (extends (db w)) (@extends_createTransaction (db w))
           (@extends_updateTransactionFraud (db w)) (@extends_createFraudAlert (db w))
           (@extends_updateFraudAlertWithBlockchain (db w))
           (@extends_createBlockchainRecord (db w))).
  apply extends_refl.
Qed.

(** *** The single-transaction routes *)

Lemma update_misses {A} (p : A -> bool) (f : A -> A) (l : list A) :
  find p l = None -> map (fun r => if p r then f r else r) l = l.
Proof.
  induction l as [|x l IH]; simpl; [reflexivity|].
  destruct (p x); [discriminate|]. intro H. now rewrite IH.
Qed.

Lemma find_snoc {A} (p : A -> bool) (l : list A) (x : A) :
  find p l = None -> p x = true -> find p (l ++ [x]) = Some x.
Proof.
  induction l as [|y l IH]; simpl; intros H Hx.
  - now rewrite Hx.
  - destruct (p y); [discriminate|]. now apply IH.
Qed.

Lemma find_update {A} (p : A -> bool) (f : A -> A) (l : list A) :
  (forall r, p (f r) = p r) ->
  find p (map (fun r => if p r then f r else r) l) = option_map f (find p l).
Proof.
  intro Hf. induction l as [|x l IH]; simpl; [reflexivity|].
  destruct (p x) eqn:E.
  - now rewrite Hf, E.
  - now rewrite E.
Qed.

Lemma first_missing_None (data : TransactionData) :
  first_missing data = None ->
  missingFields data = [] /\
  exists tid uid amt ty,
    td_transaction_id data = Some tid /\ td_user_id data = Some uid /\
    td_amount data = Some amt /\ td_transaction_type data = Some ty /\
    tid <> "" /\ Qeq_bool amt 0 = false.
Proof.
  unfold first_missing, missingFields. intro H.
  destruct (truthy_str (td_transaction_id data)) eqn:E1; [|discriminate].
  destruct (truthy_str (td_user_id data)) eqn:E2; [|discriminate].
  destruct (truthy_num (td_amount data)) eqn:E3; [|discriminate].
  destruct (truthy_str (td_transaction_type data)) eqn:E4; [|discriminate].
  split; [reflexivity|].
  destruct (truthy_str_Some _ E1) as (tid & -> & Ht).
  destruct (truthy_str_Some _ E2) as (uid & -> & _).
  destruct (truthy_num_Some _ E3) as (amt & -> & Ha).
  destruct (truthy_str_Some _ E4) as (ty & -> & _).
  now exists tid, uid, amt, ty.
Qed.

Section TransactionRoutes.

Variable JSON_parse : string -> Result JSValue.
Variable ToNumber_text : JSValue -> option Q.
Variable fraud_detector_py : TransactionData -> Process.
Variable column_text : JSValue -> JSValue.

Lemma post_transaction_rejected (data : TransactionData) (w : World) (field : string) :
  first_missing data = Some field ->
  post_transaction JSON_parse ToNumber_text fraud_detector_py column_text data w
  = (Some {| answer_status := 400;
             answer_body := AError ("Missing required field: " ++ field) None None |},
     w).
Proof.
  intro H. unfold post_transaction, reply_pending, immediate, ret. now rewrite H.
Qed.

Lemma post_transaction_exists (data : TransactionData) (w : World) (tid : string)
  (t : TransactionRow) :
  first_missing data = None ->
  td_transaction_id data = Some tid ->
  find (fun r => tx_transaction_id r =? tid) (transactions (db w)) = Some t ->
  post_transaction JSON_parse ToNumber_text fraud_detector_py column_text data w
  = (Some {| answer_status := 409;
             answer_body := AError "Transaction already exists" (Some tid) None |}, w).
Proof.
  intros Hm Et Hfind. destruct w as [d subs]. simpl in Hfind.
  unfold post_transaction, reply_pending, wbind, immediate, lift_db, getTransaction, ret.
  rewrite Hm, Et. simpl. now rewrite Hfind.
Qed.

(** The row POST /api/transactions stores when the scoring process closes. *)
Lemma post_transaction_created (data : TransactionData) (w : World) (tid : string)
  (code : option Z) (output : string) :
  first_missing data = None ->
  td_transaction_id data = Some tid ->
  find (fun r => tx_transaction_id r =? tid) (transactions (db w)) = None ->
  fraud_detector_py data = Closed code output ->
  exists detection row,
    runFraudDetection JSON_parse ToNumber_text fraud_detector_py data
    = Settles (Resolved detection) /\
    tx_transaction_id row = tid /\
    Some (tx_user_id row) = td_user_id data /\
    Some (tx_amount row) = td_amount data /\
    Some (tx_transaction_type row) = td_transaction_type data /\
    tx_merchant_name row = td_merchant_name data /\
    tx_is_fraud row = column_value column_text (fd_is_fraud detection) /\
    tx_fraud_score row = column_value column_text (fd_fraud_score detection) /\
    tx_fraud_reason row = Some (fd_fraud_reason detection) /\
    post_transaction JSON_parse ToNumber_text fraud_detector_py column_text data w
    = (Some {| answer_status := 201;
               answer_body := ACreated tid detection
                                "Transaction created and analyzed successfully" |},
       {| db := {| transactions := (transactions (db w) ++ [row])%list;
                   fraud_alerts := fraud_alerts (db w);
                   blockchain_records := blockchain_records (db w) |};
          submissions := submissions w |}).
Proof.
  intros Hm Et Hfind Hclosed.
  destruct (first_missing_None data Hm)
    as (_ & tid' & uid & amt & ty & Et' & Eu & Ea & Ety & _ & _).
  rewrite Et in Et'. injection Et' as <-.
  destruct (on_close_settles JSON_parse ToNumber_text code output) as [detection R].
  exists detection.
  destruct w as [d subs]. simpl in Hfind.
  unfold post_transaction, reply_pending, wbind, immediate, lift_db, getTransaction,
    createTransaction, updateTransactionFraud, ret, runFraudDetection.
  rewrite Hm, Et, Eu, Ea, Ety, Hclosed. cbn [db submissions]. rewrite Hfind.
  cbn [db submissions].
  rewrite (find_none_existsb _ _ Hfind). rewrite R.
  cbn [await_pending await immediate ret db submissions snd fst transactions
       fraud_alerts blockchain_records].
  rewrite map_app. rewrite (update_misses _ _ _ Hfind). cbn [map tx_transaction_id].
  rewrite String.eqb_refl.
  eexists. repeat apply conj.
  10: reflexivity.
  all: reflexivity.
Qed.

(** What POST /api/transactions leaves when the scoring process never
    closes: no answer, and the row of the insert. *)
Lemma post_transaction_pending (data : TransactionData) (w : World) (tid : string) :
  first_missing data = None ->
  td_transaction_id data = Some tid ->
  find (fun r => tx_transaction_id r =? tid) (transactions (db w)) = None ->
  fraud_detector_py data = Unclosed ->
  exists row,
    tx_transaction_id row = tid /\
    tx_is_fraud row = JNum 0 /\
    tx_fraud_score row = JNum 0 /\
    tx_fraud_reason row = None /\
    post_transaction JSON_parse ToNumber_text fraud_detector_py column_text data w
    = (None,
       {| db := {| transactions := (transactions (db w) ++ [row])%list;
                   fraud_alerts := fraud_alerts (db w);
                   blockchain_records := blockchain_records (db w) |};
          submissions := submissions w |}).
Proof.
  intros Hm Et Hfind Hclosed.
  destruct (first_missing_None data Hm)
    as (_ & tid' & uid & amt & ty & Et' & Eu & Ea & Ety & _ & _).
  rewrite Et in Et'. injection Et' as <-.
  destruct w as [d subs]. simpl in Hfind.
  unfold post_transaction, reply_pending, wbind, immediate, lift_db, getTransaction,
    createTransaction, ret, runFraudDetection.
  rewrite Hm, Et, Eu, Ea, Ety, Hclosed. cbn [db submissions]. rewrite Hfind.
  cbn [db submissions].
  rewrite (find_none_existsb _ _ Hfind).
  cbn [await_pending db submissions snd fst transactions fraud_alerts
       blockchain_records].
  eexists. repeat apply conj.
  5: reflexivity.
  all: reflexivity.
Qed.

End TransactionRoutes.

Lemma get_transaction_found (tid : string) (w : World) :
  get_transaction tid w
  = match find (fun r => tx_transaction_id r =? tid) (transactions (db w)) with
    | Some t => ({| answer_status := 200; answer_body := AFound t |}, w)
    | None =>
        ({| answer_status := 404;
            answer_body := AError "Transaction not found" (Some tid) None |}, w)
    end.
Proof.
  destruct w as [d subs].
  unfold get_transaction, reply, bind, lift_db, getTransaction, ret. simpl.
  now destruct (find _ (transactions d)).
Qed.

Lemma post_transaction_cases JSON_parse ToNumber_text py column_text
  (data : TransactionData) (w : World) :
  (exists field,
      first_missing data = Some field /\
      post_transaction JSON_parse ToNumber_text py column_text data w
      = (Some {| answer_status := 400;
                 answer_body := AError ("Missing required field: " ++ field)
                                  None None |},
         w)) \/
  (exists tid t,
      first_missing data = None /\ td_transaction_id data = Some tid /\
      find (fun r => tx_transaction_id r =? tid) (transactions (db w)) = Some t /\
      post_transaction JSON_parse ToNumber_text py column_text data w
      = (Some {| answer_status := 409;
                 answer_body := AError "Transaction already exists" (Some tid) None |},
         w)) \/
  (exists tid code output,
      first_missing data = None /\ td_transaction_id data = Some tid /\
      find (fun r => tx_transaction_id r =? tid) (transactions (db w)) = None /\
      py data = Closed code output /\
      answered_status (fst (post_transaction JSON_parse ToNumber_text py column_text
                              data w))
      = 201%nat) \/
  (exists tid,
      first_missing data = None /\ td_transaction_id data = Some tid /\
      find (fun r => tx_transaction_id r =? tid) (transactions (db w)) = None /\
      py data = Unclosed /\
      fst (post_transaction JSON_parse ToNumber_text py column_text data w) = None).
Proof.
  destruct (first_missing data) as [field|] eqn:Hm.
  - left. exists field. split; [reflexivity|]. now apply post_transaction_rejected.
  - right. destruct (first_missing_None data Hm) as (_ & tid & _ & _ & _ & Et & _).
    destruct (find (fun r => tx_transaction_id r =? tid) (transactions (db w)))
      as [t|] eqn:Hfind.
    + left. exists tid, t. repeat split; try assumption.
      now apply post_transaction_exists with (t := t).
    + right. destruct (py data) as [code output|] eqn:Hpy.
      * left. exists tid, code, output. repeat split; try assumption.
        destruct (@post_transaction_created JSON_parse ToNumber_text py column_text
                    data w tid code output Hm Et Hfind Hpy)
          as (detection & row & _ & _ & _ & _ & _ & _ & _ & _ & _ & ->).
        reflexivity.
      * right. exists tid. repeat split; try assumption.
        destruct (@post_transaction_pending JSON_parse ToNumber_text py column_text
                    data w tid Hm Et Hfind Hpy)
          as (row & _ & _ & _ & _ & ->).
        reflexivity.
Qed.

(** X5.  What POST /api/transactions stores is what GET
    /api/transactions/:transactionId returns: after a 201 answer, GET for the
    same identifier answers 200 with a row that has the posted user, amount,
    type and merchant and the [is_fraud], [fraud_score] and [fraud_reason]
    of the prediction the POST answered with, as SQLite stores them: a
    boolean [is_fraud] comes back as 1 or 0, an [undefined] one as NULL. *)
Theorem created_transaction_is_read_back :
  forall (JSON_parse : string -> Result JSValue)
         (ToNumber_text : JSValue -> option Q)
         (fraud_detector_py : TransactionData -> Process)
         (column_text : JSValue -> JSValue)
         (data : TransactionData) (w : World),
    answered_status
      (fst (post_transaction JSON_parse ToNumber_text fraud_detector_py column_text
              data w)) = 201%nat ->
    let out := post_transaction JSON_parse ToNumber_text fraud_detector_py
                 column_text data w in
    exists tid detection row,
      td_transaction_id data = Some tid /\
      fst out = Some {| answer_status := 201;
                        answer_body := ACreated tid detection
                                         "Transaction created and analyzed successfully" |} /\
      get_transaction tid (snd out)
      = ({| answer_status := 200; answer_body := AFound row |}, snd out) /\
      Some (tx_user_id row) = td_user_id data /\
      Some (tx_amount row) = td_amount data /\
      Some (tx_transaction_type row) = td_transaction_type data /\
      tx_merchant_name row = td_merchant_name data /\
      tx_is_fraud row = column_value column_text (fd_is_fraud detection) /\
      tx_fraud_score row = column_value column_text (fd_fraud_score detection) /\
      tx_fraud_reason row = Some (fd_fraud_reason detection).
Proof.
  intros JSON_parse ToNumber_text py column_text data w H out. subst out.
  destruct (post_transaction_cases JSON_parse ToNumber_text py column_text data w)
    as [(field & _ & E) | [(tid & t & _ & _ & _ & E)
       | [(tid & code & output & Hm & Et & Hfind & Hpy & _)
         | (tid & _ & _ & _ & _ & E)]]];
    try (rewrite E in H; discriminate H).
  destruct (@post_transaction_created JSON_parse ToNumber_text py column_text
              data w tid code output Hm Et Hfind Hpy)
    as (detection & row & _ & Hid & Hu & Ha & Hty & Hmn & Hf & Hs & Hr & ->).
  exists tid, detection, row. cbn [fst snd].
  repeat (split; [first [assumption | reflexivity]|]).
  split; [|repeat split; assumption].
  rewrite get_transaction_found. cbn [db transactions].
  rewrite (find_snoc _ _ _ Hfind); [reflexivity|].
  rewrite Hid. apply String.eqb_refl.
Qed.

Lemma created_transaction_is_read_back_witness :
  let out := post_transaction sample_JSON_parse sample_ToNumber_text scoring_py
               sample_column_text (sample_transaction "TX9") sample_world in
  exists detection row,
    fst out = Some {| answer_status := 201;
                      answer_body := ACreated "TX9" detection
                                       "Transaction created and analyzed successfully" |} /\
    get_transaction "TX9" (snd out)
    = ({| answer_status := 200; answer_body := AFound row |}, snd out) /\
    fd_is_fraud detection = JBool true /\
    tx_is_fraud row = JNum 1 /\
    tx_fraud_score row = JNum (85 # 100).
Proof.
  destruct (@created_transaction_is_read_back sample_JSON_parse sample_ToNumber_text
              scoring_py sample_column_text (sample_transaction "TX9") sample_world
              eq_refl)
    as (tid & detection & row & Et & E & G & _ & _ & _ & _ & Hf & Hs & _).
  injection Et as <-.
  assert (Hd : detection
               = {| fd_is_fraud := JBool true;
                    fd_fraud_score := JNum (85 # 100);
                    fd_fraud_reason := "High ML probability, Unusual pattern";
                    fd_confidence := JNum (92 # 100);
                    fd_xgb_probability := JNum (9 # 10);
                    fd_kmeans_anomaly := JNum 0 |}).
  { vm_compute in E. now injection E as <-. }
  exists detection, row. split; [exact E|]. split; [exact G|].
  rewrite Hf, Hs, Hd. repeat split.
Defined.



Lemma put_transaction_cases column_text (tid : string) (u : FraudUpdate) (w : World) :
  put_transaction column_text tid u w
  = match find (fun r => tx_transaction_id r =? tid) (transactions (db w)) with
    | None =>
        ({| answer_status := 404;
            answer_body := AError "Transaction not found" (Some tid) None |}, w)
    | Some _ =>
        if Nat.eqb (List.length (updated_fields u)) 0
        then ({| answer_status := 400;
                 answer_body := AError "No valid fields to update" None None |}, w)
        else ({| answer_status := 200;
                 answer_body := AUpdated tid (updated_fields u)
                                  "Transaction updated successfully" |},
              {| db := snd (updateTransactionFraud column_text (Some tid)
                              (sent (fu_is_fraud u)) (sent (fu_fraud_score u))
                              (fu_fraud_reason u) (db w));
                 submissions := submissions w |})
    end.
Proof.
  destruct w as [d subs].
  unfold put_transaction, reply, bind, lift_db, getTransaction, ret. cbn [db submissions].
  destruct (find _ (transactions d)); [|reflexivity].
  now destruct (Nat.eqb _ _).
Qed.

(** X7.  PUT /api/transactions/:transactionId writes all three fraud columns
    at once.  For a stored transaction and a body with at least one of
    [is_fraud], [fraud_score], [fraud_reason], it answers 200 and a following
    GET returns the stored row with every one of the three columns replaced
    by what SQLite stores for what the body has for it: NULL for a field the
    body does not have, so that an update of one field erases the other two,
    and 1 or 0 for a boolean; the other columns are as before.  For an
    unknown identifier (404) or a body with none of the three fields (400)
    the server state is unchanged. *)
Theorem update_replaces_all_fraud_columns :
  forall (column_text : JSValue -> JSValue)
         (tid : string) (u : FraudUpdate) (w : World),
    let out := put_transaction column_text tid u w in
    match find (fun r => tx_transaction_id r =? tid) (transactions (db w)) with
    | None => answer_status (fst out) = 404%nat /\ snd out = w
    | Some t =>
        match updated_fields u with
        | [] => answer_status (fst out) = 400%nat /\ snd out = w
        | _ :: _ =>
            answer_status (fst out) = 200%nat /\
            exists row,
              get_transaction tid (snd out)
              = ({| answer_status := 200; answer_body := AFound row |}, snd out) /\
              tx_core row = tx_core t /\
              tx_is_fraud row = column_value column_text (sent (fu_is_fraud u)) /\
              tx_fraud_score row = column_value column_text (sent (fu_fraud_score u)) /\
              tx_fraud_reason row = fu_fraud_reason u /\
              (fu_is_fraud u = None -> tx_is_fraud row = JNull) /\
              (fu_fraud_score u = None -> tx_fraud_score row = JNull) /\
              (forall b, fu_is_fraud u = Some (JBool b) ->
                         tx_is_fraud row = JNum (if b then 1 else 0))
        end
    end.
Proof.
  intros column_text tid u w out. subst out. rewrite put_transaction_cases.
  destruct (find (fun r => tx_transaction_id r =? tid) (transactions (db w)))
    as [t|] eqn:Hfind; [|split; reflexivity].
  destruct (updated_fields u) as [|f fs] eqn:Eu; [split; reflexivity|].
  cbn [List.length Nat.eqb fst snd]. split; [reflexivity|].
  exists (set_fraud (column_value column_text (sent (fu_is_fraud u)))
            (column_value column_text (sent (fu_fraud_score u)))
            (fu_fraud_reason u) t).
  split.
  { rewrite get_transaction_found. cbn [db transactions updateTransactionFraud snd].
    rewrite find_update by reflexivity. now rewrite Hfind. }
  cbn [set_fraud tx_is_fraud tx_fraud_score tx_fraud_reason].
  repeat split.
  - intros ->. reflexivity.
  - intros ->. reflexivity.
  - intros b ->. reflexivity.
Qed.

(** *** A batch is the sequence of its single calls *)

Section BatchAsSequence.

Variables I R : Type.
Variable item_id : I -> option string.
Variable step : I -> M World (ItemResult + ItemError).
Variable route : I -> World -> R * World.
Variable status_of : R -> nat.
Variable good : I -> Prop.

Hypothesis step_route :
  forall x w, good x ->
    snd (item_outcome item_id step x w) = snd (route x w) /\
    ((exists r, fst (item_outcome item_id step x w) = inl r)
     <-> status_of (fst (route x w)) = 201%nat).

Lemma outcomes_in_sequence (items : list I) :
  Forall good items ->
  forall w,
    snd (outcomes item_id step items w) = snd (in_sequence route items w) /\
    List.length (results_of (fst (outcomes item_id step items w)))
    = count_status status_of 201 (fst (in_sequence route items w)).
Proof.
  induction 1 as [|x rest Hx Hrest IH]; intro w; simpl; [split; reflexivity|].
  destruct (step_route w Hx) as [Hw Hok].
  destruct (item_outcome item_id step x w) as [o w1].
  destruct (route x w) as [r w1']. simpl in Hw, Hok. subst w1'.
  specialize (IH w1). destruct (outcomes item_id step rest w1) as [os w2].
  destruct (in_sequence route rest w1) as [rs w2']. simpl in *.
  destruct IH as [-> IH]. split; [reflexivity|].
  unfold count_status in *. simpl.
  destruct o as [res|err].
  - assert (status_of r = 201%nat) as -> by (apply Hok; now exists res).
    simpl. now rewrite IH.
  - destruct (Nat.eqb (status_of r) 201) eqn:E.
    + apply Nat.eqb_eq in E. apply Hok in E. destruct E as [res E]. discriminate.
    + simpl. exact IH.
Qed.

End BatchAsSequence.

Lemma batch_record_item_route ledger (x : option string) (w : World) :
  x <> Some "" ->
  snd (item_outcome (fun i => i) (batch_record_item ledger) x w)
  = snd (post_record ledger x w) /\
  ((exists r, fst (item_outcome (fun i => i) (batch_record_item ledger) x w) = inl r)
   <-> status (fst (post_record ledger x w)) = 201%nat).
Proof.
  intro Hx. destruct x as [tid|].
  - assert (tid <> "") as Hne by congruence.
    destruct (find (fun r => tx_transaction_id r =? tid) (transactions (db w)))
      as [t|] eqn:Hfind.
    + rewrite (@post_record_found ledger tid t w Hne Hfind).
      destruct w as [d subs]. cbn [db submissions] in *.
      unfold item_outcome, batch_record_item, bind, lift_db, getTransaction, submit,
        ret, logged, failure.
      cbn [db submissions]. rewrite Hfind.
      destruct (ledger _ t (stored_prediction t)) as [rd|e]; cbn [db submissions].
      * destruct (createBlockchainRecord rd d) as [[id|e] d']; cbn [fst snd status];
          (split; [reflexivity|]); split; intro H;
          first [ reflexivity | discriminate | now eexists
                | destruct H as [r H]; discriminate ].
      * cbn [fst snd status]. split; [reflexivity|]. split; intro H;
          [destruct H as [r H]; discriminate | discriminate].
    + destruct w as [d subs]. cbn [db submissions] in *.
      apply String.eqb_neq in Hne.
      unfold item_outcome, batch_record_item, post_record, respond, bind, lift_db,
        getTransaction, submit, ret.
      cbn [truthy_str db submissions]. rewrite Hne. cbn [negb db submissions].
      rewrite !Hfind.
      cbn [fst snd status]. split; [reflexivity|]. split; intro H;
        [destruct H as [r H]; discriminate | discriminate].
  - destruct w as [d subs].
    unfold item_outcome, batch_record_item, post_record, respond, bind, lift_db,
      getTransaction, submit, ret.
    cbn [truthy_str negb db submissions fst snd status].
    split; [reflexivity|]. split; intro H;
      [destruct H as [r H]; discriminate | discriminate].
Qed.

(** X8.  POST /api/blockchain/batch-record does to the server what one POST
    /api/blockchain/record per identifier, in order, does: for an array with
    no empty-string identifier the final server state is the same, and the
    batch's [processed] count is the number of those single calls that answer
    201. *)
Theorem batch_record_is_sequence_of_records :
  forall (ledger : World -> TransactionRow -> FraudPrediction -> Result RecordData)
         (ids : list (option string)) (w : World),
    Forall (fun i => i <> Some "") ids ->
    snd (post_batch_record ledger (Some ids) w)
    = snd (in_sequence (post_record ledger) ids w) /\
    batch_processed (fst (post_batch_record ledger (Some ids) w))
    = Some (count_status status 201 (fst (in_sequence (post_record ledger) ids w))).
Proof.
  intros ledger ids w Hids.
  destruct (@outcomes_in_sequence _ _ (fun i => i) (batch_record_item ledger)
              (post_record ledger) status (fun i => i <> Some "")
              (fun x w Hx => batch_record_item_route ledger w Hx) ids Hids w)
    as [Hw Hn].
  unfold post_batch_record. rewrite for_each_outcomes.
  destruct (outcomes _ _ ids w) as [os w']. simpl in *.
  split; [exact Hw|]. unfold batch_processed. simpl. now rewrite Hn.
Qed.

Lemma batch_record_is_sequence_of_records_witness :
  snd (post_batch_record flaky_ledger (Some [Some "TX1"; Some "NOPE"; Some "TX2"])
         sample_world)
  = snd (in_sequence (post_record flaky_ledger) [Some "TX1"; Some "NOPE"; Some "TX2"]
           sample_world) /\
  batch_processed
    (fst (post_batch_record flaky_ledger (Some [Some "TX1"; Some "NOPE"; Some "TX2"])
            sample_world))
  = Some (count_status status 201
            (fst (in_sequence (post_record flaky_ledger)
                    [Some "TX1"; Some "NOPE"; Some "TX2"] sample_world))).
Proof.
  apply (@batch_record_is_sequence_of_records flaky_ledger
           [Some "TX1"; Some "NOPE"; Some "TX2"] sample_world).
  repeat constructor; discriminate.
Defined.

Lemma first_missing_Some (data : TransactionData) (field : string) :
  first_missing data = Some field -> missingFields data <> [].
Proof.
  unfold first_missing, missingFields.
  destruct (truthy_str (td_transaction_id data)); [|discriminate].
  destruct (truthy_str (td_user_id data)); [|discriminate].
  destruct (truthy_num (td_amount data)); [|discriminate].
  destruct (truthy_str (td_transaction_type data)); discriminate.
Qed.

Lemma transactions_batch_item_route JSON_parse ToNumber_text py column_text
  (x : TransactionData) (w : World) :
  py x <> Unclosed ->
  snd (item_outcome td_transaction_id
         (fun td => when_returns
                      (transactions_batch_item JSON_parse ToNumber_text py
                         column_text td)) x w)
  = snd (post_transaction JSON_parse ToNumber_text py column_text x w) /\
  ((exists r, fst (item_outcome td_transaction_id
                     (fun td => when_returns
                                  (transactions_batch_item JSON_parse ToNumber_text py
                                     column_text td)) x w) = inl r)
   <-> answered_status
         (fst (post_transaction JSON_parse ToNumber_text py column_text x w))
       = 201%nat).
Proof.
  intro Hclosed.
  destruct (post_transaction_cases JSON_parse ToNumber_text py column_text x w)
    as [(field & Hm & E) | [(tid & t & Hm & Et & Hfind & E)
       | [(tid & code & output & Hm & Et & Hfind & Hpy & _)
         | (tid & _ & _ & _ & Hpy & _)]]]; [| | |contradiction].
  - rewrite E. apply first_missing_Some in Hm.
    unfold item_outcome, when_returns, transactions_batch_item.
    destruct (missingFields x) as [|f fs]; [contradiction|].
    cbn [List.length Nat.eqb negb immediate ret fst snd answered_status answer_status].
    split; [reflexivity|]. split; intro H;
      [destruct H as [r H]; discriminate | discriminate].
  - rewrite E. destruct (first_missing_None x Hm) as (Hmf & _).
    destruct w as [d subs]. cbn [db] in Hfind.
    unfold item_outcome, when_returns, transactions_batch_item, wbind, immediate,
      lift_db, getTransaction, ret.
    rewrite Hmf, Et. cbn [List.length Nat.eqb negb db submissions]. rewrite Hfind.
    cbn [fst snd answered_status answer_status].
    split; [reflexivity|]. split; intro H;
      [destruct H as [r H]; discriminate | discriminate].
  - destruct (@post_transaction_created JSON_parse ToNumber_text py column_text
                x w tid code output Hm Et Hfind Hpy)
      as (detection & row & R & _ & _ & _ & _ & _ & _ & _ & _ & E).
    rewrite E. cbn [fst snd answered_status answer_status]. revert E.
    destruct w as [d subs]. cbn [db submissions] in *.
    destruct (first_missing_None x Hm)
      as (Hmf & tid' & uid & amt & ty & Et' & Eu & Ea & Ety & _ & _).
    unfold item_outcome, when_returns, post_transaction, transactions_batch_item,
      reply_pending, wbind, immediate, lift_db, getTransaction, createTransaction,
      updateTransactionFraud, ret.
    rewrite Hm, Hmf, Et, Eu, Ea, Ety.
    cbn [List.length Nat.eqb negb db submissions]. rewrite Hfind.
    cbn [db submissions]. rewrite (find_none_existsb _ _ Hfind). rewrite R.
    cbn [await_pending await immediate ret db submissions snd fst transactions
         fraud_alerts blockchain_records].
    intro E. injection E as E. rewrite E.
    split; [reflexivity|]. split; [reflexivity | now eexists].
Qed.

(** X9.  POST /api/transactions/batch does to the server what one POST
    /api/transactions per item, in order, does, for an array of transaction
    objects whose scoring processes close: the final server state is the
    same, the batch answers, and its [processed] count is the number of those
    single calls that answer 201. *)
Theorem transactions_batch_is_sequence_of_posts :
  forall (JSON_parse : string -> Result JSValue)
         (ToNumber_text : JSValue -> option Q)
         (fraud_detector_py : TransactionData -> Process)
         (column_text : JSValue -> JSValue)
         (items : list TransactionData) (w : World),
    (forall td, In td items -> fraud_detector_py td <> Unclosed) ->
    snd (post_transactions_batch JSON_parse ToNumber_text fraud_detector_py
           column_text (Some (map Some items)) w)
    = snd (in_sequence
             (post_transaction JSON_parse ToNumber_text fraud_detector_py column_text)
             items w) /\
    exists answer,
      fst (post_transactions_batch JSON_parse ToNumber_text fraud_detector_py
             column_text (Some (map Some items)) w)
      = Some answer /\
      batch_processed answer
      = Some (count_status answered_status 201
                (fst (in_sequence
                        (post_transaction JSON_parse ToNumber_text fraud_detector_py
                           column_text)
                        items w))).
Proof.
  intros JSON_parse ToNumber_text py column_text items w Hclosed.
  assert (Forall (fun td => py td <> Unclosed) items) as Hall
      by (apply Forall_forall; exact Hclosed).
  destruct (@outcomes_in_sequence _ _ td_transaction_id
              (fun td => when_returns
                           (transactions_batch_item JSON_parse ToNumber_text py
                              column_text td))
              (post_transaction JSON_parse ToNumber_text py column_text)
              answered_status
              (fun td => py td <> Unclosed)
              (fun x w Hx =>
                 @transactions_batch_item_route JSON_parse ToNumber_text py
                   column_text x w Hx)
              items Hall w)
    as [Hw Hn].
  rewrite post_transactions_batch_plain by exact Hclosed.
  rewrite for_each_outcomes.
  destruct (outcomes _ _ items w) as [os w']. simpl in *.
  split; [exact Hw|]. eexists. split; [reflexivity|].
  unfold batch_processed. simpl. now rewrite Hn.
Qed.

Lemma transactions_batch_is_sequence_of_posts_witness :
  snd (post_transactions_batch sample_JSON_parse sample_ToNumber_text scoring_py
         sample_column_text
         (Some [Some (sample_transaction "TX9"); Some (sample_transaction "TX1")])
         sample_world)
  = snd (in_sequence
           (post_transaction sample_JSON_parse sample_ToNumber_text scoring_py
              sample_column_text)
           [sample_transaction "TX9"; sample_transaction "TX1"] sample_world).
Proof.
  apply (proj1 (@transactions_batch_is_sequence_of_posts sample_JSON_parse
                  sample_ToNumber_text scoring_py sample_column_text
                  [sample_transaction "TX9"; sample_transaction "TX1"] sample_world
                  (fun td _ => ltac:(discriminate)))).
Defined.

(** *** A [null] item *)

(** X17.  A [null] item ends a batch of objects.  When an array handed to
    POST /api/fraud/alerts/batch or to POST /api/transactions/batch holds
    [null], the route answers 500 with the message of the TypeError and no
    entry for any item; the items before the [null] have had their turns, the
    server state being that of the batch of those items alone, and the items
    after it are never processed.  (For the transactions, the scoring
    processes of the items before the [null] are taken to close.) *)
Theorem null_item_ends_the_batch :
  forall (JSON_parse : string -> Result JSValue)
         (ToNumber_text : JSValue -> option Q)
         (fraud_detector_py : TransactionData -> Process)
         (column_text : JSValue -> JSValue)
         (ledger : World -> TransactionRow -> FraudPrediction -> Result RecordData)
         (w : World),
    (forall (before : list AlertData) (rest : list (option AlertData)),
        post_alerts_batch ledger (Some (map Some before ++ None :: rest)%list) w
        = (Some {| status := 500;
                   body := ErrorBody "Failed to process batch fraud alerts" None
                             (Some null_item) |},
           snd (post_alerts_batch ledger (Some (map Some before)) w))) /\
    (forall (before : list TransactionData) (rest : list (option TransactionData)),
        (forall td, In td before -> fraud_detector_py td <> Unclosed) ->
        post_transactions_batch JSON_parse ToNumber_text fraud_detector_py
          column_text (Some (map Some before ++ None :: rest)%list) w
        = (Some {| status := 500;
                   body := ErrorBody "Failed to process batch transactions" None
                             (Some null_item) |},
           snd (post_transactions_batch JSON_parse ToNumber_text fraud_detector_py
                  column_text (Some (map Some before)) w))).
Proof.
  intros JSON_parse ToNumber_text py column_text ledger w. split.
  - intros before rest.
    assert (Hret : forall x : AlertData, In x before ->
              forall w0, fst (immediate (alerts_batch_item ledger x) w0) <> None).
    { intros x _ w0. unfold immediate.
      destruct (alerts_batch_item ledger x w0). discriminate. }
    unfold post_alerts_batch, respond_pending, wbind.
    rewrite (@for_each_object_null _ ad_transaction_id
               (fun a => immediate (alerts_batch_item ledger a)) before rest Hret).
    rewrite (@for_each_object_returns _ ad_transaction_id
               (fun a => immediate (alerts_batch_item ledger a)) before Hret).
    reflexivity.
  - intros before rest Hclosed.
    assert (Hret : forall x : TransactionData, In x before ->
              forall w0,
                fst (transactions_batch_item JSON_parse ToNumber_text py column_text
                       x w0) <> None).
    { intros x Hx w0. apply transactions_batch_item_returns. now apply Hclosed. }
    unfold post_transactions_batch, respond_pending, wbind.
    rewrite (@for_each_object_null _ td_transaction_id
               (transactions_batch_item JSON_parse ToNumber_text py column_text)
               before rest Hret).
    rewrite (@for_each_object_returns _ td_transaction_id
               (transactions_batch_item JSON_parse ToNumber_text py column_text)
               before Hret).
    reflexivity.
Qed.

(** An alert for TX1, [null], an alert for TX2: the answer is 500, the alert
    for TX1 is stored and recorded, and TX2 has no alert. *)
Lemma null_item_ends_the_batch_witness :
  let out := post_alerts_batch fresh_hash_ledger
               (Some [Some (sample_alert "TX1"); None; Some (sample_alert "TX2")])
               sample_world in
  fst out = Some {| status := 500;
                    body := ErrorBody "Failed to process batch fraud alerts" None
                              (Some null_item) |} /\
  map fa_transaction_id (fraud_alerts (db (snd out))) = ["TX1"].
Proof.
  pose proof (proj1 (@null_item_ends_the_batch sample_JSON_parse sample_ToNumber_text
                       crashing_py sample_column_text fresh_hash_ledger sample_world)
                [sample_alert "TX1"] [Some (sample_alert "TX2")]) as H.
  cbn [map app] in H. cbv zeta. rewrite H.
  split; [reflexivity | vm_compute; reflexivity].
Defined.

(** *** POST /api/fraud/alert stores the alert before it records it *)

Lemma update_fresh (f : FraudAlertRow -> FraudAlertRow) (rows : list FraudAlertRow) :
  map (fun r => if Nat.eqb (fa_id r) (next_id (map fa_id rows)) then f r else r) rows
  = rows.
Proof.
  transitivity (map (fun r : FraudAlertRow => r) rows); [|apply map_id].
  apply map_ext_in. intros r Hin.
  destruct (Nat.eqb (fa_id r) (next_id (map fa_id rows))) eqn:E; [|reflexivity].
  apply Nat.eqb_eq in E. exfalso.
  apply (next_id_fresh (map fa_id rows)). rewrite <- E. now apply in_map.
Qed.

(** The alert row as POST /api/fraud/alert leaves it: linked to the record
    the ledger integration returned, if it returned one. *)
Lemma post_alert_appends ledger (req : AlertData) (tid ty sev : string) (c : Q)
  (t : TransactionRow) (w : World) :
  ad_transaction_id req = Some tid -> tid <> "" ->
  ad_alert_type req = Some ty -> ty <> "" ->
  ad_severity req = Some sev -> sev <> "" ->
  ad_confidence_score req = Some c -> Qeq_bool c 0 = false ->
  find (fun r => tx_transaction_id r =? tid) (transactions (db w)) = Some t ->
  exists row,
    fraud_alerts (db (snd (post_alert ledger req w)))
    = (fraud_alerts (db w) ++ [row])%list /\
    fa_core row = alert_row req (next_id (map fa_id (fraud_alerts (db w)))) tid ty sev c /\
    ((status (fst (post_alert ledger req w)) = 201%nat /\
      exists blockchainRecord ledger_row,
        body_record (body (fst (post_alert ledger req w))) = Some blockchainRecord /\
        fa_cardano_tx_hash row = Some (br_cardano_tx_hash ledger_row) /\
        fa_cardano_nft_id row = br_nft_id ledger_row /\
        blockchain_records (db (snd (post_alert ledger req w)))
        = (blockchain_records (db w) ++ [ledger_row])%list)
     \/
     (status (fst (post_alert ledger req w)) = 500%nat /\
      blockchain_records (db (snd (post_alert ledger req w)))
      = blockchain_records (db w))).
Proof.
  intros Et Ht Ea Ha Es Hs Ec Hc Hfind.
  rewrite (@post_alert_found ledger req tid ty sev c t w Et Ht Ea Ha Es Hs Ec Hc Hfind).
  set (id := next_id (map fa_id (fraud_alerts (db w)))).
  set (d1 := {| transactions := transactions (db w);
                fraud_alerts := (fraud_alerts (db w) ++ [alert_row req id tid ty sev c])%list;
                blockchain_records := blockchain_records (db w) |}).
  destruct (ledger _ t (alert_prediction (Some c))) as [rd|e].
  - assert (Hup : fraud_alerts (snd (updateFraudAlertWithBlockchain id rd d1))
                  = (fraud_alerts (db w)
                     ++ [{| fa_id := id;
                            fa_transaction_id := tid;
                            fa_alert_type := ty;
                            fa_severity := sev;
                            fa_confidence_score := c;
                            fa_ml_model_used := fa_ml_model_used (alert_row req id tid ty sev c);
                            fa_features := fa_features (alert_row req id tid ty sev c);
                            fa_cardano_tx_hash := rd_cardano_tx_hash rd;
                            fa_cardano_nft_id := rd_nft_id rd;
                            fa_status := "active" |}])%list).
    { unfold updateFraudAlertWithBlockchain, d1. cbn [snd fraud_alerts].
      rewrite map_app. unfold id at 1. rewrite update_fresh.
      cbn [map alert_row fa_id]. now rewrite Nat.eqb_refl. }
    remember (snd (updateFraudAlertWithBlockchain id rd d1)) as d2 eqn:Ed2.
    assert (Hrec : blockchain_records d2 = blockchain_records (db w)).
    { subst d2. reflexivity. }
    pose proof (createBlockchainRecord_frame rd d2) as [_ F].
    pose proof (createBlockchainRecord_inserted rd d2) as I.
    destruct (createBlockchainRecord rd d2) as [[n|e] d3] eqn:E;
      cbn [fst snd db logged status failure] in *; rewrite F, Hup;
      eexists; (split; [reflexivity|]); (split; [reflexivity|]).
    + left. split; [reflexivity|].
      inversion I as [tid' hash Et' Eh Hn row Hn' | | |]. subst d3.
      exists rd, row. cbn [body body_record blockchain_records fa_cardano_tx_hash fa_cardano_nft_id].
      rewrite Hrec. subst row. cbn [br_cardano_tx_hash br_nft_id].
      repeat split. exact Eh.
    + right. split; [reflexivity|].
      inversion I; subst; exact Hrec.
  - cbn [fst snd db logged status failure fraud_alerts blockchain_records].
    eexists. split; [reflexivity|]. split; [reflexivity|].
    right. split; reflexivity.
Qed.

(** X10. POST /api/fraud/alert is not atomic.  For a request that passes
    validation and names a stored transaction, the alert row is appended to
    [fraud_alerts] whatever happens afterwards, and no older alert changes.
    The answer is 201 or 500; on 500 (the ledger integration threw, or the
    insert of its record failed) no ledger record has been added but the
    alert stays; on 201 exactly one ledger record has been added and the
    alert carries that record's hash and NFT id. *)
Theorem alert_outlives_failed_recording ledger (req : AlertData)
  (tid ty sev : string) (c : Q) (t : TransactionRow) (w : World) :
  ad_transaction_id req = Some tid -> tid <> "" ->
  ad_alert_type req = Some ty -> ty <> "" ->
  ad_severity req = Some sev -> sev <> "" ->
  ad_confidence_score req = Some c -> Qeq_bool c 0 = false ->
  find (fun r => tx_transaction_id r =? tid) (transactions (db w)) = Some t ->
  let out := post_alert ledger req w in
  exists row,
    fraud_alerts (db (snd out)) = (fraud_alerts (db w) ++ [row])%list /\
    fa_transaction_id row = tid /\ fa_severity row = sev /\
    fa_status row = "active" /\
    (status (fst out) = 201%nat \/ status (fst out) = 500%nat) /\
    (status (fst out) = 500%nat ->
     blockchain_records (db (snd out)) = blockchain_records (db w)) /\
    (status (fst out) = 201%nat ->
     exists ledger_row,
       blockchain_records (db (snd out))
       = (blockchain_records (db w) ++ [ledger_row])%list /\
       fa_cardano_tx_hash row = Some (br_cardano_tx_hash ledger_row) /\
       fa_cardano_nft_id row = br_nft_id ledger_row).
Proof.
  intros Et Ht Ea Ha Es Hs Ec Hc Hfind out. subst out.
  destruct (@post_alert_appends ledger req tid ty sev c t w
              Et Ht Ea Ha Es Hs Ec Hc Hfind)
    as (row & Hrows & Hcore & Hcases).
  exists row. split; [exact Hrows|].
  assert (Hf : fa_transaction_id row = tid /\ fa_severity row = sev /\
               fa_status row = "active").
  { change (fa_transaction_id (fa_core row) = tid /\
            fa_severity (fa_core row) = sev /\
            fa_status (fa_core row) = "active").
    rewrite Hcore. repeat split. }
  destruct Hf as (H1 & H2 & H3).
  split; [exact H1|]. split; [exact H2|]. split; [exact H3|].
  destruct Hcases as [(S201 & rd & ledger_row & _ & Hh & Hn & Hrec) | (S500 & Hrec)].
  - split; [now left|]. split.
    + intros S500. rewrite S201 in S500. discriminate.
    + intros _. exists ledger_row. repeat split; assumption.
  - split; [now right|]. split.
    + intros _. exact Hrec.
    + intros S201. rewrite S500 in S201. discriminate.
Qed.

Lemma alert_outlives_failed_recording_witness :
  exists row,
    fraud_alerts (db (snd (post_alert unavailable_ledger (sample_alert "TX1") sample_world)))
    = (fraud_alerts (db sample_world) ++ [row])%list /\
    fa_transaction_id row = "TX1" /\
    status (fst (post_alert unavailable_ledger (sample_alert "TX1") sample_world))
    = 500%nat.
Proof.
  destruct (@alert_outlives_failed_recording unavailable_ledger (sample_alert "TX1")
              "TX1" "FRAUD_ALERT" "high" (85 # 100) TX1 sample_world)
    as (row & Hrows & Htid & _);
    try reflexivity; try discriminate.
  exists row. split; [exact Hrows|]. split; [exact Htid|]. reflexivity.
Defined.

(** X11. The batch route takes no default model.  For an alert that passes
    the single route's validation, names a stored transaction and gives no
    [ml_model_used]: POST /api/fraud/alerts/batch reports the item as an
    error (the NOT NULL constraint of [fraud_alerts.ml_model_used]) and
    changes nothing, while POST /api/fraud/alert stores it with the default
    model name. *)
Theorem batch_alert_takes_no_default_model ledger (a : AlertData)
  (tid ty sev : string) (c : Q) (t : TransactionRow) (w : World) :
  ad_transaction_id a = Some tid -> tid <> "" ->
  ad_alert_type a = Some ty -> ty <> "" ->
  ad_severity a = Some sev -> sev <> "" ->
  ad_confidence_score a = Some c -> Qeq_bool c 0 = false ->
  ad_ml_model_used a = None ->
  find (fun r => tx_transaction_id r =? tid) (transactions (db w)) = Some t ->
  item_outcome ad_transaction_id (alerts_batch_item ledger) a w
  = (inr {| ie_transaction_id := Some tid;
            ie_error := not_null "fraud_alerts" "ml_model_used" |}, w) /\
  exists row,
    fraud_alerts (db (snd (post_alert ledger a w)))
    = (fraud_alerts (db w) ++ [row])%list /\
    fa_ml_model_used row = default_model.
Proof.
  intros Et Ht Ea Ha Es Hs Ec Hc Em Hfind. split.
  - destruct w as [d subs]. cbn [db] in Hfind.
    unfold item_outcome, alerts_batch_item, bind, lift_db, getTransaction,
      createFraudAlert.
    rewrite Et. cbn [db submissions fst snd]. rewrite Hfind.
    cbn [db submissions fst snd]. rewrite Ea, Es, Ec, Em. reflexivity.
  - destruct (@post_alert_appends ledger a tid ty sev c t w
                Et Ht Ea Ha Es Hs Ec Hc Hfind)
      as (row & Hrows & Hcore & _).
    exists row. split; [exact Hrows|].
    change (fa_ml_model_used (fa_core row) = default_model).
    rewrite Hcore. unfold alert_row. cbn [fa_ml_model_used]. rewrite Em.
    reflexivity.
Qed.

Lemma batch_alert_takes_no_default_model_witness :
  item_outcome ad_transaction_id (alerts_batch_item fresh_hash_ledger)
    {| ad_transaction_id := Some "TX1";
       ad_alert_type := Some "FRAUD_ALERT";
       ad_severity := Some "high";
       ad_confidence_score := Some (85 # 100);
       ad_ml_model_used := None;
       ad_features := None;
       ad_cardano_tx_hash := None;
       ad_cardano_nft_id := None |} sample_world
  = (inr {| ie_transaction_id := Some "TX1";
            ie_error := not_null "fraud_alerts" "ml_model_used" |}, sample_world).
Proof.
  apply (@batch_alert_takes_no_default_model fresh_hash_ledger
           {| ad_transaction_id := Some "TX1";
              ad_alert_type := Some "FRAUD_ALERT";
              ad_severity := Some "high";
              ad_confidence_score := Some (85 # 100);
              ad_ml_model_used := None;
              ad_features := None;
              ad_cardano_tx_hash := None;
              ad_cardano_nft_id := None |}
           "TX1" "FRAUD_ALERT" "high" (85 # 100) TX1 sample_world);
    try reflexivity; discriminate.
Defined.

(** *** The seeding script *)

Lemma seed_each_snoc {A B} (op : A -> M Db B) (xs : list A) (x : A) (d : Db) :
  seed_each op (xs ++ [x]) d = snd (op x (seed_each op xs d)).
Proof. unfold seed_each. now rewrite fold_left_app. Qed.

Lemma seed_each_app {A B} (op : A -> M Db B) (xs ys : list A) (d : Db) :
  seed_each op (xs ++ ys) d = seed_each op ys (seed_each op xs d).
Proof. unfold seed_each. now rewrite fold_left_app. Qed.

Lemma NoDup_map_inj {A B} (f : A -> B) (l : list A) (a b : A) :
  NoDup (map f l) -> In a l -> In b l -> f a = f b -> a = b.
Proof.
  induction l as [|x l IH]; simpl; intros Hn Ha Hb E; [contradiction|].
  inversion Hn as [|y l' Hx Hl]; subst.
  destruct Ha as [->|Ha], Hb as [->|Hb]; auto.
  - exfalso. apply Hx. rewrite E. now apply in_map.
  - exfalso. apply Hx. rewrite <- E. now apply in_map.
Qed.

(** First loop: every generated transaction is inserted. *)
Lemma seeded_transactions (txs : list (DemoTransaction * Draws)) :
  NoDup (map demo_id txs) ->
  let d1 := seed_each (fun t => createTransaction (demo_data (fst t))) txs empty_db in
  map tx_transaction_id (transactions d1) = map demo_id txs /\
  fraud_alerts d1 = [] /\ blockchain_records d1 = [].
Proof.
  induction txs as [|x xs IH] using rev_ind; intros Hn d1.
  - repeat split.
  - subst d1. rewrite seed_each_snoc.
    rewrite map_app in Hn. apply NoDup_remove in Hn. cbn [map app] in Hn.
    rewrite app_nil_r in Hn. destruct Hn as [Hn Hx].
    destruct (IH Hn) as (Hids & Ha & Hr).
    set (d := seed_each (fun t => createTransaction (demo_data (fst t))) xs empty_db) in *.
    unfold createTransaction, demo_data.
    cbn [td_transaction_id td_user_id td_amount td_transaction_type].
    replace (existsb_eq (dt_transaction_id (fst x)) (map tx_transaction_id (transactions d)))
      with false
      by (symmetry; apply existsb_eq_not_In; rewrite Hids; exact Hx).
    cbn [snd transactions fraud_alerts blockchain_records].
    rewrite !map_app, Hids. repeat split; assumption.
Qed.

(** Second loop: the simulated detection rewrites the fraud columns only. *)
Lemma simulated_frame column_text (txs : list (DemoTransaction * Draws)) (d : Db) :
  let d2 := seed_each (simulate_detection column_text) txs d in
  map tx_transaction_id (transactions d2) = map tx_transaction_id (transactions d) /\
  fraud_alerts d2 = fraud_alerts d /\ blockchain_records d2 = blockchain_records d.
Proof.
  induction txs as [|x xs IH] using rev_ind; intros d2.
  - repeat split.
  - subst d2. rewrite seed_each_snoc. destruct IH as (Hids & Ha & Hr).
    destruct x as [t dr]. unfold simulate_detection, updateTransactionFraud.
    cbn [snd transactions fraud_alerts blockchain_records column_value].
    rewrite map_map. repeat split; try assumption.
    rewrite <- Hids. apply map_ext. intros r.
    now destruct (tx_transaction_id r =? dt_transaction_id t).
Qed.

Lemma simulated_flags column_text (txs : list (DemoTransaction * Draws)) (d : Db) :
  NoDup (map demo_id txs) ->
  forall r td,
    In r (transactions (seed_each (simulate_detection column_text) txs d)) ->
    In td txs -> tx_transaction_id r = demo_id td ->
    tx_is_fraud r = JNum (if suspicious (fst td) then 1 else 0).
Proof.
  induction txs as [|x xs IH] using rev_ind; intros Hn r td Hr Htd E.
  - destruct Htd.
  - rewrite map_app in Hn. apply NoDup_remove in Hn. cbn [map app] in Hn.
    rewrite app_nil_r in Hn. destruct Hn as [Hn Hx].
    rewrite seed_each_snoc in Hr. destruct x as [t dr].
    unfold simulate_detection, updateTransactionFraud in Hr.
    cbn [snd transactions column_value] in Hr. apply in_map_iff in Hr.
    destruct Hr as (r0 & Hr0 & Hin0).
    apply in_app_iff in Htd. destruct Htd as [Htd|[<-|[]]].
    + assert (Hne : (tx_transaction_id r0 =? dt_transaction_id t) = false).
      { apply String.eqb_neq. intro Heq. apply Hx.
        change (dt_transaction_id t) with (demo_id (t, dr)) in Heq.
        destruct (tx_transaction_id r0 =? dt_transaction_id t) eqn:Eb.
        - subst r. cbn [set_fraud tx_transaction_id] in E.
          rewrite <- Heq, E. now apply in_map.
        - subst r. rewrite <- Heq, E. now apply in_map. }
      rewrite Hne in Hr0. subst r0. now apply IH.
    + unfold demo_id in E. cbn [fst] in E.
      destruct (tx_transaction_id r0 =? dt_transaction_id t) eqn:Eb.
      * subst r. reflexivity.
      * subst r0. apply String.eqb_neq in Eb. contradiction.
Qed.

(** Third loop: one unlinked alert per suspicious transaction. *)
Lemma seeded_alerts (txs : list (DemoTransaction * Draws)) (d : Db) :
  let d3 := seed_each createFraudAlert (generateFraudAlerts txs) d in
  transactions d3 = transactions d /\
  blockchain_records d3 = blockchain_records d /\
  exists rows,
    fraud_alerts d3 = (fraud_alerts d ++ rows)%list /\
    map fa_transaction_id rows
    = map demo_id (filter (fun td => suspicious (fst td)) txs) /\
    Forall (fun a => fa_cardano_tx_hash a = None) rows.
Proof.
  revert d. induction txs as [|[t dr] xs IH]; intros d d3.
  - repeat split. exists []. now rewrite app_nil_r.
  - subst d3. cbn [generateFraudAlerts flat_map filter fst].
    change (flat_map _ xs) with (generateFraudAlerts xs).
    destruct (suspicious t) eqn:Hs.
    + rewrite seed_each_app.
      match goal with
      | |- context [seed_each createFraudAlert [?a] d] =>
          set (d1 := seed_each createFraudAlert [a] d)
      end.
      destruct (IH d1) as (Ht & Hr & rows & Ha & Hids & Hnone).
      rewrite Ht, Hr, Ha. subst d1.
      unfold seed_each at 1 2 3. cbn [fold_left createFraudAlert
        ad_transaction_id ad_alert_type ad_severity ad_confidence_score
        ad_ml_model_used ad_features ad_cardano_tx_hash ad_cardano_nft_id
        snd transactions fraud_alerts blockchain_records].
      repeat split. eexists (_ :: rows). rewrite <- app_assoc. cbn [app].
      split; [reflexivity|]. cbn [map fa_transaction_id]. rewrite Hids.
      split; [reflexivity|]. constructor; [reflexivity|assumption].
    + cbn [app]. apply IH.
Qed.

(** Fourth loop: inserting ledger records leaves the other tables alone. *)
Lemma seeded_records_frame (records : list RecordData) (d : Db) :
  transactions (seed_each createBlockchainRecord records d) = transactions d /\
  fraud_alerts (seed_each createBlockchainRecord records d) = fraud_alerts d.
Proof.
  revert d. induction records as [|x xs IH]; intros d; [now split|].
  change (seed_each createBlockchainRecord (x :: xs) d)
    with (seed_each createBlockchainRecord xs (snd (createBlockchainRecord x d))).
  destruct (IH (snd (createBlockchainRecord x d))) as [Ht Ha].
  destruct (createBlockchainRecord_frame x d) as [Ft Fa].
  rewrite Ht, Ha, Ft, Fa. now split.
Qed.

(** X12. What the seeding script leaves in an empty database, for generated
    transactions with distinct identifiers: every generated transaction is
    stored, in order; a stored transaction is flagged as fraud exactly when
    an alert is stored for it; and no seeded alert is linked to a ledger
    record, although records are seeded next to them. *)
Theorem seeded_alerts_match_flags (column_text : JSValue -> JSValue)
  (txs : list (DemoTransaction * Draws)) :
  NoDup (map (fun td => dt_transaction_id (fst td)) txs) ->
  let d := seedDatabase column_text txs empty_db in
  map tx_transaction_id (transactions d)
  = map (fun td => dt_transaction_id (fst td)) txs /\
  (forall r, In r (transactions d) ->
     (tx_is_fraud r = JNum 1 <->
      In (tx_transaction_id r) (map fa_transaction_id (fraud_alerts d)))) /\
  (forall a, In a (fraud_alerts d) -> fa_cardano_tx_hash a = None).
Proof.
  intros Hn d. subst d. unfold seedDatabase.
  change (fun td : DemoTransaction * Draws => dt_transaction_id (fst td)) with demo_id in *.
  set (d1 := seed_each (fun t => createTransaction (demo_data (fst t))) txs empty_db).
  set (d2 := seed_each (simulate_detection column_text) txs d1).
  set (d3 := seed_each createFraudAlert (generateFraudAlerts txs) d2).
  destruct (@seeded_transactions txs Hn) as (H1 & A1 & _). fold d1 in H1, A1.
  destruct (simulated_frame column_text txs d1) as (H2 & A2 & _). fold d2 in H2, A2.
  destruct (seeded_alerts txs d2) as (T3 & _ & rows & A3 & Hids & Hnone). fold d3 in T3, A3.
  destruct (seeded_records_frame (generateBlockchainRecords txs) d3) as [T4 A4].
  rewrite T4, A4, T3, A3, A2, A1. cbn [app].
  split; [now rewrite H2|]. split.
  - intros r Hr.
    assert (Hin : In (tx_transaction_id r) (map demo_id txs)).
    { rewrite <- H1, <- H2. now apply in_map. }
    apply in_map_iff in Hin. destruct Hin as (td & Etd & Htd).
    rewrite (@simulated_flags column_text txs d1 Hn r td Hr Htd (eq_sym Etd)).
    rewrite Hids, <- Etd. split.
    + intro Hf. apply in_map. apply filter_In. split; [assumption|].
      destruct (suspicious (fst td)); [reflexivity|discriminate].
    + intro Hin. apply in_map_iff in Hin. destruct Hin as (td' & E' & Hin').
      apply filter_In in Hin'. destruct Hin' as [Hin' Hs'].
      rewrite (@NoDup_map_inj _ _ demo_id txs td td' Hn Htd Hin' (eq_sym E')).
      now rewrite Hs'.
  - intros a Ha. rewrite Forall_forall in Hnone. now apply Hnone.
Qed.

Lemma seeded_alerts_match_flags_witness :
  map tx_transaction_id
    (transactions
       (seedDatabase sample_column_text
          [(sample_demo "D1" 1500 12, sample_draws "aa");
           (sample_demo "D2" 20 12, sample_draws "bb")] empty_db))
  = ["D1"; "D2"].
Proof.
  refine (proj1 (@seeded_alerts_match_flags sample_column_text
                   [(sample_demo "D1" 1500 12, sample_draws "aa");
                    (sample_demo "D2" 20 12, sample_draws "bb")] _)).
  cbn [map fst sample_demo dt_transaction_id].
  constructor; [|constructor; [|constructor]]; cbn [In].
  - intros [H|[]]. discriminate H.
  - intros [].
Defined.

(** *** GET /api/blockchain/records/:transactionId *)

Lemma get_record_cases (tid : string) (w : World) :
  snd (get_record tid w) = w /\
  ((exists jr t,
       fst (get_record tid w) = {| answer_status := 200; answer_body := ARecord jr tid |} /\
       In (jr_record jr) (blockchain_records (db w)) /\
       br_transaction_id (jr_record jr) = tid /\
       In t (transactions (db w)) /\ tx_transaction_id t = tid /\
       jr_amount jr = tx_amount t /\
       jr_merchant_name jr = tx_merchant_name t /\
       jr_merchant_category jr = tx_merchant_category t)
   \/
   (fst (get_record tid w)
    = {| answer_status := 404;
         answer_body := AError "Blockchain record not found" (Some tid) None |} /\
    forall br t,
      In br (blockchain_records (db w)) -> br_transaction_id br = tid ->
      In t (transactions (db w)) -> tx_transaction_id t <> tid)).
Proof.
  destruct w as [d subs].
  unfold get_record, reply, bind, lift_db, getBlockchainRecordByTransactionId, ret.
  cbn [db submissions fst snd].
  match goal with
  | |- context [hd_error ?l] => remember l as joined eqn:Ej
  end.
  destruct joined as [|jr rest]; cbn [hd_error fst snd].
  - split; [reflexivity|]. right. split; [reflexivity|].
    intros br t Hbr Ebr Ht Et.
    assert (Hin : In {| jr_record := br;
                        jr_amount := tx_amount t;
                        jr_merchant_name := tx_merchant_name t;
                        jr_merchant_category := tx_merchant_category t |}
                     (@nil JoinedRecord)).
    { rewrite Ej. apply in_flat_map. exists br. split.
      - apply filter_In. split; [assumption|]. now apply String.eqb_eq.
      - apply in_map_iff. exists t. split; [reflexivity|].
        apply filter_In. split; [assumption|].
        apply String.eqb_eq. congruence. }
    destruct Hin.
  - split; [reflexivity|]. left.
    assert (Hin : In jr (jr :: rest)) by now left.
    rewrite Ej in Hin. apply in_flat_map in Hin.
    destruct Hin as (br & Hbr & Hjr).
    apply filter_In in Hbr. destruct Hbr as [Hbr Ebr].
    apply String.eqb_eq in Ebr.
    apply in_map_iff in Hjr. destruct Hjr as (t & Ejr & Ht).
    apply filter_In in Ht. destruct Ht as [Ht Et]. apply String.eqb_eq in Et.
    exists jr, t. subst jr. cbn [jr_record jr_amount jr_merchant_name jr_merchant_category].
    repeat split; try assumption. congruence.
Qed.

(** X13. A recorded transaction is found again.  Provided the ledger
    integration returns records for the transaction it was given: after
    POST /api/blockchain/record has answered 201 for an identifier,
    GET /api/blockchain/records/:transactionId answers 200 for it with a
    stored record of that transaction, joined with the amount and merchant
    of the stored transaction, and leaves the server state as it is. *)
Theorem recorded_transaction_is_found ledger (tid : string) (w : World) :
  (forall w0 t p rd, ledger w0 t p = Ok rd ->
                     rd_transaction_id rd = Some (tx_transaction_id t)) ->
  status (fst (post_record ledger (Some tid) w)) = 201%nat ->
  let w' := snd (post_record ledger (Some tid) w) in
  snd (get_record tid w') = w' /\
  exists jr t,
    fst (get_record tid w') = {| answer_status := 200; answer_body := ARecord jr tid |} /\
    In (jr_record jr) (blockchain_records (db w')) /\
    br_transaction_id (jr_record jr) = tid /\
    In t (transactions (db w)) /\ tx_transaction_id t = tid /\
    jr_amount jr = tx_amount t /\
    jr_merchant_name jr = tx_merchant_name t /\
    jr_merchant_category jr = tx_merchant_category t.
Proof.
  intros Hledger H201 w'.
  assert (Hstored : transactions (db w') = transactions (db w) /\
                    exists br t, In br (blockchain_records (db w')) /\
                                 br_transaction_id br = tid /\
                                 In t (transactions (db w')) /\
                                 tx_transaction_id t = tid).
  { subst w'. revert H201.
    destruct (String.eqb tid "") eqn:Etid.
    { apply String.eqb_eq in Etid. subst tid. destruct w as [d subs].
      unfold post_record, respond, ret. cbn. discriminate. }
    apply String.eqb_neq in Etid.
    destruct (find (fun r => tx_transaction_id r =? tid) (transactions (db w)))
      as [t|] eqn:Hfind.
    2:{ destruct w as [d subs]. cbn [db] in Hfind.
        unfold post_record, respond, bind, lift_db, getTransaction, ret.
        apply String.eqb_neq in Etid. cbn [truthy_str negb]. rewrite Etid.
        cbn [negb db submissions fst snd]. rewrite Hfind. cbn. discriminate. }
    rewrite (@post_record_found ledger tid t w Etid Hfind).
    destruct (find_some _ _ Hfind) as [Ht Et]. apply String.eqb_eq in Et.
    destruct (ledger w t (stored_prediction t)) as [rd|e] eqn:El;
      [|cbn; discriminate].
    pose proof (Hledger _ _ _ _ El) as Erd.
    pose proof (createBlockchainRecord_inserted rd (db w)) as I.
    destruct (createBlockchainRecord rd (db w)) as [[n|e] d'];
      [|cbn; discriminate].
    intros _. cbn [snd logged db].
    inversion I as [tid' hash Et' Eh Hn row Hn' | | |]. subst d'.
    cbn [transactions blockchain_records]. split; [reflexivity|].
    exists row, t. split; [apply in_app_iff; right; now left|].
    split; [|split; assumption].
    subst row. cbn [br_transaction_id]. congruence. }
  destruct Hstored as (Htx & br & t & Hbr & Ebr & Ht & Et).
  destruct (get_record_cases tid w') as [Hsame [Hfound|[_ Hnone]]].
  - split; [exact Hsame|].
    destruct Hfound as (jr & t' & H).
    exists jr, t'. rewrite <- Htx. exact H.
  - exfalso. exact (Hnone br t Hbr Ebr Ht Et).
Qed.

Lemma recorded_transaction_is_found_witness :
  snd (get_record "TX1" (snd (post_record fresh_hash_ledger (Some "TX1") sample_world)))
  = snd (post_record fresh_hash_ledger (Some "TX1") sample_world).
Proof.
  refine (proj1 (@recorded_transaction_is_found fresh_hash_ledger "TX1" sample_world _ _)).
  - intros w0 t p rd E. unfold fresh_hash_ledger in E.
    injection E as <-. reflexivity.
  - reflexivity.
Defined.

(** *** The reason [runFraudDetection] gives *)

Section Reasons.

Variable JSON_parse : string -> Result JSValue.
Variable ToNumber_text : JSValue -> option Q.

Lemma parsed_reason (output : string) (detection : FraudDetection) :
  parse_output JSON_parse ToNumber_text output = Ok (Some detection) ->
  (truthy (fd_is_fraud detection) = true <->
   fd_fraud_reason detection <> "Legitimate transaction") /\
  fd_fraud_reason detection <> "".
Proof.
  unfold parse_output. intro H.
  destruct (predictionLine output) as [line|]; [|discriminate].
  destruct (prediction JSON_parse line) as [p|]; cbn [rbind] in H; [|discriminate].
  destruct (get_prop p "is_fraud") as [is_fraud|]; cbn [rbind] in H; [|discriminate].
  destruct (truthy is_fraud) eqn:Ef.
  - destruct (get_prop p "xgb_probability") as [xgb|]; cbn [rbind] in H; [|discriminate].
    destruct (get_prop p "kmeans_anomaly") as [km|]; cbn [rbind] in H; [|discriminate].
    destruct (get_prop p "anomaly_distance") as [dist|]; cbn [rbind] in H; [|discriminate].
    destruct (get_prop p "fraud_score") as [score|]; cbn [rbind] in H; [|discriminate].
    destruct (get_prop p "confidence") as [conf|]; cbn [rbind] in H; [|discriminate].
    injection H as <-. cbn [fd_is_fraud fd_fraud_reason]. rewrite Ef.
    destruct (js_gt ToNumber_text xgb (7 # 10)), (truthy km),
      (js_gt ToNumber_text dist 2); cbn;
      (split; [split; [discriminate|reflexivity]|discriminate]).
  - cbn [rbind] in H.
    destruct (get_prop p "fraud_score") as [score|]; cbn [rbind] in H; [|discriminate].
    destruct (get_prop p "confidence") as [conf|]; cbn [rbind] in H; [|discriminate].
    destruct (get_prop p "xgb_probability") as [xgb|]; cbn [rbind] in H; [|discriminate].
    destruct (get_prop p "kmeans_anomaly") as [km|]; cbn [rbind] in H; [|discriminate].
    injection H as <-. cbn [fd_is_fraud fd_fraud_reason]. rewrite Ef.
    split; [split; [discriminate|intro; congruence]|discriminate].
Qed.

End Reasons.

(** X14. The reason goes with the flag.  Whatever the scoring process
    prints, once it has closed, the prediction [runFraudDetection] resolves
    with has a reason that is never empty, and that is
    ['Legitimate transaction'] exactly when its [is_fraud] is falsy: a
    prediction flagged as fraud always names a reason of its own.  A process
    that never closes leaves the promise pending. *)
Theorem fraud_reason_goes_with_flag
  (JSON_parse : string -> Result JSValue) (ToNumber_text : JSValue -> option Q)
  (fraud_detector_py : TransactionData -> Process)
  (transactionData : TransactionData) :
  match fraud_detector_py transactionData with
  | Closed _ _ =>
      exists detection,
        runFraudDetection JSON_parse ToNumber_text fraud_detector_py transactionData
        = Settles (Resolved detection) /\
        (truthy (fd_is_fraud detection) = false <->
         fd_fraud_reason detection = "Legitimate transaction") /\
        fd_fraud_reason detection <> ""
  | Unclosed =>
      runFraudDetection JSON_parse ToNumber_text fraud_detector_py transactionData
      = Pending
  end.
Proof.
  assert (Hfallback :
            (truthy (fd_is_fraud fallback) = false <->
             fd_fraud_reason fallback = "Legitimate transaction") /\
            fd_fraud_reason fallback <> "").
  { split; [split; reflexivity|discriminate]. }
  unfold runFraudDetection.
  destruct (fraud_detector_py transactionData) as [code output|]; [|reflexivity].
  unfold on_close.
  destruct code as [[|c|c]|]; try (exists fallback; split; [reflexivity|exact Hfallback]).
  destruct (parse_output JSON_parse ToNumber_text output) as [[detection|]|e] eqn:Hp;
    try (exists fallback; split; [reflexivity|exact Hfallback]).
  exists detection. split; [reflexivity|].
  destruct (@parsed_reason JSON_parse ToNumber_text output detection Hp) as [[Hto Hfrom] Hne].
  split; [|exact Hne]. split.
  - intros Hf. destruct (string_dec (fd_fraud_reason detection) "Legitimate transaction")
      as [E|E]; [exact E|]. rewrite (Hfrom E) in Hf. discriminate.
  - intros E. destruct (truthy (fd_is_fraud detection)); [|reflexivity].
    exfalso. now apply Hto.
Qed.

(** X15. POST /api/fraud/retrain answers by the exit code of the training
    process alone.  The server state is never changed.  When the process
    exits with code 0 the answer is 200, whatever it printed: the training
    result is the JSON value of a printed result line, and the fixed
    ['completed'] object when there is no such line or it cannot be parsed.
    With any other exit code, or none, the answer is 500 and its message is
    ['Training failed: '] followed by what the process wrote to standard
    error.  The process is run with [--force] exactly when [force_retrain]
    is truthy, an absent one counting as [false]. *)
Theorem retraining_answers_by_exit_code
  (JSON_parse : string -> Result JSValue)
  (retrain_py : bool -> option Z * string * string)
  (force_retrain : option JSValue) (w : World) :
  let ran := retrain_py (truthy (match force_retrain with
                                  | Some f => f
                                  | None => JBool false
                                  end)) in
  snd (post_retrain JSON_parse retrain_py force_retrain w) = w /\
  (fst (fst ran) = Some 0%Z ->
   exists result,
     fst (post_retrain JSON_parse retrain_py force_retrain w)
     = {| answer_status := 200;
          answer_body := ATrained result "Models retrained successfully" |} /\
     (result = retrained \/ exists text, JSON_parse text = Ok result)) /\
  (fst (fst ran) <> Some 0%Z ->
   fst (post_retrain JSON_parse retrain_py force_retrain w)
   = {| answer_status := 500;
        answer_body := AError "Failed to retrain models" None
                         (Some ("Training failed: " ++ snd ran)) |}).
Proof.
  intros ran. subst ran.
  unfold post_retrain, reply, bind, retrainModels.
  destruct (retrain_py _) as [[code output] errorOutput]. cbn [fst snd].
  unfold retrain_on_close.
  destruct code as [[|c|c]|];
    try (split; [reflexivity|]; split; [discriminate|reflexivity]).
  - destruct (find (includes "Training completed:") (split LF (trim output)))
      as [resultLine|].
    + destruct (nth_error (split "Training completed: " resultLine) 1) as [resultStr|].
      * destruct (JSON_parse resultStr) as [result|e] eqn:Ej;
          (split; [reflexivity|]); (split; [|congruence]); intros _.
        -- exists result. split; [reflexivity|]. right. now exists resultStr.
        -- exists retrained. split; [reflexivity|]. now left.
      * split; [reflexivity|]. split; [|congruence]. intros _.
        exists retrained. split; [reflexivity|]. now left.
    + split; [reflexivity|]. split; [|congruence]. intros _.
      exists retrained. split; [reflexivity|]. now left.
Qed.

Lemma retraining_answers_by_exit_code_witness :
  fst (post_retrain sample_JSON_parse failing_training None sample_world)
  = {| answer_status := 500;
       answer_body :=
         AError "Failed to retrain models" None
           (Some "Training failed: ModuleNotFoundError: No module named xgboost") |}.
Proof.
  apply (proj2 (proj2 (@retraining_answers_by_exit_code
                         sample_JSON_parse failing_training None sample_world))).
  discriminate.
Defined.
